(** * A multi-signature treasury controller: shallow embedding and properties

    The development follows the Python package [treasury_system]:
    [models.py], [policies.py], [emergency.py] and [treasury.py].

    Conventions of the embedding.
    - A [datetime] is a number of whole seconds on the naive time line,
      counted from 1970-01-01 ([time := Z]); the representable ones lie
      between [datetime.min] and [datetime.max], and arithmetic that
      leaves this range raises [OverflowError] as in Python.
    - An amount is a Python [float], an IEEE 754 binary64 number
      ([float := spec_float] with precision 53 and maximal exponent 1024);
      its arithmetic rounds to nearest, ties to even, and its comparisons
      are false on NaN.
    - The builtin [sum] is a parameter ([Builtins]): its rounding on floats
      depends on the version of the interpreter.
    - A method that mutates [self] takes the object and returns the object
      after the call next to the [outcome] of the call.  An exception does
      not undo the mutations done before it was raised.
    - [datetime.now()] and [uuid.uuid4()] are inputs of the call ([now],
      [uuid]).
    - Hash values are kept symbolic ([digest]). *)

From Stdlib Require Import ZArith QArith Qround Lia SpecFloat.
From stdpp Require Import base option gmap strings list fin_maps.

Local Open Scope string_scope.
Local Open Scope list_scope.
Local Open Scope Z_scope.

(** ** Python values shared by all modules *)

(** The exception classes raised by the package and by the builtins it
    uses, with the constant part of their message.  [PolicyViolation]
    carries [policy_name] and [message]. *)
Inductive exn : Type :=
| ValueError (msg : string)
| PermissionError (msg : string)
| RuntimeError (msg : string)
| OverflowError (msg : string)
| ZeroDivisionError
| KeyError (key : string)
| PolicyViolation (policy_name message : string).

Inductive outcome (A : Type) : Type :=
| Returned (a : A)
| Raised (e : exn).
Arguments Returned {A} a.
Arguments Raised {A} e.

#[global] Instance exn_eq_dec : EqDecision exn.
Proof. solve_decision. Defined.

(** *** [datetime] and [timedelta] *)

Abbreviation time := Z (only parsing).

(** [datetime.min] is 0001-01-01 00:00:00 and the last whole second of
    [datetime.max] is 9999-12-31 23:59:59. *)
Definition datetime_min : time := -62135596800.
Definition datetime_max : time := 253402300799.

(** [timedelta(seconds=n)] for an integer [n]: the number of days must not
    exceed 999999999 in magnitude. *)
Definition timedelta (seconds : Z) : outcome Z :=
  if 999999999 <? Z.abs (seconds / 86400)
  then Raised (OverflowError "days; must have magnitude <= 999999999")
  else Returned seconds.

(** [t + d] for a [datetime] [t] and a [timedelta] [d]. *)
Definition datetime_add (t : time) (d : Z) : outcome time :=
  if (t + d <? datetime_min) || (datetime_max <? t + d)
  then Raised (OverflowError "date value out of range")
  else Returned (t + d).

(** *** [float] *)

Abbreviation float := spec_float (only parsing).

Module Float.
Definition prec : Z := 53.
Definition emax : Z := 1024.

Definition zero : float := S754_zero false.
Definition inf : float := S754_infinity false.
Definition nan : float := S754_nan.

(** [float(z)] for an integer, and the literal [n / d]. *)
Definition of_Z (z : Z) : float := binary_normalize prec emax z 0 false.

(** [x + y], [x - y] *)
Definition add (x y : float) : float := SFadd prec emax x y.
Definition sub (x y : float) : float := SFsub prec emax x y.

(** [x < y], [x <= y], [x > y], [x >= y], [x == y]; a comparison with the
    integer [0] is the comparison with [zero]. *)
Definition ltb (x y : float) : bool := SFltb x y.
Definition leb (x y : float) : bool := SFleb x y.
Definition gtb (x y : float) : bool := SFltb y x.
Definition geb (x y : float) : bool := SFleb y x.
Definition eqb (x y : float) : bool := SFeqb x y.

(** [bool(x)]: false on the two zeros only. *)
Definition truth (x : float) : bool := negb (eqb x zero).

(** [x / y]: Python raises on a zero divisor and otherwise returns the
    IEEE quotient. *)
Definition div (x y : float) : outcome float :=
  if eqb y zero then Raised ZeroDivisionError
  else Returned (SFdiv prec emax x y).

(** The integer obtained from [m * 2^e] by dropping the fractional part. *)
Definition truncate (m : positive) (e : Z) : Z :=
  match e with
  | Zneg p => Zpos m / 2 ^ Zpos p
  | _ => Zpos m * 2 ^ e
  end.

(** [int(x)]: truncation towards zero. *)
Definition to_int (x : float) : outcome Z :=
  match x with
  | S754_zero _ => Returned 0
  | S754_finite s m e => Returned (cond_Zopp s (truncate m e))
  | S754_infinity _ =>
      Raised (OverflowError "cannot convert float infinity to integer")
  | S754_nan => Raised (ValueError "cannot convert float NaN to integer")
  end.



Definition is_nan (x : float) : bool :=
  match x with S754_nan => true | _ => false end.

End Float.


(** The builtin [sum] over floats.  CPython adds from left to right up to
    version 3.11 and compensates the rounding error from 3.12 on; the
    development holds for either. *)
Class Builtins : Type := { py_sum : list float -> float }.

(** Summation from left to right, starting from the integer [0]. *)
Definition sum_left_to_right (l : list float) : float :=
  fold_left Float.add l Float.zero.

(** [max(...)] of a non-empty sequence of floats: the first element that
    no later element exceeds. *)
Definition py_max (a : float) (rest : list float) : float :=
  fold_left (fun m x => if Float.gtb x m then x else m) rest a.

(** * models.py *)

Inductive Category : Type :=
| OPERATIONS | MARKETING | DEVELOPMENT | RESEARCH | SECURITY | OTHER.

Inductive ProposalStatus : Type :=
| PENDING | TIME_LOCKED | READY_TO_EXECUTE | EXECUTED | CANCELLED | FAILED.

Inductive TransactionType : Type := TRANSFER | BURN | MINT.

Inductive PeriodType : Type := DAILY | WEEKLY | MONTHLY.

#[global] Instance Category_eq_dec : EqDecision Category.
Proof. solve_decision. Defined.
#[global] Instance ProposalStatus_eq_dec : EqDecision ProposalStatus.
Proof. solve_decision. Defined.
#[global] Instance TransactionType_eq_dec : EqDecision TransactionType.
Proof. solve_decision. Defined.
#[global] Instance PeriodType_eq_dec : EqDecision PeriodType.
Proof. solve_decision. Defined.

(** [Category.value] *)
Definition Category_value (c : Category) : string :=
  match c with
  | OPERATIONS => "operations" | MARKETING => "marketing"
  | DEVELOPMENT => "development" | RESEARCH => "research"
  | SECURITY => "security" | OTHER => "other"
  end.

Module Transaction.
Record t : Type := mk {
  tx_id : string;
  tx_type : TransactionType;
  recipient : string;
  amount : float;
  coin_type : string;
  description : string;
  metadata : list (string * string)
}.
End Transaction.

(** Symbolic hash values: [Transaction.compute_hash] (SHA-256 of the
    canonical JSON), the builtin [hash] of
    [Treasury._compute_proposal_hash] (applied to the proposal id, the tuple
    of the hashes of [txs] and the category value), and a plain string. *)
Inductive digest : Type :=
| Sha256Json (tx : Transaction.t)
| PyHash (proposal_id : string) (txs : list Transaction.t) (category_value : string)
| Plain (s : string).

Definition compute_hash (tx : Transaction.t) : digest := Sha256Json tx.

Module Signature.
Record t : Type := mk {
  signer : string;
  signature : string;
  timestamp : time;
  tx_hash : digest
}.

Definition verify_signature (self : t) : bool :=
  bool_decide (0 < String.length (signature self))%nat
  && bool_decide (0 < String.length (signer self))%nat.
End Signature.

Module Proposal.
Record t : Type := mk {
  proposal_id : string;
  creator : string;
  transactions : list Transaction.t;
  category : Category;
  description : string;
  threshold_required : Z;
  created_at : time;
  time_lock_duration : Z;
  status : ProposalStatus;
  signatures : gmap string Signature.t;
  executed_at : option time;
  cancelled_at : option time
}.

Definition get_signature_count (self : t) : Z :=
  Z.of_nat (size (signatures self)).

Definition is_signed_by (self : t) (signer : string) : bool :=
  bool_decide (is_Some (signatures self !! signer)).

(** [status in [PENDING, TIME_LOCKED]] *)
Definition signable (s : ProposalStatus) : bool :=
  match s with
  | PENDING | TIME_LOCKED => true
  | _ => false
  end.

(** [self.created_at + timedelta(seconds=self.time_lock_duration)] *)
Definition time_locked_at (self : t) : outcome time :=
  match timedelta (time_lock_duration self) with
  | Raised e => Raised e
  | Returned d => datetime_add (created_at self) d
  end.

Definition can_execute (self : t) (current_time : time) : outcome bool :=
  match time_locked_at self with
  | Raised e => Raised e
  | Returned time_locked_at =>
      Returned
        ((time_locked_at <=? current_time)
         && (threshold_required self <=? Z.of_nat (size (signatures self)))
         && signable (status self))
  end.

Definition set_status (s : ProposalStatus) (self : t) : t :=
  mk (proposal_id self) (creator self) (transactions self) (category self)
     (description self) (threshold_required self) (created_at self)
     (time_lock_duration self) s (signatures self)
     (executed_at self) (cancelled_at self).

Definition set_executed_at (x : option time) (self : t) : t :=
  mk (proposal_id self) (creator self) (transactions self) (category self)
     (description self) (threshold_required self) (created_at self)
     (time_lock_duration self) (status self) (signatures self)
     x (cancelled_at self).

Definition set_cancelled_at (x : option time) (self : t) : t :=
  mk (proposal_id self) (creator self) (transactions self) (category self)
     (description self) (threshold_required self) (created_at self)
     (time_lock_duration self) (status self) (signatures self)
     (executed_at self) x.

Definition set_signatures (x : gmap string Signature.t) (self : t) : t :=
  mk (proposal_id self) (creator self) (transactions self) (category self)
     (description self) (threshold_required self) (created_at self)
     (time_lock_duration self) (status self) x
     (executed_at self) (cancelled_at self).
End Proposal.

Module SpendingRecord.
Record t : Type := mk {
  amount : float;
  timestamp : time;
  category : Category;
  proposal_id : string;
  tx_hash : digest
}.
End SpendingRecord.

Module TreasuryBalance.
Record t : Type := mk {
  coin_type : string;
  amount : float;
  last_updated : time
}.

Definition deposit (now : time) (amount_ : float) (self : t) : outcome unit * t :=
  if Float.leb amount_ Float.zero then
    (Raised (ValueError "Deposit amount must be positive"), self)
  else
    (Returned tt, mk (coin_type self) (Float.add (amount self) amount_) now).

Definition withdraw (now : time) (amount_ : float) (self : t) : outcome bool * t :=
  if Float.leb amount_ Float.zero then
    (Raised (ValueError "Withdrawal amount must be positive"), self)
  else if Float.gtb amount_ (amount self) then
    (Returned false, self)
  else
    (Returned true, mk (coin_type self) (Float.sub (amount self) amount_) now).
End TreasuryBalance.

Module EmergencyAction.
Record t : Type := mk {
  action_id : string;
  action_type : string;
  initiated_by : string;
  initiated_at : time;
  reason : string;
  signatures : gmap string Signature.t;
  executed : bool;
  executed_at : option time
}.

Definition set_signatures (x : gmap string Signature.t) (self : t) : t :=
  mk (action_id self) (action_type self) (initiated_by self)
     (initiated_at self) (reason self) x (executed self) (executed_at self).

Definition mark_executed (at_ : time) (self : t) : t :=
  mk (action_id self) (action_type self) (initiated_by self)
     (initiated_at self) (reason self) (signatures self) true (Some at_).
End EmergencyAction.

Definition Category_to_nat (c : Category) : nat :=
  match c with
  | OPERATIONS => 0 | MARKETING => 1 | DEVELOPMENT => 2
  | RESEARCH => 3 | SECURITY => 4 | OTHER => 5
  end%nat.

Definition Category_of_nat (n : nat) : Category :=
  match n with
  | 0 => OPERATIONS | 1 => MARKETING | 2 => DEVELOPMENT
  | 3 => RESEARCH | 4 => SECURITY | _ => OTHER
  end%nat.

#[global] Instance Category_countable : Countable Category.
Proof.
  apply (inj_countable' Category_to_nat Category_of_nat).
  intros []; reflexivity.
Defined.

(** * policies.py *)

(** The [context] dictionary threaded through validation.  A key that is
    absent from the dictionary is [None]. *)
Module Context.
Record t : Type := mk {
  category : option Category;
  current_time : option time;
  signatures : option (gmap string Signature.t);
  required_time_lock : option Z;
  required_threshold : option Z
}.

Definition set_required_time_lock (x : Z) (c : t) : t :=
  mk (category c) (current_time c) (signatures c) (Some x) (required_threshold c).

Definition set_required_threshold (x : Z) (c : t) : t :=
  mk (category c) (current_time c) (signatures c) (required_time_lock c) (Some x).
End Context.

(** ** Calendar arithmetic behind [get_period_start] *)

Definition seconds_per_day : Z := 86400.

(** [datetime.replace(hour=0, minute=0, second=0, microsecond=0)] *)
Definition midnight (t : time) : time := (t / seconds_per_day) * seconds_per_day.

(** [datetime.weekday()]: Monday is 0; the first day of the time line,
    1970-01-01, is a Thursday. *)
Definition weekday (t : time) : Z := (t / seconds_per_day + 3) mod 7.

(** [datetime.day]: the day of the month in the proleptic Gregorian
    calendar, by the usual era / day-of-era decomposition counted from
    0000-03-01. *)
Definition day_of_month (t : time) : Z :=
  let z := t / seconds_per_day + 719468 in
  let era := z / 146097 in
  let doe := z - era * 146097 in
  let yoe := (doe - doe / 1460 + doe / 36524 - doe / 146096) / 365 in
  let doy := doe - (365 * yoe + yoe / 4 - yoe / 100) in
  let mp := (5 * doy + 2) / 153 in
  doy - (153 * mp + 2) / 5 + 1.

Module SpendingLimitPolicy.
Record t : Type := mk {
  policy_id : string;
  enabled : bool;
  period_type : PeriodType;
  limit_per_category : gmap Category float;
  global_limit : option float;
  max_per_transaction : option float;
  spending_history : list SpendingRecord.t
}.

Definition add_spending_record (record : SpendingRecord.t) (self : t) : t :=
  mk (policy_id self) (enabled self) (period_type self)
     (limit_per_category self) (global_limit self)
     (max_per_transaction self) (spending_history self ++ [record]).

Definition get_period_start (self : t) (current_time : time) : time :=
  match period_type self with
  | DAILY => midnight current_time
  | WEEKLY => midnight (current_time - weekday current_time * seconds_per_day)
  | MONTHLY =>
      midnight (current_time - (day_of_month current_time - 1) * seconds_per_day)
  end.

Definition get_current_spending {BI : Builtins} (self : t) (category : Category)
    (current_time : time) : float :=
  let period_start := get_period_start self current_time in
  py_sum (map SpendingRecord.amount
          (filter (fun record =>
                     SpendingRecord.category record = category
                     /\ period_start <= SpendingRecord.timestamp record)
                  (spending_history self))).

Definition get_global_spending {BI : Builtins} (self : t) (current_time : time)
    : float :=
  let period_start := get_period_start self current_time in
  py_sum (map SpendingRecord.amount
          (filter (fun record => period_start <= SpendingRecord.timestamp record)
                  (spending_history self))).

(** Truth value of an optional limit: [None] and the zeros are false. *)
Definition truthy (x : option float) : bool :=
  match x with Some q => Float.truth q | None => false end.

Definition validate {BI : Builtins} (now : time) (transaction : Transaction.t)
    (context : Context.t) (self : t) : outcome unit :=
  if negb (enabled self) then Returned tt else
  let category := default OTHER (Context.category context) in
  let current_time := default now (Context.current_time context) in
  let amount := Transaction.amount transaction in
  if truthy (max_per_transaction self)
     && Float.gtb amount (default Float.zero (max_per_transaction self))
  then Raised (PolicyViolation (policy_id self)
                 "Transaction amount exceeds max per transaction")
  else
  let over_category :=
    match limit_per_category self !! category with
    | Some limit =>
        Float.gtb (Float.add (get_current_spending self category current_time) amount)
          limit
    | None => false
    end in
  if over_category
  then Raised (PolicyViolation (policy_id self)
                 "Spending limit exceeded for category")
  else
  if truthy (global_limit self)
     && Float.gtb (Float.add (get_global_spending self current_time) amount)
          (default Float.zero (global_limit self))
  then Raised (PolicyViolation (policy_id self) "Global spending limit exceeded")
  else Returned tt.
End SpendingLimitPolicy.

Module WhitelistPolicy.
Record t : Type := mk {
  policy_id : string;
  enabled : bool;
  approved_recipients : gset string;
  blacklisted_recipients : gset string;
  temporary_entries : gmap string time
}.

Definition init (policy_id : string) (enabled : bool) : t :=
  mk policy_id enabled ∅ ∅ ∅.

Definition set_temporary_entries (x : gmap string time) (self : t) : t :=
  mk (policy_id self) (enabled self) (approved_recipients self)
     (blacklisted_recipients self) x.

Definition add_recipient (recipient : string) (self : t) : outcome unit * t :=
  if decide (recipient ∈ blacklisted_recipients self) then
    (Raised (ValueError "Recipient is blacklisted"), self)
  else
    (Returned tt,
     mk (policy_id self) (enabled self)
        ({[recipient]} ∪ approved_recipients self)
        (blacklisted_recipients self) (temporary_entries self)).

Definition add_temporary_recipient (recipient : string) (expires_at : time)
    (self : t) : outcome unit * t :=
  if decide (recipient ∈ blacklisted_recipients self) then
    (Raised (ValueError "Recipient is blacklisted"), self)
  else
    (Returned tt,
     set_temporary_entries (<[recipient := expires_at]> (temporary_entries self)) self).

Definition remove_recipient (recipient : string) (self : t) : t :=
  mk (policy_id self) (enabled self)
     (approved_recipients self ∖ {[recipient]})
     (blacklisted_recipients self)
     (delete recipient (temporary_entries self)).

Definition blacklist_recipient (recipient : string) (self : t) : t :=
  mk (policy_id self) (enabled self)
     (approved_recipients self ∖ {[recipient]})
     ({[recipient]} ∪ blacklisted_recipients self)
     (delete recipient (temporary_entries self)).

Definition is_recipient_approved (recipient : string) (current_time : time)
    (self : t) : bool * t :=
  if decide (recipient ∈ blacklisted_recipients self) then (false, self)
  else if decide (recipient ∈ approved_recipients self) then (true, self)
  else
    match temporary_entries self !! recipient with
    | Some expires_at =>
        if current_time <? expires_at then (true, self)
        else (false,
              set_temporary_entries (delete recipient (temporary_entries self)) self)
    | None => (false, self)
    end.

Definition validate (now : time) (transaction : Transaction.t)
    (context : Context.t) (self : t) : outcome unit * t :=
  if negb (enabled self) then (Returned tt, self) else
  let current_time := default now (Context.current_time context) in
  let '(approved, self') :=
    is_recipient_approved (Transaction.recipient transaction) current_time self in
  if negb approved then
    (Raised (PolicyViolation (policy_id self) "Recipient is not whitelisted"), self')
  else (Returned tt, self').
End WhitelistPolicy.

Module CategoryPolicy.
Record t : Type := mk {
  policy_id : string;
  enabled : bool;
  required_categories : gset Category;
  category_thresholds : gmap Category Z
}.

Definition set_category_threshold (category : Category) (threshold : Z)
    (self : t) : t :=
  mk (policy_id self) (enabled self) (required_categories self)
     (<[category := threshold]> (category_thresholds self)).

Definition validate (transaction : Transaction.t) (context : Context.t)
    (self : t) : outcome unit :=
  if negb (enabled self) then Returned tt else
  match Context.category context with
  | None =>
      Raised (PolicyViolation (policy_id self)
                "Transaction must have a category assigned")
  | Some category =>
      if bool_decide (required_categories self ≠ ∅)
         && bool_decide (category ∉ required_categories self)
      then Raised (PolicyViolation (policy_id self) "Category is not allowed")
      else Returned tt
  end.
End CategoryPolicy.

Module TimeLockPolicy.
Record t : Type := mk {
  policy_id : string;
  enabled : bool;
  base_lock_duration : gmap Category Z;
  amount_factor : float
}.

(** [TimeLockPolicy(policy_id)]: [amount_factor] defaults to 1000.0. *)
Definition init (policy_id : string) : t := mk policy_id true ∅ (Float.of_Z 1000).

(** The division [amount / self.amount_factor] raises on a zero factor,
    and [int] on a quotient that is infinite or NaN. *)
Definition calculate_lock_duration (self : t) (amount : float)
    (category : Category) : outcome Z :=
  let base := default 3600 (base_lock_duration self !! category) in
  match Float.div amount (amount_factor self) with
  | Raised e => Raised e
  | Returned quotient =>
      match Float.to_int quotient with
      | Raised e => Raised e
      | Returned n =>
          let additional := n * 3600 in
          Returned (base + additional)
      end
  end.

Definition validate (transaction : Transaction.t) (context : Context.t)
    (self : t) : outcome unit * Context.t :=
  if negb (enabled self) then (Returned tt, context) else
  let category := default OTHER (Context.category context) in
  match calculate_lock_duration self (Transaction.amount transaction) category with
  | Raised e => (Raised e, context)
  | Returned lock_duration =>
      (Returned tt,
       Context.set_required_time_lock
         (Z.max (default 0 (Context.required_time_lock context)) lock_duration)
         context)
  end.
End TimeLockPolicy.

Module AmountThresholdPolicy.
(** A range [(min_amount, max_amount, required_threshold)]. *)
Definition range : Type := float * float * Z.

Record t : Type := mk {
  policy_id : string;
  enabled : bool;
  thresholds : list range
}.

(** [min_amt <= amount < max_amt] *)
Definition in_range (amount : float) (r : range) : bool :=
  let '(min_amt, max_amt, _) := r in
  Float.leb min_amt amount && Float.ltb amount max_amt.

Definition get_required_threshold (self : t) (amount : float) : Z :=
  match List.find (in_range amount) (thresholds self) with
  | Some (_, _, threshold) => threshold
  | None =>
      match last (thresholds self) with
      | Some (_, _, threshold) => threshold
      | None => 2
      end
  end.

Definition validate (transaction : Transaction.t) (context : Context.t)
    (self : t) : Context.t :=
  if negb (enabled self) then context else
  let required_threshold :=
    get_required_threshold self (Transaction.amount transaction) in
  Context.set_required_threshold
    (Z.max (default 0 (Context.required_threshold context)) required_threshold)
    context.
End AmountThresholdPolicy.

Module ApprovalPolicy.
Record t : Type := mk {
  policy_id : string;
  enabled : bool;
  required_signers_by_category : gmap Category (gset string);
  veto_signers : gset string;
  multi_tier_signers : gmap string Z
}.

Definition add_required_signer (category : Category) (signer : string)
    (self : t) : t :=
  mk (policy_id self) (enabled self)
     (<[category := {[signer]} ∪ default ∅ (required_signers_by_category self !! category)]>
        (required_signers_by_category self))
     (veto_signers self) (multi_tier_signers self).

Definition add_veto_signer (signer : string) (self : t) : t :=
  mk (policy_id self) (enabled self) (required_signers_by_category self)
     ({[signer]} ∪ veto_signers self) (multi_tier_signers self).

Definition validate (transaction : Transaction.t) (context : Context.t)
    (self : t) : outcome unit :=
  if negb (enabled self) then Returned tt else
  let category := default OTHER (Context.category context) in
  let signatures : gmap string Signature.t :=
    default ∅ (Context.signatures context) in
  let missing :=
    match required_signers_by_category self !! category with
    | Some required => negb (bool_decide (required ⊆ dom signatures))
    | None => false
    end in
  if missing
  then Raised (PolicyViolation (policy_id self) "Missing required signers")
  else
  if existsb (fun veto_signer => bool_decide (is_Some (signatures !! veto_signer)))
             (elements (veto_signers self))
  then Raised (PolicyViolation (policy_id self)
                 "Veto signer cannot approve this proposal")
  else Returned tt.
End ApprovalPolicy.

(** The subclasses of [BasePolicy]. *)
Inductive Policy : Type :=
| SpendingLimit (p : SpendingLimitPolicy.t)
| Whitelist (p : WhitelistPolicy.t)
| CategoryRule (p : CategoryPolicy.t)
| TimeLock (p : TimeLockPolicy.t)
| AmountThreshold (p : AmountThresholdPolicy.t)
| Approval (p : ApprovalPolicy.t).

Module BasePolicy.
Definition policy_id (p : Policy) : string :=
  match p with
  | SpendingLimit q => SpendingLimitPolicy.policy_id q
  | Whitelist q => WhitelistPolicy.policy_id q
  | CategoryRule q => CategoryPolicy.policy_id q
  | TimeLock q => TimeLockPolicy.policy_id q
  | AmountThreshold q => AmountThresholdPolicy.policy_id q
  | Approval q => ApprovalPolicy.policy_id q
  end.

Definition get_policy_type (p : Policy) : string :=
  match p with
  | SpendingLimit _ => "spending_limit"
  | Whitelist _ => "whitelist"
  | CategoryRule _ => "category"
  | TimeLock _ => "timelock"
  | AmountThreshold _ => "amount_threshold"
  | Approval _ => "approval"
  end.

(** Dynamic dispatch of [policy.validate(transaction, context)]: the
    outcome, the policy object and the context after the call. *)
Definition validate {BI : Builtins} (now : time) (transaction : Transaction.t)
    (context : Context.t) (p : Policy) : outcome unit * Policy * Context.t :=
  match p with
  | SpendingLimit q =>
      (SpendingLimitPolicy.validate now transaction context q, p, context)
  | Whitelist q =>
      let '(o, q') := WhitelistPolicy.validate now transaction context q in
      (o, Whitelist q', context)
  | CategoryRule q => (CategoryPolicy.validate transaction context q, p, context)
  | TimeLock q =>
      let '(o, context') := TimeLockPolicy.validate transaction context q in
      (o, p, context')
  | AmountThreshold q =>
      (Returned tt, p, AmountThresholdPolicy.validate transaction context q)
  | Approval q => (ApprovalPolicy.validate transaction context q, p, context)
  end.
End BasePolicy.

Module PolicyManager.
(** [self.policies]: a dictionary, iterated in insertion order. *)
Record t : Type := mk { policies : list (string * Policy) }.

Definition init : t := mk [].

Fixpoint dict_set (k : string) (v : Policy) (d : list (string * Policy))
    : list (string * Policy) :=
  match d with
  | [] => [(k, v)]
  | (k', v') :: d' =>
      if decide (k' = k) then (k, v) :: d' else (k', v') :: dict_set k v d'
  end.

Definition add_policy (policy : Policy) (self : t) : t :=
  mk (dict_set (BasePolicy.policy_id policy) policy (policies self)).

Definition remove_policy (policy_id : string) (self : t) : t :=
  mk (filter (fun kv => kv.1 ≠ policy_id) (policies self)).

Definition get_policy (policy_id : string) (self : t) : option Policy :=
  snd <$> List.find (fun kv => bool_decide (kv.1 = policy_id)) (policies self).

Definition list_policies (self : t) : list string := map fst (policies self).

(** The loop [for policy in self.policies.values(): policy.validate(...)];
    the first exception ends it, policies already visited keep their
    mutations. *)
Fixpoint validate_values {BI : Builtins} (now : time) (transaction : Transaction.t)
    (ps : list (string * Policy)) (context : Context.t)
    : outcome unit * list (string * Policy) * Context.t :=
  match ps with
  | [] => (Returned tt, [], context)
  | (k, p) :: rest =>
      match BasePolicy.validate now transaction context p with
      | (Returned _, p', context') =>
          let '(o, rest', context'') :=
            validate_values now transaction rest context' in
          (o, (k, p') :: rest', context'')
      | (Raised e, p', context') => (Raised e, (k, p') :: rest, context')
      end
  end.

Definition validate_transaction {BI : Builtins} (now : time)
    (transaction : Transaction.t)
    (context : Context.t) (self : t) : outcome unit * t * Context.t :=
  let '(o, ps, context') :=
    validate_values now transaction (policies self) context in
  (o, mk ps, context').

(** One pass of the inner loop of [get_required_time_lock]. *)
Fixpoint time_lock_values (transaction : Transaction.t)
    (ps : list (string * Policy)) (context : Context.t) : outcome Context.t :=
  match ps with
  | [] => Returned context
  | (_, TimeLock q) :: rest =>
      match TimeLockPolicy.validate transaction context q with
      | (Returned _, context') => time_lock_values transaction rest context'
      | (Raised e, _) => Raised e
      end
  | _ :: rest => time_lock_values transaction rest context
  end.

Fixpoint time_lock_loop (transactions : list Transaction.t)
    (ps : list (string * Policy)) (context : Context.t) : outcome Context.t :=
  match transactions with
  | [] => Returned context
  | transaction :: rest =>
      match time_lock_values transaction ps context with
      | Returned context' => time_lock_loop rest ps context'
      | Raised e => Raised e
      end
  end.

Definition get_required_time_lock (transactions : list Transaction.t)
    (category : Category) (self : t) : outcome Z :=
  let context := Context.mk (Some category) None None (Some 0) None in
  match time_lock_loop transactions (policies self) context with
  | Returned context' => Returned (default 0 (Context.required_time_lock context'))
  | Raised e => Raised e
  end.

(** [max(t.amount for t in transactions) if transactions else 0] *)
Definition max_amount (transactions : list Transaction.t) : float :=
  match map Transaction.amount transactions with
  | [] => Float.zero
  | a :: rest => py_max a rest
  end.

Fixpoint threshold_values (transaction : Transaction.t)
    (ps : list (string * Policy)) (context : Context.t) : Context.t :=
  match ps with
  | [] => context
  | (_, AmountThreshold q) :: rest =>
      threshold_values transaction rest
        (AmountThresholdPolicy.validate transaction context q)
  | _ :: rest => threshold_values transaction rest context
  end.

Definition get_required_threshold (transactions : list Transaction.t)
    (self : t) : Z :=
  let context := Context.mk None None None None (Some 0) in
  let context' :=
    fold_left
      (fun context transaction =>
         if Float.gtb (max_amount transactions) Float.zero
         then threshold_values transaction (policies self) context
         else context)
      transactions context in
  default 2 (Context.required_threshold context').
End PolicyManager.

(** * emergency.py *)

Module TreasuryConfig.
(** [signers] and [emergency_signers] are set objects.  When both fields
    (and the field of the emergency module) hold the very same object,
    [emergency_signers_own = None]; otherwise the emergency signers are an
    object of their own, of the content given. *)
Record t : Type := mk {
  treasury_id : string;
  signers : gset string;
  threshold : Z;
  emergency_threshold : Z;
  emergency_signers_own : option (gset string);
  emergency_cooldown : Z;
  last_emergency_at : option time
}.

Definition emergency_signers (self : t) : gset string :=
  default (signers self) (emergency_signers_own self).

Definition is_valid_signer (self : t) (signer : string) : bool :=
  bool_decide (signer ∈ signers self).

Definition can_trigger_emergency (self : t) (current_time : time) : bool :=
  match last_emergency_at self with
  | None => true
  | Some last =>
      let elapsed := current_time - last in
      emergency_cooldown self <=? elapsed
  end.

Definition set_signers (x : gset string) (self : t) : t :=
  mk (treasury_id self) x (threshold self) (emergency_threshold self)
     (emergency_signers_own self) (emergency_cooldown self)
     (last_emergency_at self).

Definition set_emergency_signers_own (x : option (gset string)) (self : t) : t :=
  mk (treasury_id self) (signers self) (threshold self)
     (emergency_threshold self) x (emergency_cooldown self)
     (last_emergency_at self).

Definition set_last_emergency_at (x : option time) (self : t) : t :=
  mk (treasury_id self) (signers self) (threshold self)
     (emergency_threshold self) (emergency_signers_own self)
     (emergency_cooldown self) x.

(** A mutation of the set object held by [emergency_signers] that leaves
    it with the content [x]; when the object is shared, [signers] shows
    the same content. *)
Definition set_emergency_signers (x : gset string) (self : t) : t :=
  match emergency_signers_own self with
  | None => set_signers x self
  | Some _ => set_emergency_signers_own (Some x) self
  end.
End TreasuryConfig.

Module EmergencyModule.
(** [self.emergency_signers] is the set object of the configuration; the
    methods that read it take its content as [emergency_signers]. *)
Record t : Type := mk {
  emergency_threshold : Z;
  actions : gmap string EmergencyAction.t
}.

Definition create_emergency_action (uuid : string)
    (emergency_signers : gset string) (initiator action_type reason : string)
    (current_time : time) (self : t) : outcome string * t :=
  if decide (initiator ∉ emergency_signers) then
    (Raised (PermissionError "is not an emergency signer"), self)
  else
    let action_id := uuid in
    let action :=
      EmergencyAction.mk action_id action_type initiator current_time reason
        ∅ false None in
    (Returned action_id,
     mk (emergency_threshold self) (<[action_id := action]> (actions self))).

Definition sign_emergency_action (emergency_signers : gset string)
    (action_id signer signature : string) (current_time : time) (self : t)
    : outcome unit * t :=
  match actions self !! action_id with
  | None => (Raised (ValueError "Emergency action not found"), self)
  | Some action =>
      if decide (signer ∉ emergency_signers) then
        (Raised (PermissionError "is not an emergency signer"), self)
      else if decide (is_Some (EmergencyAction.signatures action !! signer)) then
        (Raised (ValueError "has already signed this action"), self)
      else if EmergencyAction.executed action then
        (Raised (ValueError "Cannot sign an executed emergency action"), self)
      else
        let sig :=
          Signature.mk signer signature current_time
            (Plain (EmergencyAction.action_id action)) in
        let action' :=
          EmergencyAction.set_signatures
            (<[signer := sig]> (EmergencyAction.signatures action)) action in
        (Returned tt,
         mk (emergency_threshold self) (<[action_id := action']> (actions self)))
  end.

Definition get_action (action_id : string) (self : t) : option EmergencyAction.t :=
  actions self !! action_id.

Definition can_execute_action (action_id : string) (self : t) : bool :=
  match actions self !! action_id with
  | None => false
  | Some action =>
      (emergency_threshold self <=? Z.of_nat (size (EmergencyAction.signatures action)))
      && negb (EmergencyAction.executed action)
  end.

(** The two mutators of the set object: its content after the call. *)
Definition add_emergency_signer (emergency_signers : gset string)
    (signer : string) (self : t) : gset string :=
  {[signer]} ∪ emergency_signers.

Definition remove_emergency_signer (emergency_signers : gset string)
    (signer : string) (self : t) : outcome unit * gset string :=
  if Z.of_nat (size emergency_signers) <=? emergency_threshold self then
    (Raised (ValueError "Cannot remove signer when it would drop below threshold"),
     emergency_signers)
  else (Returned tt, emergency_signers ∖ {[signer]}).
End EmergencyModule.

(** * treasury.py *)

(** Values stored in the [details] dictionary of an audit log entry. *)
Inductive detail : Type :=
| DStr (s : string)
| DInt (z : Z)
| DNum (x : float).

Module TreasuryAuditLog.
Record t : Type := mk {
  timestamp : time;
  action : string;
  actor : string;
  proposal_id : option string;
  details : list (string * detail)
}.
End TreasuryAuditLog.

(** [str(e)] *)
Definition exn_str (e : exn) : string :=
  match e with
  | ValueError m | PermissionError m | RuntimeError m => m
  | OverflowError m | KeyError m => m
  | ZeroDivisionError => "float division by zero"
  | PolicyViolation n m => String.append n (String.append ": " m)
  end.

Module Treasury.
Record t : Type := mk {
  treasury_id : string;
  config : TreasuryConfig.t;
  balances : gmap string TreasuryBalance.t;
  proposals : gmap string Proposal.t;
  policy_manager : PolicyManager.t;
  emergency_module : EmergencyModule.t;
  spending_records : list SpendingRecord.t;
  audit_logs : list TreasuryAuditLog.t;
  frozen : bool
}.

Definition set_config (x : TreasuryConfig.t) (self : t) : t :=
  mk (treasury_id self) x (balances self) (proposals self)
     (policy_manager self) (emergency_module self) (spending_records self)
     (audit_logs self) (frozen self).

Definition set_balances (x : gmap string TreasuryBalance.t) (self : t) : t :=
  mk (treasury_id self) (config self) x (proposals self)
     (policy_manager self) (emergency_module self) (spending_records self)
     (audit_logs self) (frozen self).

Definition set_proposals (x : gmap string Proposal.t) (self : t) : t :=
  mk (treasury_id self) (config self) (balances self) x
     (policy_manager self) (emergency_module self) (spending_records self)
     (audit_logs self) (frozen self).

Definition set_policy_manager (x : PolicyManager.t) (self : t) : t :=
  mk (treasury_id self) (config self) (balances self) (proposals self)
     x (emergency_module self) (spending_records self)
     (audit_logs self) (frozen self).

Definition set_emergency_module (x : EmergencyModule.t) (self : t) : t :=
  mk (treasury_id self) (config self) (balances self) (proposals self)
     (policy_manager self) x (spending_records self)
     (audit_logs self) (frozen self).

Definition set_spending_records (x : list SpendingRecord.t) (self : t) : t :=
  mk (treasury_id self) (config self) (balances self) (proposals self)
     (policy_manager self) (emergency_module self) x
     (audit_logs self) (frozen self).

Definition set_audit_logs (x : list TreasuryAuditLog.t) (self : t) : t :=
  mk (treasury_id self) (config self) (balances self) (proposals self)
     (policy_manager self) (emergency_module self) (spending_records self)
     x (frozen self).

Definition set_frozen (x : bool) (self : t) : t :=
  mk (treasury_id self) (config self) (balances self) (proposals self)
     (policy_manager self) (emergency_module self) (spending_records self)
     (audit_logs self) x.

(** The set object passed as [emergency_signers]: the one that is also
    passed as [signers], or another one. *)
Inductive signer_set : Type :=
| SameObject
| OtherObject (s : gset string).

(** [Treasury(treasury_id, signers, threshold, emergency_threshold,
    emergency_signers)]; the last two default to [None].  [x or y] takes
    [y] when [x] is [None], [0] or the empty set, and [x] itself
    otherwise: the configuration keeps the objects of the caller.
    [construct] is the body of [__init__] after its check. *)
Definition construct (treasury_id : string) (signers : gset string)
    (threshold : Z) (emergency_threshold : option Z)
    (emergency_signers : option signer_set) : t :=
  let emergency_threshold' :=
    match emergency_threshold with
    | Some n => if n =? 0 then Z.of_nat (size signers) / 2 + 1 else n
    | None => Z.of_nat (size signers) / 2 + 1
    end in
  let emergency_signers_own :=
    match emergency_signers with
    | Some (OtherObject s) => if decide (s = ∅) then None else Some s
    | Some SameObject | None => None
    end in
  let config :=
    TreasuryConfig.mk treasury_id signers threshold emergency_threshold'
      emergency_signers_own 86400 None in
  mk treasury_id config ∅ ∅ PolicyManager.init
     (EmergencyModule.mk emergency_threshold' ∅) [] [] false.

Definition init (treasury_id : string) (signers : gset string) (threshold : Z)
    (emergency_threshold : option Z) (emergency_signers : option signer_set)
    : outcome t :=
  if Z.of_nat (size signers) <? threshold then
    Raised (ValueError "Threshold cannot exceed number of signers")
  else
    Returned (construct treasury_id signers threshold emergency_threshold
                emergency_signers).

Definition _audit_log (now : time) (action actor : string)
    (proposal_id : option string) (details : list (string * detail))
    (self : t) : t :=
  set_audit_logs
    (audit_logs self ++ [TreasuryAuditLog.mk now action actor proposal_id details])
    self.

Definition add_signer (now : time) (new_signer authorizer : string) (self : t)
    : outcome unit * t :=
  if decide (authorizer ∉ TreasuryConfig.signers (config self)) then
    (Raised (PermissionError "is not an authorized signer"), self)
  else
    let config' :=
      TreasuryConfig.set_signers
        ({[new_signer]} ∪ TreasuryConfig.signers (config self)) (config self) in
    (Returned tt,
     _audit_log now "add_signer" authorizer None [("new_signer", DStr new_signer)]
       (set_config config' self)).

Definition remove_signer (now : time) (signer_to_remove authorizer : string)
    (self : t) : outcome unit * t :=
  if decide (authorizer ∉ TreasuryConfig.signers (config self)) then
    (Raised (PermissionError "is not an authorized signer"), self)
  else if Z.of_nat (size (TreasuryConfig.signers (config self)))
          <=? TreasuryConfig.threshold (config self) then
    (Raised (ValueError "Cannot remove signer when it would drop below threshold"),
     self)
  else
    let config1 :=
      TreasuryConfig.set_signers
        (TreasuryConfig.signers (config self) ∖ {[signer_to_remove]})
        (config self) in
    let config2 :=
      TreasuryConfig.set_emergency_signers_own
        ((fun s => s ∖ {[signer_to_remove]})
           <$> TreasuryConfig.emergency_signers_own config1) config1 in
    (Returned tt,
     _audit_log now "remove_signer" authorizer None
       [("removed_signer", DStr signer_to_remove)] (set_config config2 self)).

Definition deposit (now : time) (coin_type : string) (amount : float)
    (depositor : string) (self : t) : outcome unit * t :=
  if Float.leb amount Float.zero then
    (Raised (ValueError "Deposit amount must be positive"), self)
  else
    let balances1 :=
      match balances self !! coin_type with
      | Some _ => balances self
      | None =>
          <[coin_type := TreasuryBalance.mk coin_type Float.zero now]> (balances self)
      end in
    let self1 := set_balances balances1 self in
    let balance :=
      default (TreasuryBalance.mk coin_type Float.zero now)
        (balances self !! coin_type) in
    match TreasuryBalance.deposit now amount balance with
    | (Raised e, _) => (Raised e, self1)
    | (Returned _, balance') =>
        (Returned tt,
         _audit_log now "deposit" depositor None
           [("coin_type", DStr coin_type); ("amount", DNum amount)]
           (set_balances (<[coin_type := balance']> balances1) self1))
    end.

Definition get_balance (coin_type : string) (self : t) : float :=
  match balances self !! coin_type with
  | None => Float.zero
  | Some b => TreasuryBalance.amount b
  end.

Definition get_all_balances (self : t) : gmap string float :=
  TreasuryBalance.amount <$> balances self.

(** The validation loop at the head of [create_proposal]; a
    [PolicyViolation] is re-raised with a prefixed message, any other
    exception passes unchanged. *)
Fixpoint validate_new {BI : Builtins} (now : time) (transactions : list Transaction.t)
    (category : Category) (current_time : time) (pm : PolicyManager.t)
    : outcome unit * PolicyManager.t :=
  match transactions with
  | [] => (Returned tt, pm)
  | transaction :: rest =>
      let context :=
        Context.mk (Some category) (Some current_time) (Some ∅) None None in
      match PolicyManager.validate_transaction now transaction context pm with
      | (Returned _, pm', _) => validate_new now rest category current_time pm'
      | (Raised (PolicyViolation policy_name message), pm', _) =>
          (Raised (PolicyViolation policy_name
                     (String.append "Proposal validation failed: " message)), pm')
      | (Raised e, pm', _) => (Raised e, pm')
      end
  end.

Definition create_proposal {BI : Builtins} (now : time) (uuid : string)
    (creator : string)
    (transactions : list Transaction.t) (category : Category)
    (description : string) (current_time : option time) (self : t)
    : outcome string * t :=
  if decide (creator ∉ TreasuryConfig.signers (config self)) then
    (Raised (PermissionError "is not an authorized signer"), self)
  else if frozen self then
    (Raised (RuntimeError "Treasury is frozen. Cannot create proposals."), self)
  else if bool_decide (transactions = []) then
    (Raised (ValueError "Proposal must contain at least one transaction"), self)
  else if (50 <? length transactions)%nat then
    (Raised (ValueError "Maximum 50 transactions per proposal"), self)
  else
    let current_time := default now current_time in
    match validate_new now transactions category current_time (policy_manager self) with
    | (Raised e, pm') => (Raised e, set_policy_manager pm' self)
    | (Returned _, pm') =>
        let self1 := set_policy_manager pm' self in
        let proposal_id := uuid in
        match PolicyManager.get_required_time_lock transactions category pm' with
        | Raised e => (Raised e, self1)
        | Returned time_lock_duration =>
            let required_threshold :=
              Z.max (TreasuryConfig.threshold (config self1))
                    (PolicyManager.get_required_threshold transactions pm') in
            let proposal :=
              Proposal.mk proposal_id creator transactions category description
                required_threshold current_time time_lock_duration TIME_LOCKED
                ∅ None None in
            (Returned proposal_id,
             _audit_log now "create_proposal" creator (Some proposal_id)
               [("transactions", DInt (Z.of_nat (length transactions)));
                ("category", DStr (Category_value category));
                ("time_lock_duration", DInt time_lock_duration);
                ("threshold", DInt required_threshold)]
               (set_proposals (<[proposal_id := proposal]> (proposals self1)) self1))
        end
    end.

Definition _compute_proposal_hash (proposal : Proposal.t) : digest :=
  PyHash (Proposal.proposal_id proposal) (Proposal.transactions proposal)
    (Category_value (Proposal.category proposal)).

Definition sign_proposal (now : time) (proposal_id signer signature : string)
    (current_time : option time) (self : t) : outcome unit * t :=
  match proposals self !! proposal_id with
  | None => (Raised (ValueError "Proposal not found"), self)
  | Some proposal =>
      if decide (signer ∉ TreasuryConfig.signers (config self)) then
        (Raised (PermissionError "is not an authorized signer"), self)
      else if negb (Proposal.signable (Proposal.status proposal)) then
        (Raised (ValueError "Cannot sign proposal in status"), self)
      else if decide (is_Some (Proposal.signatures proposal !! signer)) then
        (Raised (ValueError "has already signed this proposal"), self)
      else
        let current_time := default now current_time in
        let tx_hash := _compute_proposal_hash proposal in
        let proposal' :=
          Proposal.set_signatures
            (<[signer := Signature.mk signer signature current_time tx_hash]>
               (Proposal.signatures proposal)) proposal in
        (Returned tt,
         _audit_log now "sign_proposal" signer (Some proposal_id)
           [("signature_count",
             DInt (Z.of_nat (size (Proposal.signatures proposal'))))]
           (set_proposals (<[proposal_id := proposal']> (proposals self)) self))
  end.

(** The [for] loop in the [try] block of [execute_proposal]: validation,
    debit and spending record for each transaction in order.  An
    exception leaves the loop; what was debited and recorded before it
    stays. *)
Fixpoint execute_transactions {BI : Builtins} (now : time) (proposal_id : string)
    (proposal : Proposal.t) (current_time : time)
    (transactions : list Transaction.t) (self : t) : outcome unit * t :=
  match transactions with
  | [] => (Returned tt, self)
  | transaction :: rest =>
      let context :=
        Context.mk (Some (Proposal.category proposal)) (Some current_time)
          (Some (Proposal.signatures proposal)) None None in
      let '(o, pm', _) :=
        PolicyManager.validate_transaction now transaction context
          (policy_manager self) in
      let self1 := set_policy_manager pm' self in
      match o with
      | Raised e => (Raised e, self1)
      | Returned _ =>
          let coin_type := Transaction.coin_type transaction in
          match balances self1 !! coin_type with
          | None => (Raised (ValueError "No balance for coin type"), self1)
          | Some balance =>
              match TreasuryBalance.withdraw now (Transaction.amount transaction)
                      balance with
              | (Raised e, _) => (Raised e, self1)
              | (Returned false, _) =>
                  (Raised (ValueError "Insufficient balance"), self1)
              | (Returned true, balance') =>
                  let spending_record :=
                    SpendingRecord.mk (Transaction.amount transaction)
                      current_time (Proposal.category proposal) proposal_id
                      (compute_hash transaction) in
                  let self2 :=
                    set_spending_records
                      (spending_records self1 ++ [spending_record])
                      (set_balances (<[coin_type := balance']> (balances self1))
                         self1) in
                  execute_transactions now proposal_id proposal current_time
                    rest self2
              end
          end
      end
  end.

(** The body of [execute_proposal] once [can_execute] has returned true:
    the [try] block and its handler. *)
Definition execute_checked {BI : Builtins} (now : time) (proposal_id executor : string)
    (proposal : Proposal.t) (current_time : time) (self : t)
    : outcome unit * t :=
  match execute_transactions now proposal_id proposal current_time
          (Proposal.transactions proposal) self with
  | (Returned _, self1) =>
      let proposal' :=
        Proposal.set_executed_at (Some current_time)
          (Proposal.set_status EXECUTED proposal) in
      (Returned tt,
       _audit_log now "execute_proposal" executor (Some proposal_id)
         [("transactions",
           DInt (Z.of_nat (length (Proposal.transactions proposal))));
          ("total_amount",
           DNum (py_sum (map Transaction.amount
                           (Proposal.transactions proposal))))]
         (set_proposals (<[proposal_id := proposal']> (proposals self1))
            self1))
  | (Raised e, self1) =>
      let proposal' := Proposal.set_status FAILED proposal in
      (Raised e,
       _audit_log now "execute_proposal_failed" executor (Some proposal_id)
         [("error", DStr (exn_str e))]
         (set_proposals (<[proposal_id := proposal']> (proposals self1))
            self1))
  end.

(** When [can_execute] returns false the message of the [ValueError] is
    built first, from the same sum of [created_at] and the time lock. *)
Definition execute_proposal {BI : Builtins} (now : time) (proposal_id executor : string)
    (current_time : option time) (self : t) : outcome unit * t :=
  match proposals self !! proposal_id with
  | None => (Raised (ValueError "Proposal not found"), self)
  | Some proposal =>
      let current_time := default now current_time in
      match Proposal.can_execute proposal current_time with
      | Raised e => (Raised e, self)
      | Returned false =>
          match Proposal.time_locked_at proposal with
          | Raised e => (Raised e, self)
          | Returned time_locked_until =>
              (Raised (ValueError "Proposal cannot execute"), self)
          end
      | Returned true =>
          execute_checked now proposal_id executor proposal current_time self
      end
  end.

Definition cancel_proposal (now : time) (proposal_id canceller : string)
    (current_time : option time) (self : t) : outcome unit * t :=
  match proposals self !! proposal_id with
  | None => (Raised (ValueError "Proposal not found"), self)
  | Some proposal =>
      if bool_decide (Proposal.creator proposal ≠ canceller)
         && bool_decide (Proposal.signatures proposal !! canceller = None) then
        (Raised (PermissionError "cannot cancel this proposal"), self)
      else if bool_decide (Proposal.status proposal = EXECUTED) then
        (Raised (ValueError "Cannot cancel an executed proposal"), self)
      else if bool_decide (Proposal.status proposal = CANCELLED) then
        (Raised (ValueError "Proposal already cancelled"), self)
      else
        let current_time := default now current_time in
        let proposal' :=
          Proposal.set_cancelled_at (Some current_time)
            (Proposal.set_status CANCELLED proposal) in
        (Returned tt,
         _audit_log now "cancel_proposal" canceller (Some proposal_id) []
           (set_proposals (<[proposal_id := proposal']> (proposals self)) self))
  end.

Definition get_proposal (proposal_id : string) (self : t) : option Proposal.t :=
  proposals self !! proposal_id.

Definition get_spending_history (category : option Category) (self : t)
    : list SpendingRecord.t :=
  match category with
  | None => spending_records self
  | Some c => filter (fun r => SpendingRecord.category r = c) (spending_records self)
  end.

Definition trigger_emergency_freeze (now : time) (uuid : string)
    (initiator reason : string) (current_time : option time) (self : t)
    : outcome string * t :=
  if decide (initiator ∉ TreasuryConfig.emergency_signers (config self)) then
    (Raised (PermissionError "is not an emergency signer"), self)
  else
    let current_time := default now current_time in
    if negb (TreasuryConfig.can_trigger_emergency (config self) current_time) then
      (Raised (RuntimeError "Emergency cooldown period still active"), self)
    else
      match EmergencyModule.create_emergency_action uuid
              (TreasuryConfig.emergency_signers (config self))
              initiator "freeze" reason current_time (emergency_module self) with
      | (Raised e, em) => (Raised e, set_emergency_module em self)
      | (Returned action_id, em) =>
          (Returned action_id,
           _audit_log now "emergency_freeze_initiated" initiator None
             [("action_id", DStr action_id); ("reason", DStr reason)]
             (set_emergency_module em self))
      end.

Definition sign_emergency_action (now : time)
    (action_id signer signature : string) (current_time : option time)
    (self : t) : outcome unit * t :=
  if decide (signer ∉ TreasuryConfig.emergency_signers (config self)) then
    (Raised (PermissionError "is not an emergency signer"), self)
  else
    let current_time := default now current_time in
    match EmergencyModule.sign_emergency_action
            (TreasuryConfig.emergency_signers (config self))
            action_id signer signature current_time (emergency_module self) with
    | (Raised e, em) => (Raised e, set_emergency_module em self)
    | (Returned _, em) =>
        (Returned tt,
         _audit_log now "emergency_action_signed" signer None
           [("action_id", DStr action_id)] (set_emergency_module em self))
    end.

Definition execute_emergency_action (now : time) (action_id executor : string)
    (current_time : option time) (self : t) : outcome unit * t :=
  match EmergencyModule.actions (emergency_module self) !! action_id with
  | None => (Raised (ValueError "Emergency action not found"), self)
  | Some action =>
      if Z.of_nat (size (EmergencyAction.signatures action))
         <? TreasuryConfig.emergency_threshold (config self) then
        (Raised (ValueError "Insufficient signatures"), self)
      else
        let current_time := default now current_time in
        if bool_decide (EmergencyAction.action_type action = "freeze") then
          let em := emergency_module self in
          let em' :=
            EmergencyModule.mk (EmergencyModule.emergency_threshold em)
              (<[action_id := EmergencyAction.mark_executed current_time action]>
                 (EmergencyModule.actions em)) in
          (Returned tt,
           _audit_log now "emergency_action_executed" executor None
             [("action_id", DStr action_id); ("type", DStr "freeze")]
             (set_emergency_module em'
                (set_config
                   (TreasuryConfig.set_last_emergency_at (Some current_time)
                      (config self))
                   (set_frozen true self))))
        else (Returned tt, self)
  end.

Definition unfreeze_treasury (now : time) (signer reason : string)
    (current_time : option time) (self : t) : outcome unit * t :=
  if decide (signer ∉ TreasuryConfig.emergency_signers (config self)) then
    (Raised (PermissionError "is not an emergency signer"), self)
  else if negb (frozen self) then
    (Raised (ValueError "Treasury is not frozen"), self)
  else
    (Returned tt,
     _audit_log now "treasury_unfrozen" signer None [("reason", DStr reason)]
       (set_frozen false self)).
End Treasury.

(** * Sequences of public operations *)

(** ** The methods of the objects that the treasury holds *)

(** [treasury.emergency_module.create_emergency_action(...)] *)
Definition module_create_emergency_action (uuid initiator action_type reason : string)
    (current_time : time) (self : Treasury.t) : outcome string * Treasury.t :=
  let '(o, em) :=
    EmergencyModule.create_emergency_action uuid
      (TreasuryConfig.emergency_signers (Treasury.config self))
      initiator action_type reason current_time (Treasury.emergency_module self) in
  (o, Treasury.set_emergency_module em self).

(** [treasury.emergency_module.sign_emergency_action(...)] *)
Definition module_sign_emergency_action (action_id signer signature : string)
    (current_time : time) (self : Treasury.t) : outcome unit * Treasury.t :=
  let '(o, em) :=
    EmergencyModule.sign_emergency_action
      (TreasuryConfig.emergency_signers (Treasury.config self))
      action_id signer signature current_time (Treasury.emergency_module self) in
  (o, Treasury.set_emergency_module em self).

(** [treasury.emergency_module.add_emergency_signer(signer)] *)
Definition module_add_emergency_signer (signer : string) (self : Treasury.t)
    : outcome unit * Treasury.t :=
  let config := Treasury.config self in
  (Returned tt,
   Treasury.set_config
     (TreasuryConfig.set_emergency_signers
        (EmergencyModule.add_emergency_signer
           (TreasuryConfig.emergency_signers config) signer
           (Treasury.emergency_module self))
        config)
     self).

(** [treasury.emergency_module.remove_emergency_signer(signer)] *)
Definition module_remove_emergency_signer (signer : string) (self : Treasury.t)
    : outcome unit * Treasury.t :=
  let config := Treasury.config self in
  let '(o, s) :=
    EmergencyModule.remove_emergency_signer
      (TreasuryConfig.emergency_signers config) signer
      (Treasury.emergency_module self) in
  (o, Treasury.set_config (TreasuryConfig.set_emergency_signers s config) self).

(** [treasury.balances[coin_type].deposit(amount)] and
    [treasury.balances[coin_type].withdraw(amount)]; the subscript raises
    when the treasury holds no balance of the coin. *)
Definition balance_deposit (now : time) (coin_type : string) (amount : float)
    (self : Treasury.t) : outcome unit * Treasury.t :=
  match Treasury.balances self !! coin_type with
  | None => (Raised (KeyError coin_type), self)
  | Some balance =>
      let '(o, balance') := TreasuryBalance.deposit now amount balance in
      (o, Treasury.set_balances
            (<[coin_type := balance']> (Treasury.balances self)) self)
  end.

Definition balance_withdraw (now : time) (coin_type : string) (amount : float)
    (self : Treasury.t) : outcome bool * Treasury.t :=
  match Treasury.balances self !! coin_type with
  | None => (Raised (KeyError coin_type), self)
  | Some balance =>
      let '(o, balance') := TreasuryBalance.withdraw now amount balance in
      (o, Treasury.set_balances
            (<[coin_type := balance']> (Treasury.balances self)) self)
  end.

(** A call of a public operation that can change the treasury: a method
    of [Treasury], of its [emergency_module] or of one of its [balances].
    All that can be done through [treasury.policy_manager] and through the
    mutators of the policies it holds is covered by [ConfigurePolicies]. *)
Inductive call : Type :=
| Deposit (coin_type : string) (amount : float) (depositor : string)
| AddSigner (new_signer authorizer : string)
| RemoveSigner (signer_to_remove authorizer : string)
| CreateProposal (uuid creator : string) (transactions : list Transaction.t)
    (category : Category) (description : string) (current_time : option time)
| SignProposal (proposal_id signer signature : string) (current_time : option time)
| ExecuteProposal (proposal_id executor : string) (current_time : option time)
| CancelProposal (proposal_id canceller : string) (current_time : option time)
| TriggerEmergencyFreeze (uuid initiator reason : string) (current_time : option time)
| SignEmergencyAction (action_id signer signature : string)
    (current_time : option time)
| ExecuteEmergencyAction (action_id executor : string) (current_time : option time)
| UnfreezeTreasury (signer reason : string) (current_time : option time)
| ConfigurePolicies (pm : PolicyManager.t)
| ModuleCreateAction (uuid initiator action_type reason : string) (current_time : time)
| ModuleSignAction (action_id signer signature : string) (current_time : time)
| ModuleAddSigner (signer : string)
| ModuleRemoveSigner (signer : string)
| BalanceDeposit (coin_type : string) (amount : float)
| BalanceWithdraw (coin_type : string) (amount : float).

(** The treasury after the call, whether it returned or raised. *)
Definition run {BI : Builtins} (now : time) (c : call) (self : Treasury.t)
    : Treasury.t :=
  match c with
  | Deposit coin_type amount depositor =>
      (Treasury.deposit now coin_type amount depositor self).2
  | AddSigner new_signer authorizer =>
      (Treasury.add_signer now new_signer authorizer self).2
  | RemoveSigner signer_to_remove authorizer =>
      (Treasury.remove_signer now signer_to_remove authorizer self).2
  | CreateProposal uuid creator transactions category description current_time =>
      (Treasury.create_proposal now uuid creator transactions category
         description current_time self).2
  | SignProposal proposal_id signer signature current_time =>
      (Treasury.sign_proposal now proposal_id signer signature current_time self).2
  | ExecuteProposal proposal_id executor current_time =>
      (Treasury.execute_proposal now proposal_id executor current_time self).2
  | CancelProposal proposal_id canceller current_time =>
      (Treasury.cancel_proposal now proposal_id canceller current_time self).2
  | TriggerEmergencyFreeze uuid initiator reason current_time =>
      (Treasury.trigger_emergency_freeze now uuid initiator reason current_time
         self).2
  | SignEmergencyAction action_id signer signature current_time =>
      (Treasury.sign_emergency_action now action_id signer signature
         current_time self).2
  | ExecuteEmergencyAction action_id executor current_time =>
      (Treasury.execute_emergency_action now action_id executor current_time
         self).2
  | UnfreezeTreasury signer reason current_time =>
      (Treasury.unfreeze_treasury now signer reason current_time self).2
  | ConfigurePolicies pm => Treasury.set_policy_manager pm self
  | ModuleCreateAction uuid initiator action_type reason current_time =>
      (module_create_emergency_action uuid initiator action_type reason
         current_time self).2
  | ModuleSignAction action_id signer signature current_time =>
      (module_sign_emergency_action action_id signer signature current_time self).2
  | ModuleAddSigner signer => (module_add_emergency_signer signer self).2
  | ModuleRemoveSigner signer => (module_remove_emergency_signer signer self).2
  | BalanceDeposit coin_type amount => (balance_deposit now coin_type amount self).2
  | BalanceWithdraw coin_type amount =>
      (balance_withdraw now coin_type amount self).2
  end.

(** [uuid.uuid4()] yields an identifier that is not in use. *)
Definition fresh_uuid (c : call) (self : Treasury.t) : Prop :=
  match c with
  | CreateProposal uuid _ _ _ _ _ => Treasury.proposals self !! uuid = None
  | TriggerEmergencyFreeze uuid _ _ _ | ModuleCreateAction uuid _ _ _ _ =>
      EmergencyModule.actions (Treasury.emergency_module self) !! uuid = None
  | _ => True
  end.

(** The states a treasury can be in: after its construction and after any
    further sequence of calls. *)
Inductive reachable {BI : Builtins} : Treasury.t -> Prop :=
| reachable_init treasury_id signers threshold emergency_threshold
    emergency_signers self :
    Treasury.init treasury_id signers threshold emergency_threshold
      emergency_signers = Returned self ->
    reachable self
| reachable_run now c self :
    reachable self -> fresh_uuid c self -> reachable (run now c self).

(** The states reached by sequences of calls none of which is excluded by
    [excluded] in the state it is made in. *)
Inductive reachable_unless {BI : Builtins} (excluded : call -> Treasury.t -> Prop)
    : Treasury.t -> Prop :=
| unless_init treasury_id signers threshold emergency_threshold
    emergency_signers self :
    Treasury.init treasury_id signers threshold emergency_threshold
      emergency_signers = Returned self ->
    reachable_unless excluded self
| unless_run now c self :
    reachable_unless excluded self -> fresh_uuid c self -> ~ excluded c self ->
    reachable_unless excluded (run now c self).

(** ** The end-to-end scenarios of the package as executable examples *)

(** The scenarios are evaluated with the summation of CPython up to 3.11. *)
#[global] Instance left_to_right : Builtins := {| py_sum := sum_left_to_right |}.

Module Scenario.
Definition signers5 : gset string := {["a"; "b"; "c"; "d"; "e"]}.

Definition transfer (tx_id recipient : string) (amount : float) : Transaction.t :=
  Transaction.mk tx_id TRANSFER recipient amount "SUI" "" [].

(** The treasury after construction and the calls [cs], each with the
    clock reading at its time. *)
Definition runs (signers : gset string) (threshold : Z)
    (cs : list (time * call)) : Treasury.t :=
  fold_left (fun s nc => run nc.1 nc.2 s) cs
    (Treasury.construct "treasury" signers threshold None None).

(** Five signers, threshold 3, one transfer of 2500, three signatures. *)
Definition signed : Treasury.t :=
  runs signers5 3
    [(0, Deposit "SUI" (Float.of_Z 100000) "a");
     (0, CreateProposal "p1" "a" [transfer "tx1" "r" (Float.of_Z 2500)]
           OPERATIONS "pay" (Some 0));
     (0, SignProposal "p1" "a" "sig" (Some 0));
     (0, SignProposal "p1" "b" "sig" (Some 0));
     (0, SignProposal "p1" "c" "sig" (Some 0))].

(** The proposal held by [signed]. *)
Definition p1 : Proposal.t :=
  let txs := [transfer "tx1" "r" (Float.of_Z 2500)] in
  let sig s := Signature.mk s "sig" 0 (PyHash "p1" txs "operations") in
  Proposal.mk "p1" "a" txs OPERATIONS "pay" 3 0 0 TIME_LOCKED
    (<["c" := sig "c"]> (<["b" := sig "b"]> {["a" := sig "a"]})) None None.

Definition basic : Treasury.t :=
  run 3601 (ExecuteProposal "p1" "a" (Some 3601)) signed.

(** A proposal of two transfers of 60 against a balance of 100: the first
    one is debited and recorded, the second one fails. *)
Definition partial_calls : list (time * call) :=
  [(0, Deposit "SUI" (Float.of_Z 100) "a");
   (0, CreateProposal "p1" "a"
         [transfer "tx1" "r" (Float.of_Z 60); transfer "tx2" "r" (Float.of_Z 60)]
         OPERATIONS "pay" (Some 0));
   (0, SignProposal "p1" "a" "sig" (Some 0));
   (1, ExecuteProposal "p1" "a" (Some 1))].

Definition partial : Treasury.t := runs {["a"]} 1 partial_calls.

(** The record left by the first transfer of [partial]. *)
Definition partial_record : SpendingRecord.t :=
  SpendingRecord.mk (Float.of_Z 60) 1 OPERATIONS "p1"
    (compute_hash (transfer "tx1" "r" (Float.of_Z 60))).

(** Time-lock escalation: base 3600 for operations, factor 1000. *)
Definition time_lock : TimeLockPolicy.t :=
  TimeLockPolicy.mk "timelock1" true {[OPERATIONS := 3600]} (Float.of_Z 1000).

(** Whitelist with the temporary recipient "R" expiring at 3600. *)
Definition whitelist : WhitelistPolicy.t :=
  WhitelistPolicy.mk "whitelist1" true ∅ ∅ {["R" := 3600]}.

(** Emergency freeze: emergency signers e1, e2, e3 with threshold 2; e1
    creates the action, e1 and e2 sign it. *)
Definition emergency_signed : Treasury.t :=
  fold_left (fun s nc => run nc.1 nc.2 s)
    [(0, TriggerEmergencyFreeze "act" "e1" "incident" (Some 0));
     (0, SignEmergencyAction "act" "e1" "sig" (Some 0));
     (0, SignEmergencyAction "act" "e2" "sig" (Some 0))]
    (Treasury.construct "treasury" signers5 3 (Some 2)
       (Some (Treasury.OtherObject {["e1"; "e2"; "e3"]}))).

Definition emergency_action : EmergencyAction.t :=
  let sig s := Signature.mk s "sig" 0 (Plain "act") in
  EmergencyAction.mk "act" "freeze" "e1" 0 "incident"
    (<["e2" := sig "e2"]> {["e1" := sig "e1"]}) false None.

Definition frozen : Treasury.t :=
  run 10 (ExecuteEmergencyAction "act" "e1" (Some 10)) emergency_signed.

(** The proposal held by [partial], after its failed execution. *)
Definition failed_p1 : Proposal.t :=
  let txs := [transfer "tx1" "r" (Float.of_Z 60); transfer "tx2" "r" (Float.of_Z 60)] in
  Proposal.mk "p1" "a" txs OPERATIONS "pay" 1 0 0 FAILED
    {["a" := Signature.mk "a" "sig" 0 (PyHash "p1" txs "operations")]} None None.

(** Spending-limit block: at most 1000 per transaction. *)
Definition daily_limit : SpendingLimitPolicy.t :=
  SpendingLimitPolicy.mk "limit1" true DAILY ∅ None (Some (Float.of_Z 1000)) [].

(** Amount-threshold escalation: [0,1000) -> 2, [1000,10000) -> 3,
    [10000,inf) -> 4. *)
Definition amount_ranges : AmountThresholdPolicy.t :=
  AmountThresholdPolicy.mk "threshold1" true
    [(Float.of_Z 0, Float.of_Z 1000, 2); (Float.of_Z 1000, Float.of_Z 10000, 3);
     (Float.of_Z 10000, Float.inf, 4)].

(** Five signers, threshold 3, the ranges above, one transfer of 50000
    signed by three signers. *)
Definition escalated : Treasury.t :=
  runs signers5 3
    [(0, ConfigurePolicies
           (PolicyManager.add_policy (AmountThreshold amount_ranges)
              PolicyManager.init));
     (0, Deposit "SUI" (Float.of_Z 100000) "a");
     (0, CreateProposal "p1" "a" [transfer "tx1" "r" (Float.of_Z 50000)]
           OPERATIONS "pay" (Some 0));
     (0, SignProposal "p1" "a" "sig" (Some 0));
     (0, SignProposal "p1" "b" "sig" (Some 0));
     (0, SignProposal "p1" "c" "sig" (Some 0))].

(** A treasury constructed with a threshold of zero. *)
Definition lax : Treasury.t := Treasury.construct "treasury" {["a"]} 0 None None.

(** A transfer of 10^12 under [time_lock], proposed at the end of 2023 and
    signed by three signers: its time lock of 3600000003600 seconds ends
    after the year 9999. *)
Definition distant : Treasury.t :=
  runs signers5 3
    [(1700000000, ConfigurePolicies
           (PolicyManager.add_policy (TimeLock time_lock) PolicyManager.init));
     (1700000000, CreateProposal "p1" "a"
           [transfer "tx1" "r" (Float.of_Z 1000000000000)]
           OPERATIONS "pay" (Some 1700000000));
     (1700000000, SignProposal "p1" "a" "sig" (Some 1700000000));
     (1700000000, SignProposal "p1" "b" "sig" (Some 1700000000));
     (1700000000, SignProposal "p1" "c" "sig" (Some 1700000000))].

(** The proposal held by [distant]. *)
Definition distant_p1 : Proposal.t :=
  let txs := [transfer "tx1" "r" (Float.of_Z 1000000000000)] in
  let sig s := Signature.mk s "sig" 1700000000 (PyHash "p1" txs "operations") in
  Proposal.mk "p1" "a" txs OPERATIONS "pay" 3 1700000000 3600000003600 TIME_LOCKED
    (<["c" := sig "c"]> (<["b" := sig "b"]> {["a" := sig "a"]})) None None.

(** Three signers with threshold 3 and no emergency signers of their own;
    "c" is then removed through the emergency module, whose threshold is
    2. *)
Definition shared : Treasury.t :=
  Treasury.construct "treasury" {["a"; "b"; "c"]} 3 None None.

Definition shared_removed : Treasury.t := run 0 (ModuleRemoveSigner "c") shared.
End Scenario.

(** ** Notions used in the statements *)

(** The terminal statuses of a proposal. *)
Definition terminal (s : ProposalStatus) : bool :=
  match s with
  | EXECUTED | CANCELLED | FAILED => true
  | _ => false
  end.

(** The end of the time lock of [p] is a [datetime]. *)
Definition lock_end_representable (p : Proposal.t) : Prop :=
  Z.abs (Proposal.time_lock_duration p / 86400) <= 999999999
  /\ datetime_min <= Proposal.created_at p + Proposal.time_lock_duration p
     <= datetime_max.

(** The three preconditions of execution, as a proposition. *)
Definition ready (p : Proposal.t) (t : time) : Prop :=
  Proposal.created_at p + Proposal.time_lock_duration p <= t
  /\ Proposal.threshold_required p <= Z.of_nat (size (Proposal.signatures p))
  /\ (Proposal.status p = PENDING \/ Proposal.status p = TIME_LOCKED).

(** The rejection of [execute_proposal] before its [try] block. *)
Definition cannot_execute : exn := ValueError "Proposal cannot execute".

(** A policy that takes part in [get_required_threshold]: an enabled
    [AmountThresholdPolicy]. *)
Definition contributes_threshold (p : Policy) : bool :=
  match p with
  | AmountThreshold q => AmountThresholdPolicy.enabled q
  | _ => false
  end.





(** A key whose lexicographic order is the order in which the comparisons
    put the floats that are not NaN. *)
Definition key (x : float) : Z * Z * Z :=
  match x with
  | S754_infinity true => (-2, 0, 0)
  | S754_finite true m e => (-1, - e, - Zpos m)
  | S754_zero _ => (0, 0, 0)
  | S754_finite false m e => (1, e, Zpos m)
  | S754_infinity false => (2, 0, 0)
  | S754_nan => (3, 0, 0)
  end.

Definition key_lt (a b : Z * Z * Z) : Prop :=
  a.1.1 < b.1.1
  \/ (a.1.1 = b.1.1 /\ (a.1.2 < b.1.2 \/ (a.1.2 = b.1.2 /\ a.2 < b.2))).

Definition key_compare (a b : Z * Z * Z) : comparison :=
  match a.1.1 ?= b.1.1 with
  | Eq => match a.1.2 ?= b.1.2 with
          | Eq => a.2 ?= b.2
          | c => c
          end
  | c => c
  end.



Definition is_time_lock (p : Policy) : bool :=
  match p with TimeLock _ => true | _ => false end.

(** The outcome is a [PermissionError]. *)
Definition permission_denied {A : Type} (o : outcome A) : Prop :=
  exists msg, o = Raised (PermissionError msg).

(** The rejection of [create_proposal] on a frozen treasury. *)
Definition frozen_fault : exn :=
  RuntimeError "Treasury is frozen. Cannot create proposals.".

(** A call result with the [frozen] flag of the treasury set to [b]. *)
Definition with_frozen {A : Type} (b : bool) (r : outcome A * Treasury.t)
    : outcome A * Treasury.t :=
  (r.1, Treasury.set_frozen b r.2).



(** The statuses in which an execution leaves a proposal. *)
Definition attempted (s : ProposalStatus) : bool :=
  match s with
  | EXECUTED | FAILED => true
  | _ => false
  end.

(** A call of [cancel_proposal] on a proposal whose execution failed. *)
Definition cancels_failed (c : call) (self : Treasury.t) : Prop :=
  match c with
  | CancelProposal proposal_id _ _ =>
      exists p, Treasury.proposals self !! proposal_id = Some p
                /\ Proposal.status p = FAILED
  | _ => False
  end.

(** What a call does to the proposals and to the spending records: records
    are only appended, no stored proposal disappears or leaves the statuses
    of an execution, and each new record names a proposal that is in one of
    them after the call. *)
Definition advances (self self' : Treasury.t) : Prop :=
  (forall k p,
     Treasury.proposals self !! k = Some p ->
     exists p', Treasury.proposals self' !! k = Some p'
                /\ (attempted (Proposal.status p) = true ->
                    attempted (Proposal.status p') = true))
  /\ exists new,
       Treasury.spending_records self' = Treasury.spending_records self ++ new
       /\ Forall (fun r =>
                    exists p,
                      Treasury.proposals self' !! SpendingRecord.proposal_id r = Some p
                      /\ attempted (Proposal.status p) = true) new.

(** What a call does to the configuration. *)
Inductive config_step (c c' : TreasuryConfig.t) : Prop :=
| config_same : c' = c -> config_step c c'
| config_added x :
    c' = TreasuryConfig.set_signers ({[x]} ∪ TreasuryConfig.signers c) c ->
    config_step c c'
| config_removed x :
    TreasuryConfig.threshold c < Z.of_nat (size (TreasuryConfig.signers c)) ->
    c' = TreasuryConfig.set_emergency_signers_own
           ((fun s => s ∖ {[x]}) <$> TreasuryConfig.emergency_signers_own c)
           (TreasuryConfig.set_signers (TreasuryConfig.signers c ∖ {[x]}) c) ->
    config_step c c'
| config_emergency t :
    c' = TreasuryConfig.set_last_emergency_at (Some t) c -> config_step c c'
| config_own s :
    c' = TreasuryConfig.set_emergency_signers_own (Some s) c -> config_step c c'.

(** A removal through the emergency module from the set object that the
    signers share with it. *)
Definition removes_shared_signer (c : call) (self : Treasury.t) : Prop :=
  match c with
  | ModuleRemoveSigner _ =>
      TreasuryConfig.emergency_signers_own (Treasury.config self) = None
  | _ => False
  end.


(** ** Further notions *)

(** The record that the execution loop appends for [tx]. *)
Definition record_of (proposal_id : string) (proposal : Proposal.t)
    (current_time : time) (tx : Transaction.t) : SpendingRecord.t :=
  SpendingRecord.mk (Transaction.amount tx) current_time
    (Proposal.category proposal) proposal_id (compute_hash tx).

(** [p'] is [p] after further calls: the terms fixed at creation are the
    same and no signature was removed or replaced. *)
Definition evolves (p p' : Proposal.t) : Prop :=
  Proposal.proposal_id p' = Proposal.proposal_id p
  /\ Proposal.creator p' = Proposal.creator p
  /\ Proposal.transactions p' = Proposal.transactions p
  /\ Proposal.category p' = Proposal.category p
  /\ Proposal.threshold_required p' = Proposal.threshold_required p
  /\ Proposal.created_at p' = Proposal.created_at p
  /\ Proposal.time_lock_duration p' = Proposal.time_lock_duration p
  /\ Proposal.signatures p ⊆ Proposal.signatures p'.

(** [p'] is a proposal as [create_proposal] stores it under [k]. *)
Definition created (self : Treasury.t) (k : string) (p' : Proposal.t) : Prop :=
  Proposal.proposal_id p' = k
  /\ Proposal.creator p' ∈ TreasuryConfig.signers (Treasury.config self)
  /\ Proposal.status p' = TIME_LOCKED
  /\ Proposal.signatures p' = ∅
  /\ Proposal.executed_at p' = None
  /\ Proposal.cancelled_at p' = None
  /\ (1 <= length (Proposal.transactions p') <= 50)%nat
  /\ TreasuryConfig.threshold (Treasury.config self) <= Proposal.threshold_required p'
  /\ 0 <= Proposal.time_lock_duration p'.

(** What a call does to the stored proposals. *)
Inductive proposals_step (self self' : Treasury.t) : Prop :=
| proposals_same :
    Treasury.proposals self' = Treasury.proposals self ->
    proposals_step self self'
| proposals_update k p p' :
    Treasury.proposals self !! k = Some p ->
    Treasury.proposals self' = <[k := p']> (Treasury.proposals self) ->
    evolves p p' ->
    proposals_step self self'
| proposals_create k p' :
    Treasury.proposals self !! k = None ->
    Treasury.proposals self' = <[k := p']> (Treasury.proposals self) ->
    created self k p' ->
    proposals_step self self'.

(** The terms every stored proposal satisfies. *)
Definition well_formed (self : Treasury.t) (k : string) (p : Proposal.t) : Prop :=
  Proposal.proposal_id p = k
  /\ (1 <= length (Proposal.transactions p) <= 50)%nat
  /\ TreasuryConfig.threshold (Treasury.config self) <= Proposal.threshold_required p
  /\ 0 <= Proposal.time_lock_duration p.

(** A spending record is backed by its proposal: the proposal is stored,
    holds at least the signatures it requires, its time lock had elapsed
    when the record was written, and the record is that of one of its
    transactions, of an amount that passed the guard [amount <= 0] of
    [withdraw]. *)
Definition backed (self : Treasury.t) (r : SpendingRecord.t) : Prop :=
  exists p,
    Treasury.proposals self !! SpendingRecord.proposal_id r = Some p
    /\ Proposal.threshold_required p <= Z.of_nat (size (Proposal.signatures p))
    /\ Proposal.created_at p + Proposal.time_lock_duration p
       <= SpendingRecord.timestamp r
    /\ Float.leb (SpendingRecord.amount r) Float.zero = false
    /\ exists tx,
         tx ∈ Proposal.transactions p
         /\ r = record_of (SpendingRecord.proposal_id r) p
                  (SpendingRecord.timestamp r) tx.

(** The [enabled] flag of a policy object. *)
Definition policy_enabled (p : Policy) : bool :=
  match p with
  | SpendingLimit q => SpendingLimitPolicy.enabled q
  | Whitelist q => WhitelistPolicy.enabled q
  | CategoryRule q => CategoryPolicy.enabled q
  | TimeLock q => TimeLockPolicy.enabled q
  | AmountThreshold q => AmountThresholdPolicy.enabled q
  | Approval q => ApprovalPolicy.enabled q
  end.

(** [p'] is the policy object [p] after some validations: the same, except
    that a whitelist may have lost temporary entries. *)
Definition policy_kept (p p' : Policy) : Prop :=
  match p, p' with
  | Whitelist q, Whitelist q' =>
      WhitelistPolicy.policy_id q' = WhitelistPolicy.policy_id q
      /\ WhitelistPolicy.enabled q' = WhitelistPolicy.enabled q
      /\ WhitelistPolicy.approved_recipients q' = WhitelistPolicy.approved_recipients q
      /\ WhitelistPolicy.blacklisted_recipients q'
         = WhitelistPolicy.blacklisted_recipients q
      /\ WhitelistPolicy.temporary_entries q' ⊆ WhitelistPolicy.temporary_entries q
  | _, _ => p' = p
  end.

Definition policies_kept (ps ps' : list (string * Policy)) : Prop :=
  Forall2 (fun kv kv' => kv.1 = kv'.1 /\ policy_kept kv.2 kv'.2) ps ps'.

(** The balance [b] after the debits of the transactions of [txs] in
    [coin_type], one subtraction each, in order. *)
Definition debited_balance (coin_type : string) (txs : list Transaction.t)
    (b : float) : float :=
  fold_left (fun acc tx =>
               if decide (Transaction.coin_type tx = coin_type)
               then Float.sub acc (Transaction.amount tx) else acc)
            txs b.

(** An approval policy asking for the signature of "cfo" on operations. *)
Definition cfo_approval : ApprovalPolicy.t :=
  ApprovalPolicy.mk "approval1" true {[OPERATIONS := {["cfo"]}]} ∅ ∅.

(** An approval policy with the veto signer "b". *)
Definition b_veto : ApprovalPolicy.t :=
  ApprovalPolicy.mk "approval2" true ∅ {["b"]} ∅.

(** [Scenario.signed] with one approval policy installed. *)
Definition with_approval (q : ApprovalPolicy.t) : Treasury.t :=
  run 0 (ConfigurePolicies (PolicyManager.add_policy (Approval q) PolicyManager.init))
    Scenario.signed.




Example calendar_checks :
  day_of_month 0 = 1 /\ weekday 0 = 3
  /\ day_of_month 1709164800 = 29 /\ weekday 1709164800 = 3
  /\ day_of_month 951868800 = 1 /\ weekday 951868800 = 2
  /\ day_of_month (-1) = 31 /\ weekday (-1) = 2
  /\ SpendingLimitPolicy.get_period_start
       (SpendingLimitPolicy.mk "limit" true MONTHLY ∅ None None [])
       (1709164800 + 3600) = 1706745600
  /\ SpendingLimitPolicy.get_period_start
       (SpendingLimitPolicy.mk "limit" true WEEKLY ∅ None None [])
       (1709164800 + 3600) = 1708905600
  /\ SpendingLimitPolicy.get_period_start
       (SpendingLimitPolicy.mk "limit" true DAILY ∅ None None [])
       (1709164800 + 3600) = 1709164800.
Proof. repeat split; vm_compute; reflexivity. Qed.

Example spending_limit_block :
  SpendingLimitPolicy.validate 0 (Scenario.transfer "tx1" "r" (Float.of_Z 1500))
    (Context.mk (Some OPERATIONS) (Some 0) None None None) Scenario.daily_limit
  = Raised (PolicyViolation "limit1"
              "Transaction amount exceeds max per transaction").
Proof. vm_compute. reflexivity. Qed.

Example amount_threshold_escalation :
  Proposal.threshold_required <$> Treasury.proposals Scenario.escalated !! "p1"
  = Some 4
  /\ Treasury.execute_proposal 3601 "p1" "a" (Some 3601) Scenario.escalated
     = (Raised cannot_execute, Scenario.escalated).
Proof. split; vm_compute; reflexivity. Qed.

Example basic_executed :
  Proposal.status <$> Treasury.proposals Scenario.basic !! "p1" = Some EXECUTED
  /\ Treasury.get_balance "SUI" Scenario.basic = Float.of_Z 97500.
Proof. split; vm_compute; reflexivity. Qed.

Example partial_failed :
  Proposal.status <$> Treasury.proposals Scenario.partial !! "p1" = Some FAILED
  /\ map SpendingRecord.proposal_id (Treasury.spending_records Scenario.partial)
     = ["p1"]
  /\ Treasury.get_balance "SUI" Scenario.partial = Float.of_Z 40.
Proof. repeat split; vm_compute; reflexivity. Qed.

(** * Properties *)

(** ** Floats *)













(** *** The order of floats *)

Lemma compare_key (x y : float) :
  Float.is_nan x = false -> Float.is_nan y = false ->
  SFcompare x y = Some (key_compare (key x) (key y)).
Proof.
  intros Hx Hy.
  destruct x as [sx|[|]| |[|] mx ex]; try discriminate Hx;
  destruct y as [sy|[|]| |[|] my ey]; try discriminate Hy; try reflexivity.
  - unfold key_compare. simpl. rewrite Z.compare_opp, (Z.compare_antisym ex ey).
    destruct (ex ?= ey); reflexivity.
Qed.

Lemma compare_nan (x y : float) :
  Float.is_nan x = true \/ Float.is_nan y = true -> SFcompare x y = None.
Proof. intros [H|H]; destruct x, y; try discriminate H; reflexivity. Qed.

Lemma key_compare_lt (a b : Z * Z * Z) : key_compare a b = Lt <-> key_lt a b.
Proof.
  destruct a as [[a1 a2] a3], b as [[b1 b2] b3]. unfold key_compare, key_lt. simpl.
  destruct (Z.compare_spec a1 b1); destruct (Z.compare_spec a2 b2);
    destruct (Z.compare_spec a3 b3); split; intros; try done; lia.
Qed.

Lemma key_compare_eq (a b : Z * Z * Z) : key_compare a b = Eq <-> a = b.
Proof.
  destruct a as [[a1 a2] a3], b as [[b1 b2] b3]. unfold key_compare. simpl.
  destruct (Z.compare_spec a1 b1); destruct (Z.compare_spec a2 b2);
    destruct (Z.compare_spec a3 b3); split; intros Heq; try done;
    try (injection Heq; lia); subst; reflexivity.
Qed.

Lemma key_compare_gt (a b : Z * Z * Z) : key_compare a b = Gt <-> key_lt b a.
Proof.
  destruct a as [[a1 a2] a3], b as [[b1 b2] b3]. unfold key_compare, key_lt. simpl.
  destruct (Z.compare_spec a1 b1); destruct (Z.compare_spec a2 b2);
    destruct (Z.compare_spec a3 b3); split; intros; try done; lia.
Qed.

Lemma ltb_true (x y : float) :
  Float.ltb x y = true
  <-> Float.is_nan x = false /\ Float.is_nan y = false /\ key_lt (key x) (key y).
Proof.
  unfold Float.ltb, SFltb.
  destruct (Float.is_nan x) eqn:Hx;
    [rewrite compare_nan by auto; split; [done|by intros []]|].
  destruct (Float.is_nan y) eqn:Hy;
    [rewrite compare_nan by auto; split; [done|by intros (_ & ? & _)]|].
  rewrite compare_key by done. rewrite <- key_compare_lt.
  destruct (key_compare (key x) (key y)); split; try done; by intros (_ & _ & ?).
Qed.

Lemma leb_true (x y : float) :
  Float.leb x y = true
  <-> Float.is_nan x = false /\ Float.is_nan y = false
      /\ (key_lt (key x) (key y) \/ key x = key y).
Proof.
  unfold Float.leb, SFleb.
  destruct (Float.is_nan x) eqn:Hx;
    [rewrite compare_nan by auto; split; [done|by intros []]|].
  destruct (Float.is_nan y) eqn:Hy;
    [rewrite compare_nan by auto; split; [done|by intros (_ & ? & _)]|].
  rewrite compare_key by done. rewrite <- key_compare_lt, <- key_compare_eq.
  destruct (key_compare (key x) (key y)); split; try done; auto;
    intros (_ & _ & [?|?]); done.
Qed.

Lemma key_lt_trans (a b c : Z * Z * Z) : key_lt a b -> key_lt b c -> key_lt a c.
Proof. unfold key_lt. lia. Qed.

Lemma key_lt_irrefl (a : Z * Z * Z) : ~ key_lt a a.
Proof. unfold key_lt. lia. Qed.

(** [x <= y] excludes [y < x]. *)
Lemma leb_not_gtb (x y : float) : Float.leb x y = true -> Float.ltb y x = false.
Proof.
  intros (Hx & Hy & Hle)%leb_true.
  destruct (Float.ltb y x) eqn:Hlt; [|done].
  apply ltb_true in Hlt as (_ & _ & Hlt). destruct Hle as [Hle|Heq].
  - destruct (key_lt_irrefl (key x)). by eapply key_lt_trans.
  - rewrite Heq in Hlt. by destruct (key_lt_irrefl (key y)).
Qed.

Lemma ltb_not_geb (x y : float) : Float.ltb x y = true -> Float.leb y x = false.
Proof.
  intros (Hx & Hy & Hlt)%ltb_true.
  destruct (Float.leb y x) eqn:Hle; [|done].
  apply leb_true in Hle as (_ & _ & [Hle|Heq]).
  - destruct (key_lt_irrefl (key x)). by eapply key_lt_trans.
  - rewrite Heq in Hlt. by destruct (key_lt_irrefl (key x)).
Qed.

Lemma ltb_leb_trans (x y z : float) :
  Float.ltb x y = true -> Float.leb y z = true -> Float.ltb x z = true.
Proof.
  intros (Hx & Hy & Hlt)%ltb_true (_ & Hz & Hle)%leb_true. apply ltb_true.
  split; [done|]. split; [done|]. destruct Hle as [Hle|Heq].
  - by eapply key_lt_trans.
  - by rewrite <- Heq.
Qed.

Lemma leb_ltb_trans (x y z : float) :
  Float.leb x y = true -> Float.ltb y z = true -> Float.ltb x z = true.
Proof.
  intros (Hx & Hy & Hle)%leb_true (_ & Hz & Hlt)%ltb_true. apply ltb_true.
  split; [done|]. split; [done|]. destruct Hle as [Hle|Heq].
  - by eapply key_lt_trans.
  - by rewrite Heq.
Qed.

Lemma leb_trans (x y z : float) :
  Float.leb x y = true -> Float.leb y z = true -> Float.leb x z = true.
Proof.
  intros (Hx & Hy & Hxy)%leb_true (_ & Hz & Hyz)%leb_true. apply leb_true.
  split; [done|]. split; [done|].
  destruct Hxy as [Hxy|Hxy], Hyz as [Hyz|Hyz].
  - left. by eapply key_lt_trans.
  - left. by rewrite <- Hyz.
  - left. by rewrite Hxy.
  - right. congruence.
Qed.

Lemma ltb_trans (x y z : float) :
  Float.ltb x y = true -> Float.ltb y z = true -> Float.ltb x z = true.
Proof.
  intros (Hx & Hy & Hxy)%ltb_true (_ & Hz & Hyz)%ltb_true. apply ltb_true.
  split; [done|]. split; [done|]. by eapply key_lt_trans.
Qed.

(** ** Statuses *)

Lemma signable_spec (s : ProposalStatus) :
  Proposal.signable s = true <-> s = PENDING \/ s = TIME_LOCKED.
Proof. destruct s; simpl; split; intros H; try done; auto; destruct H; done. Qed.

Lemma signable_not_terminal (s : ProposalStatus) :
  Proposal.signable s = true -> terminal s = false.
Proof. by destruct s. Qed.

(** ** The end of the time lock *)

Lemma classic_representable (p : Proposal.t) :
  lock_end_representable p \/ ~ lock_end_representable p.
Proof. unfold lock_end_representable. lia. Qed.

(** Between two [datetime] values the end of a time lock that is not
    negative is a [datetime] as soon as the lock has elapsed. *)
Lemma ready_representable (p : Proposal.t) (t : time) :
  datetime_min <= Proposal.created_at p ->
  0 <= Proposal.time_lock_duration p ->
  t <= datetime_max ->
  ready p t ->
  lock_end_representable p.
Proof.
  unfold lock_end_representable, datetime_min, datetime_max.
  intros Hc Hl Ht (Hle & _). split; [|lia].
  apply Z.abs_le. split.
  - pose proof (Z.div_pos (Proposal.time_lock_duration p) 86400 Hl). lia.
  - apply Z.div_le_upper_bound; lia.
Qed.

Lemma time_locked_at_representable (p : Proposal.t) :
  lock_end_representable p ->
  Proposal.time_locked_at p
  = Returned (Proposal.created_at p + Proposal.time_lock_duration p).
Proof.
  intros (Hd & Hlo & Hhi). unfold Proposal.time_locked_at, timedelta, datetime_add.
  destruct (Z.ltb_spec 999999999 (Z.abs (Proposal.time_lock_duration p / 86400)));
    [lia|].
  destruct (Z.ltb_spec (Proposal.created_at p + Proposal.time_lock_duration p)
              datetime_min); [lia|].
  destruct (Z.ltb_spec datetime_max
              (Proposal.created_at p + Proposal.time_lock_duration p)); [lia|].
  reflexivity.
Qed.

Lemma time_locked_at_overflow (p : Proposal.t) :
  ~ lock_end_representable p ->
  exists msg, Proposal.time_locked_at p = Raised (OverflowError msg).
Proof.
  intros Hno. unfold Proposal.time_locked_at, timedelta, datetime_add.
  destruct (Z.ltb_spec 999999999 (Z.abs (Proposal.time_lock_duration p / 86400)));
    [by eexists|].
  destruct (Z.ltb_spec (Proposal.created_at p + Proposal.time_lock_duration p)
              datetime_min); [by eexists|].
  destruct (Z.ltb_spec datetime_max
              (Proposal.created_at p + Proposal.time_lock_duration p)); [by eexists|].
  destruct Hno. unfold lock_end_representable. lia.
Qed.

Lemma time_locked_at_returned (p : Proposal.t) (d : time) :
  Proposal.time_locked_at p = Returned d ->
  lock_end_representable p
  /\ d = Proposal.created_at p + Proposal.time_lock_duration p.
Proof.
  intros Hd. destruct (classic_representable p) as [Hr|Hr].
  - split; [exact Hr|]. rewrite (time_locked_at_representable p Hr) in Hd.
    by injection Hd.
  - destruct (time_locked_at_overflow p Hr) as (msg & Hmsg). congruence.
Qed.

Lemma can_execute_ready (p : Proposal.t) (t : time) :
  lock_end_representable p ->
  Proposal.can_execute p t = Returned true <-> ready p t.
Proof.
  intros Hr. unfold Proposal.can_execute, ready.
  rewrite (time_locked_at_representable p Hr).
  split.
  - intros Heq. injection Heq as Heq. revert Heq.
    rewrite !andb_true_iff, !Z.leb_le, signable_spec. tauto.
  - intros Hready. f_equal.
    rewrite !andb_true_iff, !Z.leb_le, signable_spec. tauto.
Qed.

Lemma can_execute_not_ready (p : Proposal.t) (t : time) :
  lock_end_representable p ->
  Proposal.can_execute p t = Returned false <-> ~ ready p t.
Proof.
  intros Hr. rewrite <- (can_execute_ready p t Hr).
  unfold Proposal.can_execute. rewrite (time_locked_at_representable p Hr).
  match goal with |- context [Returned ?b] => destruct b end; split; congruence.
Qed.

Lemma can_execute_overflow (p : Proposal.t) (t : time) :
  ~ lock_end_representable p ->
  exists msg, Proposal.can_execute p t = Raised (OverflowError msg).
Proof.
  intros Hr. destruct (time_locked_at_overflow p Hr) as (msg & Hmsg).
  exists msg. unfold Proposal.can_execute. by rewrite Hmsg.
Qed.

Lemma can_execute_returned (p : Proposal.t) (t : time) (b : bool) :
  Proposal.can_execute p t = Returned b -> lock_end_representable p.
Proof.
  intros Hb. destruct (classic_representable p) as [Hr|Hr]; [exact Hr|].
  destruct (can_execute_overflow p t Hr) as (msg & Hmsg). congruence.
Qed.

(** ** The execution loop *)

Section ExecutionLoop.
Context {BI : Builtins}.
Variables (now : time) (proposal_id : string) (proposal : Proposal.t)
  (current_time : time).

(** The loop touches the policy objects, the balances and the spending
    records, and nothing else. *)
Lemma execute_transactions_frame (txs : list Transaction.t) (self : Treasury.t) :
  let self' :=
    (Treasury.execute_transactions now proposal_id proposal current_time txs self).2 in
  Treasury.proposals self' = Treasury.proposals self
  /\ Treasury.config self' = Treasury.config self
  /\ Treasury.emergency_module self' = Treasury.emergency_module self
  /\ Treasury.audit_logs self' = Treasury.audit_logs self
  /\ Treasury.frozen self' = Treasury.frozen self
  /\ Treasury.treasury_id self' = Treasury.treasury_id self.
Proof.
  revert self. induction txs as [|tx rest IH]; intros self; simpl.
  { done. }
  destruct (PolicyManager.validate_transaction _ _ _ _) as [[o pm'] ctx'].
  destruct o as [[]|e]; simpl; [|done].
  destruct (_ !! _) as [balance|]; simpl; [|done].
  destruct (TreasuryBalance.withdraw _ _ _) as [[[|]|e] balance']; simpl; try done.
  match goal with |- context [Treasury.execute_transactions _ _ _ _ rest ?s] =>
    specialize (IH s) end.
  simpl in IH. exact IH.
Qed.

(** Every record the loop appends carries the identifier of the proposal
    being executed. *)
Lemma execute_transactions_records (txs : list Transaction.t) (self : Treasury.t) :
  exists new,
    Treasury.spending_records
      (Treasury.execute_transactions now proposal_id proposal current_time txs self).2
    = Treasury.spending_records self ++ new
    /\ Forall (fun r => SpendingRecord.proposal_id r = proposal_id) new.
Proof.
  revert self. induction txs as [|tx rest IH]; intros self; simpl.
  { exists []. by rewrite app_nil_r. }
  destruct (PolicyManager.validate_transaction _ _ _ _) as [[o pm'] ctx'].
  destruct o as [[]|e]; simpl; [|exists []; by rewrite app_nil_r].
  destruct (_ !! _) as [balance|]; simpl; [|exists []; by rewrite app_nil_r].
  destruct (TreasuryBalance.withdraw _ _ _) as [[[|]|e] balance']; simpl;
    try (exists []; by rewrite app_nil_r).
  match goal with |- context [Treasury.execute_transactions _ _ _ _ rest ?s] =>
    destruct (IH s) as (new & Heq & Hall) end.
  simpl in Heq. rewrite Heq, <- app_assoc. eexists; split; [reflexivity|].
  constructor; [reflexivity | exact Hall].
Qed.
End ExecutionLoop.

(** Once the precondition holds, [execute_proposal] runs the loop and
    leaves the proposal [EXECUTED] or [FAILED], in step with its outcome. *)
Lemma execute_proposal_proceeds {BI : Builtins}
    (now : time) (proposal_id executor : string)
    (current_time : option time) (self : Treasury.t) (p : Proposal.t) :
  Treasury.proposals self !! proposal_id = Some p ->
  Proposal.can_execute p (default now current_time) = Returned true ->
  let r := Treasury.execute_proposal now proposal_id executor current_time self in
  exists p',
    Treasury.proposals r.2 = <[proposal_id := p']> (Treasury.proposals self)
    /\ ((r.1 = Returned tt /\ Proposal.status p' = EXECUTED)
        \/ ((exists e, r.1 = Raised e) /\ Proposal.status p' = FAILED)).
Proof.
  intros Hp Hcan. unfold Treasury.execute_proposal. rewrite Hp, Hcan. simpl.
  unfold Treasury.execute_checked.
  pose proof (execute_transactions_frame now proposal_id p (default now current_time)
                (Proposal.transactions p) self) as (Hprops & _).
  destruct (Treasury.execute_transactions _ _ _ _ _ _) as [[[]|e] self1];
    simpl in *; rewrite Hprops; eexists; (split; [reflexivity|]).
  - left. done.
  - right. split; [by eexists | done].
Qed.

Lemma execute_proposal_rejected {BI : Builtins}
    (now : time) (proposal_id executor : string)
    (current_time : option time) (self : Treasury.t) (p : Proposal.t) :
  Treasury.proposals self !! proposal_id = Some p ->
  Proposal.can_execute p (default now current_time) = Returned false ->
  Treasury.execute_proposal now proposal_id executor current_time self
  = (Raised cannot_execute, self).
Proof.
  intros Hp Hcan. unfold Treasury.execute_proposal. rewrite Hp, Hcan.
  apply can_execute_returned in Hcan.
  by rewrite (time_locked_at_representable p Hcan).
Qed.

Lemma execute_proposal_overflow {BI : Builtins}
    (now : time) (proposal_id executor : string)
    (current_time : option time) (self : Treasury.t) (p : Proposal.t) :
  Treasury.proposals self !! proposal_id = Some p ->
  ~ lock_end_representable p ->
  exists msg,
    Treasury.execute_proposal now proposal_id executor current_time self
    = (Raised (OverflowError msg), self).
Proof.
  intros Hp Hr.
  destruct (can_execute_overflow p (default now current_time) Hr) as (msg & Hmsg).
  exists msg. unfold Treasury.execute_proposal. by rewrite Hp, Hmsg.
Qed.

(** The three ways in which [execute_proposal] treats a stored proposal. *)
Lemma execute_proposal_cases {BI : Builtins}
    (now : time) (proposal_id executor : string)
    (current_time : option time) (self : Treasury.t) (p : Proposal.t) :
  Treasury.proposals self !! proposal_id = Some p ->
  let r := Treasury.execute_proposal now proposal_id executor current_time self in
  (Proposal.can_execute p (default now current_time) = Returned true
   /\ r = Treasury.execute_checked now proposal_id executor p
            (default now current_time) self)
  \/ (Proposal.can_execute p (default now current_time) = Returned false
      /\ r = (Raised cannot_execute, self))
  \/ (exists msg, r = (Raised (OverflowError msg), self)).
Proof.
  intros Hp r. destruct (classic_representable p) as [Hr|Hr].
  - destruct (Proposal.can_execute p (default now current_time)) as [[|]|e] eqn:Hcan.
    + left. split; [done|]. subst r. unfold Treasury.execute_proposal.
      by rewrite Hp, Hcan.
    + right. left. split; [done|]. by apply execute_proposal_rejected with (p := p).
    + unfold Proposal.can_execute in Hcan.
      by rewrite (time_locked_at_representable p Hr) in Hcan.
  - right. right. by apply execute_proposal_overflow with (p := p).
Qed.

(** ** Preconditions of execution *)

(** The proposal of [Scenario.distant] is not executable an hour after its
    creation, and [execute_proposal] does not raise the [ValueError]
    "Proposal cannot execute" for it: the sum of [created_at] and the time
    lock leaves the range of [datetime] and raises [OverflowError]. *)
Lemma execute_proposal_lock_end_overflow :
  Treasury.proposals Scenario.distant !! "p1" = Some Scenario.distant_p1
  /\ ~ ready Scenario.distant_p1 1700003600
  /\ Treasury.execute_proposal 1700003600 "p1" "a" (Some 1700003600) Scenario.distant
     = (Raised (OverflowError "date value out of range"), Scenario.distant)
  /\ Treasury.execute_proposal 1700003600 "p1" "a" (Some 1700003600) Scenario.distant
     <> (Raised cannot_execute, Scenario.distant).
Proof.
  assert (Hex : Treasury.execute_proposal 1700003600 "p1" "a" (Some 1700003600)
                  Scenario.distant
                = (Raised (OverflowError "date value out of range"), Scenario.distant))
    by (vm_compute; reflexivity).
  split; [vm_compute; reflexivity|].
  split; [intros (Ht & _); vm_compute in Ht; by apply Ht|].
  split; [exact Hex|]. rewrite Hex. discriminate.
Qed.

(** C1. For a proposal [p] stored under [proposal_id] whose time lock ends
    at a representable [datetime], [execute_proposal] at time [t] passes
    its precondition check exactly when the time lock has elapsed
    ([created_at + time_lock_duration <= t]), the signatures reach
    [threshold_required], and the status is [PENDING] or [TIME_LOCKED].
    Otherwise it raises the [ValueError] "Proposal cannot execute" and the
    treasury, [p] included, is unchanged.  When the check passes the body
    runs and leaves the proposal [EXECUTED] or [FAILED].  A proposal with
    exactly [threshold_required] signatures at exactly
    [t = created_at + time_lock_duration] passes.  When the end of the time
    lock is not representable the check itself raises [OverflowError],
    whatever the time and the signatures, and the treasury is unchanged. *)
Theorem execute_proposal_precondition {BI : Builtins}
    (now : time) (proposal_id executor : string)
    (current_time : option time) (self : Treasury.t) (p : Proposal.t) :
  Treasury.proposals self !! proposal_id = Some p ->
  let t := default now current_time in
  let r := Treasury.execute_proposal now proposal_id executor current_time self in
  (lock_end_representable p ->
   (Proposal.can_execute p t = Returned true <-> ready p t)
   /\ (ready p t <-> r <> (Raised cannot_execute, self))
   /\ (~ ready p t -> r = (Raised cannot_execute, self))
   /\ (ready p t ->
       exists p', Treasury.proposals r.2 !! proposal_id = Some p'
                  /\ (Proposal.status p' = EXECUTED \/ Proposal.status p' = FAILED)))
  /\ (Z.of_nat (size (Proposal.signatures p)) = Proposal.threshold_required p ->
      t = Proposal.created_at p + Proposal.time_lock_duration p ->
      Proposal.status p = PENDING \/ Proposal.status p = TIME_LOCKED ->
      ready p t)
  /\ (~ lock_end_representable p ->
      (exists msg, r = (Raised (OverflowError msg), self))
      /\ exists msg, Proposal.can_execute p t = Raised (OverflowError msg)).
Proof.
  intros Hp t r. split; [|split].
  - intros Hrep.
    assert (Hgo : ready p t ->
                  exists p', Treasury.proposals r.2 !! proposal_id = Some p'
                    /\ (Proposal.status p' = EXECUTED \/ Proposal.status p' = FAILED)).
    { intros Hr. apply (can_execute_ready p t Hrep) in Hr.
      destruct (execute_proposal_proceeds now proposal_id executor current_time
                  self p Hp Hr) as (p' & Hmap & Hst).
      exists p'. fold r in Hmap. rewrite Hmap, lookup_insert_eq. split; [done|].
      destruct Hst as [[_ ->]|[_ ->]]; auto. }
    assert (Hno : ~ ready p t -> r = (Raised cannot_execute, self)).
    { intros Hr. apply (can_execute_not_ready p t Hrep) in Hr.
      by apply execute_proposal_rejected with (p := p). }
    split; [by apply can_execute_ready|].
    split; [|split; [exact Hno|exact Hgo]].
    split.
    + intros Hr Heq. destruct (Hgo Hr) as (p' & Hp' & Hst).
      rewrite Heq in Hp'. simpl in Hp'. rewrite Hp in Hp'. injection Hp' as <-.
      destruct Hr as (_ & _ & [Hs|Hs]); rewrite Hs in Hst; by destruct Hst.
    + intros Hne. destruct (Proposal.can_execute p t) as [[|]|e] eqn:Hcan.
      * by apply (can_execute_ready p t Hrep).
      * apply (can_execute_not_ready p t Hrep) in Hcan. by destruct Hne; apply Hno.
      * unfold Proposal.can_execute in Hcan.
        by rewrite (time_locked_at_representable p Hrep) in Hcan.
  - intros Hsz Ht Hs. unfold ready. rewrite Hsz, Ht. split; [lia|]. split; [lia|done].
  - intros Hrep. split.
    + by apply execute_proposal_overflow with (p := p).
    + by apply can_execute_overflow.
Qed.

(** The treasury of [Scenario.signed] holds "p1" with three signatures out
    of three and no time lock: it is executable at its creation time. *)
Lemma execute_proposal_precondition_witness :
  Treasury.proposals Scenario.signed !! "p1" = Some Scenario.p1
  /\ lock_end_representable Scenario.p1
  /\ ready Scenario.p1 0
  /\ Treasury.execute_proposal 0 "p1" "a" (Some 0) Scenario.signed
     <> (Raised cannot_execute, Scenario.signed).
Proof.
  assert (Hp : Treasury.proposals Scenario.signed !! "p1" = Some Scenario.p1)
    by (vm_compute; reflexivity).
  assert (Hrep : lock_end_representable Scenario.p1).
  { unfold lock_end_representable. vm_compute. repeat split; discriminate. }
  split; [exact Hp|]. split; [exact Hrep|].
  pose proof (execute_proposal_precondition 0 "p1" "a" (Some 0) Scenario.signed
                Scenario.p1 Hp) as (Hmain & Hedge & _).
  destruct (Hmain Hrep) as (_ & Hiff & _ & _).
  assert (Hready : ready Scenario.p1 0).
  { apply Hedge; [vm_compute; reflexivity | reflexivity | right; reflexivity]. }
  split; [exact Hready | by apply Hiff].
Defined.

(** ** Spending records and the status of their proposals *)

Lemma advances_quiet (self self' : Treasury.t) :
  Treasury.proposals self' = Treasury.proposals self ->
  Treasury.spending_records self' = Treasury.spending_records self ->
  advances self self'.
Proof.
  intros Hp Hr. split.
  - intros k p Hk. exists p. by rewrite Hp.
  - exists []. by rewrite Hr, app_nil_r.
Qed.

Lemma advances_update (self self' : Treasury.t) (k : string) (p p' : Proposal.t) :
  Treasury.proposals self !! k = Some p ->
  Treasury.proposals self' = <[k := p']> (Treasury.proposals self) ->
  (attempted (Proposal.status p) = true -> attempted (Proposal.status p') = true) ->
  Treasury.spending_records self' = Treasury.spending_records self ->
  advances self self'.
Proof.
  intros Hk Hp Hst Hr. split.
  - intros k0 p0 Hk0. rewrite Hp. destruct (decide (k = k0)) as [<-|Hne].
    + exists p'. rewrite lookup_insert_eq. split; [done|].
      rewrite Hk in Hk0. by injection Hk0 as <-.
    + exists p0. by rewrite lookup_insert_ne.
  - exists []. by rewrite Hr, app_nil_r.
Qed.

Lemma advances_fresh (self self' : Treasury.t) (k : string) (p' : Proposal.t) :
  Treasury.proposals self !! k = None ->
  Treasury.proposals self' = <[k := p']> (Treasury.proposals self) ->
  Treasury.spending_records self' = Treasury.spending_records self ->
  advances self self'.
Proof.
  intros Hk Hp Hr. split.
  - intros k0 p0 Hk0. rewrite Hp. exists p0. rewrite lookup_insert_ne; [done|].
    intros ->. by rewrite Hk in Hk0.
  - exists []. by rewrite Hr, app_nil_r.
Qed.

Lemma create_proposal_advances {BI : Builtins}
    now uuid creator txs category description ct self :
  Treasury.proposals self !! uuid = None ->
  advances self
    (Treasury.create_proposal now uuid creator txs category description ct self).2.
Proof.
  intros Hfresh. unfold Treasury.create_proposal.
  repeat case_match; simpl; try (by apply advances_quiet).
  eapply advances_fresh; [exact Hfresh|reflexivity|reflexivity].
Qed.

Lemma sign_proposal_advances now proposal_id signer signature ct self :
  advances self (Treasury.sign_proposal now proposal_id signer signature ct self).2.
Proof.
  unfold Treasury.sign_proposal.
  repeat case_match; simpl; try (by apply advances_quiet).
  eapply advances_update; [eassumption|reflexivity|done|reflexivity].
Qed.

Lemma cancel_proposal_advances now proposal_id canceller ct self :
  ~ cancels_failed (CancelProposal proposal_id canceller ct) self ->
  advances self (Treasury.cancel_proposal now proposal_id canceller ct self).2.
Proof.
  intros Hex. unfold Treasury.cancel_proposal.
  destruct (Treasury.proposals self !! proposal_id) as [p|] eqn:Hp;
    [|by apply advances_quiet].
  destruct (_ && _); [by apply advances_quiet|].
  destruct (bool_decide (Proposal.status p = EXECUTED)) eqn:He;
    [by apply advances_quiet|].
  destruct (bool_decide (Proposal.status p = CANCELLED)) eqn:Hc;
    [by apply advances_quiet|].
  simpl. eapply advances_update; [exact Hp|reflexivity| |reflexivity].
  intros Hatt. destruct (Proposal.status p) eqn:Hs; try discriminate.
  destruct Hex. simpl. by exists p.
Qed.

Lemma execute_proposal_advances {BI : Builtins} now proposal_id executor ct self :
  advances self (Treasury.execute_proposal now proposal_id executor ct self).2.
Proof.
  destruct (Treasury.proposals self !! proposal_id) as [p|] eqn:Hp.
  2: { unfold Treasury.execute_proposal. rewrite Hp. by apply advances_quiet. }
  destruct (execute_proposal_cases now proposal_id executor ct self p Hp)
    as [[Hcan Hr]|[[_ Hr]|[msg Hr]]].
  2, 3: rewrite Hr; by apply advances_quiet.
  destruct (execute_proposal_proceeds now proposal_id executor ct self p Hp Hcan)
    as (p' & Hmap & Hst).
  assert (Hterm : attempted (Proposal.status p') = true)
    by (destruct Hst as [[_ ->]|[_ ->]]; reflexivity).
  assert (Hrec : exists new,
             Treasury.spending_records
               (Treasury.execute_proposal now proposal_id executor ct self).2
             = Treasury.spending_records self ++ new
             /\ Forall (fun r => SpendingRecord.proposal_id r = proposal_id) new).
  { rewrite Hr. unfold Treasury.execute_checked.
    pose proof (execute_transactions_records now proposal_id p (default now ct)
                  (Proposal.transactions p) self) as Hrec.
    destruct (Treasury.execute_transactions _ _ _ _ _ _) as [[[]|e] self1];
      exact Hrec. }
  destruct Hrec as (new & Hnew & Hall). split.
  - intros k p0 Hk0. rewrite Hmap. destruct (decide (proposal_id = k)) as [<-|Hne].
    + exists p'. by rewrite lookup_insert_eq.
    + exists p0. by rewrite lookup_insert_ne.
  - exists new. split; [exact Hnew|].
    eapply Forall_impl; [exact Hall|]. intros r ->. exists p'.
    by rewrite Hmap, lookup_insert_eq.
Qed.

Lemma run_advances {BI : Builtins} (now : time) (c : call) (self : Treasury.t) :
  fresh_uuid c self -> ~ cancels_failed c self -> advances self (run now c self).
Proof.
  intros Hfresh Hex. destruct c; simpl in Hfresh; cbn [run].
  - unfold Treasury.deposit, TreasuryBalance.deposit.
    repeat case_match; simplify_eq; by apply advances_quiet.
  - unfold Treasury.add_signer. repeat case_match; by apply advances_quiet.
  - unfold Treasury.remove_signer. repeat case_match; by apply advances_quiet.
  - by apply create_proposal_advances.
  - apply sign_proposal_advances.
  - apply execute_proposal_advances.
  - by apply cancel_proposal_advances.
  - unfold Treasury.trigger_emergency_freeze, EmergencyModule.create_emergency_action.
    repeat case_match; simplify_eq; by apply advances_quiet.
  - unfold Treasury.sign_emergency_action, EmergencyModule.sign_emergency_action.
    repeat case_match; simplify_eq; by apply advances_quiet.
  - unfold Treasury.execute_emergency_action.
    repeat case_match; by apply advances_quiet.
  - unfold Treasury.unfreeze_treasury. repeat case_match; by apply advances_quiet.
  - by apply advances_quiet.
  - unfold module_create_emergency_action. case_match. by apply advances_quiet.
  - unfold module_sign_emergency_action. case_match. by apply advances_quiet.
  - by apply advances_quiet.
  - unfold module_remove_emergency_signer. case_match. by apply advances_quiet.
  - unfold balance_deposit. repeat case_match; by apply advances_quiet.
  - unfold balance_withdraw. repeat case_match; by apply advances_quiet.
Qed.

Lemma reachable_unless_reachable {BI : Builtins} (excluded : call -> Treasury.t -> Prop)
    (self : Treasury.t) :
  reachable_unless excluded self -> reachable self.
Proof.
  induction 1 as [id signers thr et es self Hinit | now c self _ IH Hfresh _].
  - by apply (reachable_init id signers thr et es).
  - by apply reachable_run.
Qed.

Lemma reachable_advances_closed {BI : Builtins} (self : Treasury.t) :
  reachable_unless cancels_failed self ->
  Forall (fun r =>
            exists p,
              Treasury.proposals self !! SpendingRecord.proposal_id r = Some p
              /\ attempted (Proposal.status p) = true)
         (Treasury.spending_records self).
Proof.
  induction 1 as [id signers thr et es self Hinit | now c self Hreach IH Hfresh Hex].
  - unfold Treasury.init in Hinit. case_match; simplify_eq. constructor.
  - destruct (run_advances now c self Hfresh Hex) as (Hkeep & new & Hrec & Hnew).
    rewrite Hrec. apply Forall_app. split; [|exact Hnew].
    eapply Forall_impl; [exact IH|]. intros r (p & Hp & Hterm).
    destruct (Hkeep _ _ Hp) as (p' & Hp' & Hst). exists p'. auto.
Qed.

Lemma reachable_partial : reachable Scenario.partial.
Proof.
  unfold Scenario.partial, Scenario.runs, Scenario.partial_calls.
  cbn [fold_left fst snd].
  do 4 (apply reachable_run; [|vm_compute; done]).
  apply (reachable_init "treasury" {["a"]} 1 None None). vm_compute. reflexivity.
Qed.

Lemma reachable_unless_partial : reachable_unless cancels_failed Scenario.partial.
Proof.
  unfold Scenario.partial, Scenario.runs, Scenario.partial_calls.
  cbn [fold_left fst snd].
  do 4 (apply unless_run; [|vm_compute; done|by intros []]).
  apply (unless_init _ "treasury" {["a"]} 1 None None). vm_compute. reflexivity.
Qed.

(** C2, as stated, fails: after a proposal of two transfers whose second
    debit is refused, the record of the first transfer names a proposal
    whose status is [FAILED]. *)
Lemma spending_record_of_failed_proposal :
  ~ (forall self, reachable self ->
     forall r, r ∈ Treasury.spending_records self ->
     exists p, Treasury.proposals self !! SpendingRecord.proposal_id r = Some p
               /\ Proposal.status p = EXECUTED).
Proof.
  intros H.
  destruct (Treasury.spending_records Scenario.partial) as [|r rest] eqn:Hrec;
    [vm_compute in Hrec; discriminate Hrec|].
  destruct (H Scenario.partial reachable_partial r) as (p & Hp & Hst).
  { rewrite Hrec. apply list_elem_of_here. }
  assert (Hid : SpendingRecord.proposal_id r = "p1").
  { revert Hrec. vm_compute. intros [= <- _]. reflexivity. }
  rewrite Hid in Hp.
  assert (Hfailed : Proposal.status <$> Treasury.proposals Scenario.partial !! "p1"
                    = Some FAILED) by (vm_compute; reflexivity).
  rewrite Hp in Hfailed. simpl in Hfailed. congruence.
Qed.

(** C2, amended. In every state reached by public operations, none of them
    a cancellation of a proposal whose execution failed, each spending
    record names a stored proposal whose execution was attempted: its
    status is [EXECUTED] or, when a later transaction of the proposal
    failed, [FAILED]. *)
Theorem spending_records_terminal {BI : Builtins}
    (self : Treasury.t) (r : SpendingRecord.t) :
  reachable_unless cancels_failed self ->
  r ∈ Treasury.spending_records self ->
  exists p, Treasury.proposals self !! SpendingRecord.proposal_id r = Some p
            /\ (Proposal.status p = EXECUTED \/ Proposal.status p = FAILED).
Proof.
  intros Hreach Hin.
  pose proof (reachable_advances_closed self Hreach) as Hall.
  rewrite Forall_forall in Hall. destruct (Hall r Hin) as (p & Hp & Hterm).
  exists p. split; [exact Hp|]. destruct (Proposal.status p); auto; discriminate.
Qed.

Lemma spending_records_terminal_witness :
  reachable_unless cancels_failed Scenario.partial
  /\ Scenario.partial_record ∈ Treasury.spending_records Scenario.partial
  /\ exists p,
       Treasury.proposals Scenario.partial !! "p1" = Some p
       /\ (Proposal.status p = EXECUTED \/ Proposal.status p = FAILED).
Proof.
  assert (Hin : Scenario.partial_record ∈ Treasury.spending_records Scenario.partial).
  { replace (Treasury.spending_records Scenario.partial)
      with [Scenario.partial_record] by (vm_compute; reflexivity).
    apply list_elem_of_here. }
  split; [exact reachable_unless_partial|]. split; [exact Hin|].
  exact (spending_records_terminal Scenario.partial Scenario.partial_record
           reachable_unless_partial Hin).
Defined.

(** ** The signature threshold and the number of signers *)

Lemma classic_shared_removal (c : call) (self : Treasury.t) :
  removes_shared_signer c self \/ ~ removes_shared_signer c self.
Proof.
  destruct c; simpl; try (right; tauto).
  destruct (TreasuryConfig.emergency_signers_own (Treasury.config self));
    [right; discriminate | left; reflexivity].
Qed.

Lemma run_config_step {BI : Builtins} (now : time) (c : call) (self : Treasury.t) :
  ~ removes_shared_signer c self ->
  config_step (Treasury.config self) (Treasury.config (run now c self)).
Proof.
  intros Hex. destruct c; cbn [run].
  - unfold Treasury.deposit, TreasuryBalance.deposit.
    repeat case_match; simplify_eq; by apply config_same.
  - unfold Treasury.add_signer. case_match; [by apply config_same|].
    by eapply config_added.
  - unfold Treasury.remove_signer. repeat case_match; try by apply config_same.
    eapply config_removed; [|reflexivity]. lia.
  - unfold Treasury.create_proposal. repeat case_match; by apply config_same.
  - unfold Treasury.sign_proposal. repeat case_match; by apply config_same.
  - destruct (Treasury.proposals self !! proposal_id) as [p|] eqn:Hp.
    2: { unfold Treasury.execute_proposal. rewrite Hp. by apply config_same. }
    destruct (execute_proposal_cases now proposal_id executor current_time self p Hp)
      as [[_ Hr]|[[_ Hr]|[msg Hr]]]; rewrite Hr; try by apply config_same.
    unfold Treasury.execute_checked.
    pose proof (execute_transactions_frame now proposal_id p
                  (default now current_time) (Proposal.transactions p) self)
      as (_ & Hc & _).
    destruct (Treasury.execute_transactions _ _ _ _ _ _) as [[[]|e] self1];
      apply config_same; exact Hc.
  - unfold Treasury.cancel_proposal. repeat case_match; by apply config_same.
  - unfold Treasury.trigger_emergency_freeze, EmergencyModule.create_emergency_action.
    repeat case_match; simplify_eq; by apply config_same.
  - unfold Treasury.sign_emergency_action, EmergencyModule.sign_emergency_action.
    repeat case_match; simplify_eq; by apply config_same.
  - unfold Treasury.execute_emergency_action.
    repeat case_match; try by apply config_same. by eapply config_emergency.
  - unfold Treasury.unfreeze_treasury. repeat case_match; by apply config_same.
  - by apply config_same.
  - unfold module_create_emergency_action. case_match. by apply config_same.
  - unfold module_sign_emergency_action. case_match. by apply config_same.
  - unfold module_add_emergency_signer, TreasuryConfig.set_emergency_signers,
      TreasuryConfig.emergency_signers, EmergencyModule.add_emergency_signer.
    simpl. destruct (TreasuryConfig.emergency_signers_own (Treasury.config self));
      simpl; [by eapply config_own | by eapply config_added].
  - simpl in Hex. unfold module_remove_emergency_signer,
      EmergencyModule.remove_emergency_signer.
    destruct (_ <=? _); simpl; unfold TreasuryConfig.set_emergency_signers;
      (destruct (TreasuryConfig.emergency_signers_own (Treasury.config self))
         eqn:Hown; [by eapply config_own | done]).
  - unfold balance_deposit. repeat case_match; by apply config_same.
  - unfold balance_withdraw. repeat case_match; by apply config_same.
Qed.

Lemma size_remove_one (s : gset string) (x : string) :
  (size s <= S (size (s ∖ {[x]})))%nat.
Proof.
  destruct (decide (x ∈ s)) as [Hin|Hout].
  - rewrite size_difference by set_solver. rewrite size_singleton. lia.
  - rewrite difference_disjoint_L by (by apply disjoint_singleton_r). lia.
Qed.

Lemma config_step_threshold (c c' : TreasuryConfig.t) :
  config_step c c' -> TreasuryConfig.threshold c' = TreasuryConfig.threshold c.
Proof. intros [->|x ->|x _ ->|t ->|s ->]; reflexivity. Qed.

Lemma config_step_bound (c c' : TreasuryConfig.t) :
  config_step c c' ->
  TreasuryConfig.threshold c <= Z.of_nat (size (TreasuryConfig.signers c)) ->
  TreasuryConfig.threshold c' <= Z.of_nat (size (TreasuryConfig.signers c')).
Proof.
  intros [->|x ->|x Hlt ->|t ->|s ->] Hle; simpl; try done.
  - assert (size (TreasuryConfig.signers c)
            <= size ({[x]} ∪ TreasuryConfig.signers c))%nat
      by (apply subseteq_size; set_solver).
    lia.
  - pose proof (size_remove_one (TreasuryConfig.signers c) x). lia.
Qed.

(** No call changes the threshold. *)
Lemma run_threshold {BI : Builtins} (now : time) (c : call) (self : Treasury.t) :
  TreasuryConfig.threshold (Treasury.config (run now c self))
  = TreasuryConfig.threshold (Treasury.config self).
Proof.
  destruct (classic_shared_removal c self) as [Hex|Hex].
  - destruct c; try done. cbn [run].
    unfold module_remove_emergency_signer, TreasuryConfig.set_emergency_signers.
    case_match. simpl. by case_match.
  - by apply config_step_threshold, run_config_step.
Qed.

Lemma reachable_lax : reachable Scenario.lax.
Proof.
  apply (reachable_init "treasury" {["a"]} 0 None None). vm_compute. reflexivity.
Qed.

(** C4, as stated, fails: the constructor accepts a threshold of zero, so a
    treasury can exist whose threshold is below one. *)
Lemma threshold_below_one_accepted :
  ~ (forall self, reachable self ->
     1 <= TreasuryConfig.threshold (Treasury.config self)
       <= Z.of_nat (size (TreasuryConfig.signers (Treasury.config self)))).
Proof.
  intros H. destruct (H Scenario.lax reachable_lax) as [Hlow _].
  vm_compute in Hlow. by apply Hlow.
Qed.

(** What the amended claim leaves out: when the emergency module holds the
    set object of the signers, its [remove_emergency_signer] checks the
    emergency threshold only and takes the signers below the threshold. *)
Example shared_removal_below_threshold :
  reachable Scenario.shared_removed
  /\ TreasuryConfig.signers (Treasury.config Scenario.shared_removed) = {["a"; "b"]}
  /\ TreasuryConfig.threshold (Treasury.config Scenario.shared_removed) = 3.
Proof.
  split; [|split; vm_compute; reflexivity].
  apply reachable_run; [|done].
  apply (reachable_init "treasury" {["a"; "b"; "c"]} 3 None None).
  vm_compute. reflexivity.
Qed.

(** C4, amended. After construction and after every public operation,
    none of them a removal through the emergency module from the set
    object that the signers share with it, [threshold <= |signers|] holds,
    and no operation at all changes [threshold].  The constructor raises
    the [ValueError] exactly for a threshold above the number of signers
    and otherwise stores the threshold it is given.  [remove_signer]
    raises, leaving the treasury as it is, whenever [|signers| <= threshold];
    for an authorized caller the exception is the [ValueError]. *)
Theorem threshold_at_most_signers {BI : Builtins} :
  (forall self, reachable_unless removes_shared_signer self ->
     TreasuryConfig.threshold (Treasury.config self)
     <= Z.of_nat (size (TreasuryConfig.signers (Treasury.config self))))
  /\ (forall id signers threshold et es,
        Z.of_nat (size signers) < threshold ->
        Treasury.init id signers threshold et es
        = Raised (ValueError "Threshold cannot exceed number of signers"))
  /\ (forall id signers threshold et es,
        threshold <= Z.of_nat (size signers) ->
        exists self,
          Treasury.init id signers threshold et es = Returned self
          /\ TreasuryConfig.threshold (Treasury.config self) = threshold
          /\ TreasuryConfig.signers (Treasury.config self) = signers)
  /\ (forall now c self,
        TreasuryConfig.threshold (Treasury.config (run now c self))
        = TreasuryConfig.threshold (Treasury.config self))
  /\ (forall now signer_to_remove authorizer self,
        Z.of_nat (size (TreasuryConfig.signers (Treasury.config self)))
        <= TreasuryConfig.threshold (Treasury.config self) ->
        exists e,
          Treasury.remove_signer now signer_to_remove authorizer self
          = (Raised e, self)
          /\ (authorizer ∈ TreasuryConfig.signers (Treasury.config self) ->
              e = ValueError
                    "Cannot remove signer when it would drop below threshold")).
Proof.
  split; [|split; [|split; [|split]]].
  - induction 1 as [id signers thr et es self Hinit | now c self Hreach IH Hfresh Hex].
    + unfold Treasury.init in Hinit. case_match; simplify_eq. simpl. lia.
    + eapply config_step_bound; [by apply run_config_step | exact IH].
  - intros id signers thr et es Hlt. unfold Treasury.init.
    destruct (Z.ltb_spec (Z.of_nat (size signers)) thr); [done|lia].
  - intros id signers thr et es Hle. unfold Treasury.init.
    destruct (Z.ltb_spec (Z.of_nat (size signers)) thr); [lia|].
    eexists. split; [reflexivity|]. done.
  - intros now c self. apply run_threshold.
  - intros now x authorizer self Hle. unfold Treasury.remove_signer.
    destruct (decide (authorizer ∉ _)) as [Hout|Hin].
    + eexists. split; [reflexivity|]. intros Hin. by destruct Hout.
    + destruct (Z.leb_spec
                  (Z.of_nat (size (TreasuryConfig.signers (Treasury.config self))))
                  (TreasuryConfig.threshold (Treasury.config self))); [|lia].
      eexists. split; [reflexivity|]. done.
Qed.

Lemma reachable_unless_removal_partial :
  reachable_unless removes_shared_signer Scenario.partial.
Proof.
  unfold Scenario.partial, Scenario.runs, Scenario.partial_calls.
  cbn [fold_left fst snd].
  do 4 (apply unless_run; [|vm_compute; done|by intros []]).
  apply (unless_init _ "treasury" {["a"]} 1 None None). vm_compute. reflexivity.
Qed.

Lemma threshold_at_most_signers_witness :
  reachable_unless removes_shared_signer Scenario.partial
  /\ TreasuryConfig.threshold (Treasury.config Scenario.partial)
     <= Z.of_nat (size (TreasuryConfig.signers (Treasury.config Scenario.partial))).
Proof.
  split; [exact reachable_unless_removal_partial|].
  destruct threshold_at_most_signers as (Hbound & _).
  exact (Hbound Scenario.partial reachable_unless_removal_partial).
Defined.

(** ** Required threshold and required time lock *)

Lemma threshold_values_idle (tx : Transaction.t) (ps : list (string * Policy))
    (context : Context.t) :
  Forall (fun kv => contributes_threshold kv.2 = false) ps ->
  PolicyManager.threshold_values tx ps context = context.
Proof.
  induction 1 as [|[k p] ps Hp _ IH]; simpl; [done|].
  destruct p; try exact IH. simpl in Hp.
  unfold AmountThresholdPolicy.validate. rewrite Hp. exact IH.
Qed.

(** C5 fails on the code. When no enabled [AmountThresholdPolicy] is held,
    [get_required_threshold] returns [0] for every list of transactions:
    the context is created with ["required_threshold": 0], so the default
    [2] of the final [context.get] is never taken. *)
Theorem required_threshold_default_unused (txs : list Transaction.t)
    (pm : PolicyManager.t) :
  Forall (fun kv => contributes_threshold kv.2 = false) (PolicyManager.policies pm) ->
  PolicyManager.get_required_threshold txs pm = 0.
Proof.
  intros Hidle. unfold PolicyManager.get_required_threshold.
  set (c0 := Context.mk None None None None (Some 0)).
  assert (Hfold : forall l c,
             fold_left
               (fun context transaction =>
                  if Float.gtb (PolicyManager.max_amount txs) Float.zero
                  then PolicyManager.threshold_values transaction
                         (PolicyManager.policies pm) context
                  else context) l c = c).
  { induction l as [|tx l IH]; intros c; simpl; [done|].
    rewrite threshold_values_idle by exact Hidle.
    destruct (Float.gtb _ _); apply IH. }
  by rewrite Hfold.
Qed.

Lemma required_threshold_default_unused_witness :
  Forall (fun kv => contributes_threshold kv.2 = false)
         (PolicyManager.policies PolicyManager.init)
  /\ PolicyManager.get_required_threshold
       [Scenario.transfer "tx1" "r" (Float.of_Z 2500)] PolicyManager.init = 0.
Proof.
  split; [constructor|].
  apply required_threshold_default_unused. constructor.
Defined.





Section TimeLockLoop.
Variable category : Category.




Lemma time_lock_values_none (tx : Transaction.t) (ps : list (string * Policy))
    (context : Context.t) :
  Forall (fun kv => is_time_lock kv.2 = false) ps ->
  PolicyManager.time_lock_values tx ps context = Returned context.
Proof.
  induction 1 as [|[k p] ps Hp _ IH]; simpl; [done|].
  destruct p; try exact IH. discriminate Hp.
Qed.

Lemma time_lock_loop_none (txs : list Transaction.t) (ps : list (string * Policy))
    (context : Context.t) :
  Forall (fun kv => is_time_lock kv.2 = false) ps ->
  PolicyManager.time_lock_loop txs ps context = Returned context.
Proof.
  intros Hps. induction txs as [|tx txs IH]; simpl; [done|].
  by rewrite time_lock_values_none.
Qed.
End TimeLockLoop.



Example time_lock_escalation :
  TimeLockPolicy.calculate_lock_duration Scenario.time_lock (Float.of_Z 5000) OPERATIONS
  = Returned 21600
  /\ PolicyManager.get_required_time_lock
       [Scenario.transfer "tx1" "r" (Float.of_Z 5000);
        Scenario.transfer "tx2" "r" (Float.of_Z 1500)]
       OPERATIONS
       (PolicyManager.add_policy (TimeLock Scenario.time_lock) PolicyManager.init)
     = Returned 21600.
Proof. split; vm_compute; reflexivity. Qed.

(** The other outcomes of the computation: a factor of zero, an infinite
    amount, and an infinite amount with an infinite factor. *)
Example lock_duration_raises :
  TimeLockPolicy.calculate_lock_duration
    (TimeLockPolicy.mk "timelock1" true ∅ Float.zero) (Float.of_Z 5000) OPERATIONS
  = Raised ZeroDivisionError
  /\ TimeLockPolicy.calculate_lock_duration Scenario.time_lock Float.inf OPERATIONS
     = Raised (OverflowError "cannot convert float infinity to integer")
  /\ TimeLockPolicy.calculate_lock_duration
       (TimeLockPolicy.mk "timelock1" true ∅ Float.inf) Float.inf OPERATIONS
     = Raised (ValueError "cannot convert float NaN to integer").
Proof. repeat split; vm_compute; reflexivity. Qed.


(** ** Temporary whitelist entries *)

(** C7. For an enabled [WhitelistPolicy] and a recipient that is neither
    blacklisted nor approved but temporary with expiry [e]: validation at
    [t] returns exactly when [t < e]; at [t >= e] the temporary entry is
    deleted and a [PolicyViolation] is raised. *)
Theorem whitelist_temporary_expiry (now : time) (tx : Transaction.t)
    (context : Context.t) (self : WhitelistPolicy.t) (e : time) :
  WhitelistPolicy.enabled self = true ->
  Transaction.recipient tx ∉ WhitelistPolicy.blacklisted_recipients self ->
  Transaction.recipient tx ∉ WhitelistPolicy.approved_recipients self ->
  WhitelistPolicy.temporary_entries self !! Transaction.recipient tx = Some e ->
  let t := default now (Context.current_time context) in
  let r := WhitelistPolicy.validate now tx context self in
  (r.1 = Returned tt <-> t < e)
  /\ (t < e -> r = (Returned tt, self))
  /\ (e <= t ->
      r = (Raised (PolicyViolation (WhitelistPolicy.policy_id self)
                     "Recipient is not whitelisted"),
           WhitelistPolicy.set_temporary_entries
             (delete (Transaction.recipient tx) (WhitelistPolicy.temporary_entries self))
             self)
      /\ WhitelistPolicy.temporary_entries r.2 !! Transaction.recipient tx = None).
Proof.
  intros Hen Hblack Happ Htmp t r. subst r.
  unfold WhitelistPolicy.validate, WhitelistPolicy.is_recipient_approved.
  rewrite Hen. cbn [negb]. fold t.
  rewrite !decide_False by done.
  rewrite Htmp. destruct (Z.ltb_spec t e) as [Hlt|Hge]; simpl.
  - split; [done|]. split; [done|]. lia.
  - split; [split; [done|lia]|]. split; [lia|]. intros _. split; [done|].
    apply lookup_delete_eq.
Qed.

Lemma whitelist_temporary_expiry_witness :
  WhitelistPolicy.enabled Scenario.whitelist = true
  /\ ("R" ∉ WhitelistPolicy.blacklisted_recipients Scenario.whitelist)
  /\ ("R" ∉ WhitelistPolicy.approved_recipients Scenario.whitelist)
  /\ WhitelistPolicy.temporary_entries Scenario.whitelist !! "R" = Some 3600
  /\ (WhitelistPolicy.validate 0 (Scenario.transfer "tx1" "R" (Float.of_Z 100))
        (Context.mk None (Some 1800) None None None) Scenario.whitelist).1
     = Returned tt
  /\ (WhitelistPolicy.validate 0 (Scenario.transfer "tx1" "R" (Float.of_Z 100))
        (Context.mk None (Some 3600) None None None) Scenario.whitelist).1
     = Raised (PolicyViolation "whitelist1" "Recipient is not whitelisted").
Proof.
  assert (Hb : "R" ∉ WhitelistPolicy.blacklisted_recipients Scenario.whitelist)
    by apply not_elem_of_empty.
  assert (Ha : "R" ∉ WhitelistPolicy.approved_recipients Scenario.whitelist)
    by apply not_elem_of_empty.
  assert (Ht : WhitelistPolicy.temporary_entries Scenario.whitelist !! "R" = Some 3600)
    by (vm_compute; reflexivity).
  split; [reflexivity|]. split; [exact Hb|]. split; [exact Ha|]. split; [exact Ht|].
  split.
  - pose proof (whitelist_temporary_expiry 0
                  (Scenario.transfer "tx1" "R" (Float.of_Z 100))
                  (Context.mk None (Some 1800) None None None) Scenario.whitelist
                  3600 eq_refl Hb Ha Ht) as (Hiff & _).
    apply Hiff. simpl. lia.
  - pose proof (whitelist_temporary_expiry 0
                  (Scenario.transfer "tx1" "R" (Float.of_Z 100))
                  (Context.mk None (Some 3600) None None None) Scenario.whitelist
                  3600 eq_refl Hb Ha Ht) as (_ & _ & Hexp).
    destruct Hexp as [Heq _]; [simpl; lia|]. by rewrite Heq.
Defined.

(** ** The frozen flag *)

Lemma execute_transactions_frozen {BI : Builtins}
    (b : bool) (now : time) (proposal_id : string)
    (proposal : Proposal.t) (current_time : time) (txs : list Transaction.t)
    (self : Treasury.t) :
  Treasury.execute_transactions now proposal_id proposal current_time txs
    (Treasury.set_frozen b self)
  = with_frozen b
      (Treasury.execute_transactions now proposal_id proposal current_time txs self).
Proof.
  revert self. induction txs as [|tx rest IH]; intros self; simpl; [done|].
  destruct (PolicyManager.validate_transaction _ _ _ _) as [[o pm'] ctx'].
  destruct o as [[]|e]; simpl; [|done].
  destruct (_ !! _) as [balance|]; simpl; [|done].
  destruct (TreasuryBalance.withdraw _ _ _) as [[[|]|e] balance']; simpl; try done.
  match goal with
  |- context [with_frozen b (Treasury.execute_transactions _ _ _ _ rest ?s)] =>
    rewrite <- (IH s) end.
  reflexivity.
Qed.

(** C8. While [frozen] is set, [create_proposal] by an authorized signer
    raises the [RuntimeError] and changes nothing.  [sign_proposal],
    [execute_proposal] and [cancel_proposal] do not read the flag: on two
    treasuries that differ in [frozen] only they have the same outcome and
    the same effect. *)
Theorem frozen_blocks_creation_only {BI : Builtins} :
  (forall now uuid creator txs category description ct self,
     Treasury.frozen self = true ->
     creator ∈ TreasuryConfig.signers (Treasury.config self) ->
     Treasury.create_proposal now uuid creator txs category description ct self
     = (Raised frozen_fault, self))
  /\ (forall b now proposal_id signer signature ct self,
        Treasury.sign_proposal now proposal_id signer signature ct
          (Treasury.set_frozen b self)
        = with_frozen b
            (Treasury.sign_proposal now proposal_id signer signature ct self))
  /\ (forall b now proposal_id executor ct self,
        Treasury.execute_proposal now proposal_id executor ct
          (Treasury.set_frozen b self)
        = with_frozen b (Treasury.execute_proposal now proposal_id executor ct self))
  /\ (forall b now proposal_id canceller ct self,
        Treasury.cancel_proposal now proposal_id canceller ct
          (Treasury.set_frozen b self)
        = with_frozen b (Treasury.cancel_proposal now proposal_id canceller ct self)).
Proof.
  split; [|split; [|split]].
  - intros now uuid creator txs category description ct self Hfrozen Hin.
    unfold Treasury.create_proposal. rewrite decide_False by (by intros []).
    by rewrite Hfrozen.
  - intros b now pid signer signature ct self. unfold Treasury.sign_proposal.
    cbn [Treasury.proposals Treasury.config Treasury.set_frozen].
    repeat case_match; reflexivity.
  - intros b now pid executor ct self. unfold Treasury.execute_proposal.
    cbn [Treasury.proposals Treasury.set_frozen].
    destruct (Treasury.proposals self !! pid) as [p|]; [|done].
    destruct (Proposal.can_execute p (default now ct)) as [[|]|e]; [| |done].
    + unfold Treasury.execute_checked. rewrite execute_transactions_frozen.
      destruct (Treasury.execute_transactions _ _ _ _ _ _) as [[[]|e] self1];
        reflexivity.
    + destruct (Proposal.time_locked_at p); reflexivity.
  - intros b now pid canceller ct self. unfold Treasury.cancel_proposal.
    cbn [Treasury.proposals Treasury.set_frozen].
    repeat case_match; reflexivity.
Qed.

Example freeze_scenario :
  Treasury.frozen Scenario.frozen = true
  /\ (Treasury.create_proposal 20 "p2" "a" [Scenario.transfer "tx1" "r" (Float.of_Z 1)]
        OPERATIONS "pay" (Some 20) Scenario.frozen).1
     = Raised frozen_fault.
Proof. split; vm_compute; reflexivity. Qed.

Lemma frozen_blocks_creation_only_witness :
  Treasury.frozen Scenario.frozen = true
  /\ "a" ∈ TreasuryConfig.signers (Treasury.config Scenario.frozen)
  /\ Treasury.create_proposal 20 "p2" "a" [Scenario.transfer "tx1" "r" (Float.of_Z 1)]
       OPERATIONS "pay" (Some 20) Scenario.frozen
     = (Raised frozen_fault, Scenario.frozen).
Proof.
  assert (Hf : Treasury.frozen Scenario.frozen = true) by (vm_compute; reflexivity).
  assert (Ha : "a" ∈ TreasuryConfig.signers (Treasury.config Scenario.frozen)).
  { apply (bool_decide_unpack _). vm_compute. exact I. }
  split; [exact Hf|]. split; [exact Ha|].
  destruct frozen_blocks_creation_only as (Hcreate & _).
  exact (Hcreate 20 "p2" "a" [Scenario.transfer "tx1" "r" (Float.of_Z 1)] OPERATIONS "pay"
           (Some 20) Scenario.frozen Hf Ha).
Defined.

(** ** Emergency actions *)

Lemma execute_emergency_freeze (now : time) (action_id executor : string)
    (ct : option time) (self : Treasury.t) (action : EmergencyAction.t) :
  EmergencyModule.actions (Treasury.emergency_module self) !! action_id = Some action ->
  EmergencyAction.action_type action = "freeze" ->
  TreasuryConfig.emergency_threshold (Treasury.config self)
  <= Z.of_nat (size (EmergencyAction.signatures action)) ->
  let r := Treasury.execute_emergency_action now action_id executor ct self in
  r.1 = Returned tt
  /\ Treasury.frozen r.2 = true
  /\ TreasuryConfig.last_emergency_at (Treasury.config r.2) = Some (default now ct)
  /\ TreasuryConfig.emergency_threshold (Treasury.config r.2)
     = TreasuryConfig.emergency_threshold (Treasury.config self)
  /\ EmergencyModule.actions (Treasury.emergency_module r.2) !! action_id
     = Some (EmergencyAction.mark_executed (default now ct) action).
Proof.
  intros Hact Htype Hsigs. unfold Treasury.execute_emergency_action.
  rewrite Hact.
  destruct (Z.ltb_spec (Z.of_nat (size (EmergencyAction.signatures action)))
              (TreasuryConfig.emergency_threshold (Treasury.config self))); [lia|].
  rewrite bool_decide_eq_true_2 by exact Htype. simpl.
  repeat split. apply lookup_insert_eq.
Qed.

(** C9. [execute_emergency_action] does not look at the [executed] flag.
    For a "freeze" action with at least [emergency_threshold] signatures the
    call returns, sets [frozen] and stores the current time in
    [last_emergency_at]; after it [can_execute_action] reports false, and a
    second call returns again, with [frozen] set and [last_emergency_at]
    overwritten by the time of the second call. *)
Theorem emergency_action_executed_again (now1 now2 : time)
    (action_id executor1 executor2 : string) (ct1 ct2 : option time)
    (self : Treasury.t) (action : EmergencyAction.t) :
  EmergencyModule.actions (Treasury.emergency_module self) !! action_id = Some action ->
  EmergencyAction.action_type action = "freeze" ->
  TreasuryConfig.emergency_threshold (Treasury.config self)
  <= Z.of_nat (size (EmergencyAction.signatures action)) ->
  let r1 := Treasury.execute_emergency_action now1 action_id executor1 ct1 self in
  let r2 := Treasury.execute_emergency_action now2 action_id executor2 ct2 r1.2 in
  r1.1 = Returned tt
  /\ Treasury.frozen r1.2 = true
  /\ TreasuryConfig.last_emergency_at (Treasury.config r1.2) = Some (default now1 ct1)
  /\ EmergencyModule.can_execute_action action_id (Treasury.emergency_module r1.2)
     = false
  /\ r2.1 = Returned tt
  /\ Treasury.frozen r2.2 = true
  /\ TreasuryConfig.last_emergency_at (Treasury.config r2.2) = Some (default now2 ct2).
Proof.
  intros Hact Htype Hsigs r1 r2.
  destruct (execute_emergency_freeze now1 action_id executor1 ct1 self action
              Hact Htype Hsigs) as (Hret1 & Hfrozen1 & Hlast1 & Hthr1 & Hact1).
  fold r1 in Hret1, Hfrozen1, Hlast1, Hthr1, Hact1.
  destruct (execute_emergency_freeze now2 action_id executor2 ct2 r1.2
              (EmergencyAction.mark_executed (default now1 ct1) action)
              Hact1 Htype) as (Hret2 & Hfrozen2 & Hlast2 & _).
  { rewrite Hthr1. exact Hsigs. }
  fold r2 in Hret2, Hfrozen2, Hlast2.
  repeat split; try done.
  unfold EmergencyModule.can_execute_action. rewrite Hact1. simpl.
  apply andb_false_r.
Qed.

Lemma emergency_action_executed_again_witness :
  EmergencyModule.actions (Treasury.emergency_module Scenario.emergency_signed) !! "act"
  = Some Scenario.emergency_action
  /\ EmergencyAction.action_type Scenario.emergency_action = "freeze"
  /\ TreasuryConfig.emergency_threshold (Treasury.config Scenario.emergency_signed)
     <= Z.of_nat (size (EmergencyAction.signatures Scenario.emergency_action))
  /\ (Treasury.execute_emergency_action 20 "act" "e2" (Some 20) Scenario.frozen).1
     = Returned tt
  /\ TreasuryConfig.last_emergency_at
       (Treasury.config
          (Treasury.execute_emergency_action 20 "act" "e2" (Some 20) Scenario.frozen).2)
     = Some 20.
Proof.
  assert (Hact : EmergencyModule.actions
                   (Treasury.emergency_module Scenario.emergency_signed) !! "act"
                 = Some Scenario.emergency_action) by (vm_compute; reflexivity).
  assert (Hsigs : TreasuryConfig.emergency_threshold
                    (Treasury.config Scenario.emergency_signed)
                  <= Z.of_nat (size (EmergencyAction.signatures
                                       Scenario.emergency_action)))
    by (vm_compute; discriminate).
  split; [exact Hact|]. split; [reflexivity|]. split; [exact Hsigs|].
  pose proof (emergency_action_executed_again 10 20 "act" "e1" "e2" (Some 10)
                (Some 20) Scenario.emergency_signed Scenario.emergency_action
                Hact eq_refl Hsigs) as (_ & _ & _ & _ & Hret & _ & Hlast).
  split; [exact Hret | exact Hlast].
Defined.

(** ** The executor of a proposal *)

Lemma policy_validate_not_denied {BI : Builtins} (now : time) (tx : Transaction.t)
    (context : Context.t) (p : Policy) :
  ~ permission_denied (BasePolicy.validate now tx context p).1.1.
Proof.
  intros [msg H]. destruct p as [q|q|q|q|q|q]; simpl in H.
  - unfold SpendingLimitPolicy.validate in H. repeat case_match; discriminate.
  - unfold WhitelistPolicy.validate in H. repeat case_match; simplify_eq; discriminate.
  - unfold CategoryPolicy.validate in H. repeat case_match; discriminate.
  - unfold TimeLockPolicy.validate, TimeLockPolicy.calculate_lock_duration,
      Float.div, Float.to_int in H.
    repeat case_match; simplify_eq; discriminate.
  - discriminate.
  - unfold ApprovalPolicy.validate in H. repeat case_match; discriminate.
Qed.

Lemma validate_values_not_denied {BI : Builtins} (now : time) (tx : Transaction.t)
    (ps : list (string * Policy)) (context : Context.t) :
  ~ permission_denied (PolicyManager.validate_values now tx ps context).1.1.
Proof.
  revert context. induction ps as [|[k p] ps IH]; intros context; simpl.
  { intros [msg H]. discriminate. }
  pose proof (policy_validate_not_denied now tx context p) as Hp.
  destruct (BasePolicy.validate now tx context p) as [[[[]|e] p'] context'].
  - specialize (IH context').
    destruct (PolicyManager.validate_values now tx ps context') as [[o rest'] c''].
    exact IH.
  - exact Hp.
Qed.

Lemma execute_transactions_not_denied {BI : Builtins}
    (now : time) (proposal_id : string)
    (proposal : Proposal.t) (current_time : time) (txs : list Transaction.t)
    (self : Treasury.t) :
  ~ permission_denied
      (Treasury.execute_transactions now proposal_id proposal current_time txs self).1.
Proof.
  revert self. induction txs as [|tx rest IH]; intros self; simpl.
  { intros [msg H]. discriminate. }
  unfold PolicyManager.validate_transaction.
  match goal with |- context [PolicyManager.validate_values ?n ?t ?ps ?c] =>
    pose proof (validate_values_not_denied n t ps c) as Hv;
    destruct (PolicyManager.validate_values n t ps c) as [[o ps'] ctx'] end.
  destruct o as [[]|e]; simpl in *; [|exact Hv].
  destruct (_ !! _) as [balance|]; simpl; [|intros [msg H]; discriminate].
  unfold TreasuryBalance.withdraw.
  repeat case_match; simplify_eq; simpl; try (intros [msg H]; discriminate).
  apply IH.
Qed.

(** C10. [execute_proposal] never raises a [PermissionError], for any
    [executor].  The executor appears in the audit log only: two calls that
    differ in the executor have the same outcome and leave the same
    treasury up to the audit log.  Whenever the proposal exists and its
    preconditions hold, the end of its time lock being a [datetime] (as it
    is by [ready_representable] once the lock has elapsed), the body runs,
    leaving the proposal [EXECUTED] or [FAILED]; when that end is not a
    [datetime] the check raises [OverflowError], for any executor. *)
Theorem execute_proposal_any_executor {BI : Builtins}
    (now : time) (proposal_id : string)
    (current_time : option time) (self : Treasury.t) :
  (forall executor,
     ~ permission_denied
         (Treasury.execute_proposal now proposal_id executor current_time self).1)
  /\ (forall executor executor',
        let r := Treasury.execute_proposal now proposal_id executor current_time self in
        let r' :=
          Treasury.execute_proposal now proposal_id executor' current_time self in
        r.1 = r'.1
        /\ Treasury.set_audit_logs [] r.2 = Treasury.set_audit_logs [] r'.2)
  /\ (forall executor p,
        Treasury.proposals self !! proposal_id = Some p ->
        lock_end_representable p ->
        ready p (default now current_time) ->
        let r := Treasury.execute_proposal now proposal_id executor current_time self in
        exists p',
          Treasury.proposals r.2 !! proposal_id = Some p'
          /\ ((r.1 = Returned tt /\ Proposal.status p' = EXECUTED)
              \/ ((exists e, r.1 = Raised e) /\ Proposal.status p' = FAILED)))
  /\ (forall executor p,
        Treasury.proposals self !! proposal_id = Some p ->
        ~ lock_end_representable p ->
        exists msg,
          Treasury.execute_proposal now proposal_id executor current_time self
          = (Raised (OverflowError msg), self)).
Proof.
  split; [|split; [|split]].
  - intros executor.
    destruct (Treasury.proposals self !! proposal_id) as [p|] eqn:Hp.
    2: { unfold Treasury.execute_proposal. rewrite Hp. intros [msg H]. discriminate. }
    destruct (execute_proposal_cases now proposal_id executor current_time self p Hp)
      as [[_ Hr]|[[_ Hr]|[msg' Hr]]]; rewrite Hr;
      try (intros [msg H]; discriminate).
    unfold Treasury.execute_checked.
    pose proof (execute_transactions_not_denied now proposal_id p
                  (default now current_time) (Proposal.transactions p) self) as Hd.
    destruct (Treasury.execute_transactions _ _ _ _ _ _) as [[[]|e] self1];
      simpl in *; [intros [msg H]; discriminate | exact Hd].
  - intros executor executor'. unfold Treasury.execute_proposal.
    destruct (Treasury.proposals self !! proposal_id) as [p|]; [|done].
    destruct (Proposal.can_execute p (default now current_time)) as [[|]|e];
      [| |done].
    + unfold Treasury.execute_checked.
      destruct (Treasury.execute_transactions _ _ _ _ _ _) as [[[]|e] self1]; done.
    + destruct (Proposal.time_locked_at p); done.
  - intros executor p Hp Hrep Hready. apply (can_execute_ready _ _ Hrep) in Hready.
    destruct (execute_proposal_proceeds now proposal_id executor current_time
                self p Hp Hready) as (p' & Hmap & Hst).
    exists p'. split; [|exact Hst]. rewrite Hmap. apply lookup_insert_eq.
  - intros executor p Hp Hrep. by apply execute_proposal_overflow with (p := p).
Qed.

Example outsider_executes :
  ("mallory" ∉ TreasuryConfig.signers (Treasury.config Scenario.signed))
  /\ (Treasury.execute_proposal 3601 "p1" "mallory" (Some 3601) Scenario.signed).1
     = Returned tt.
Proof.
  split; [|vm_compute; reflexivity].
  apply (bool_decide_unpack _). vm_compute. exact I.
Qed.

Lemma execute_proposal_any_executor_witness :
  Treasury.proposals Scenario.signed !! "p1" = Some Scenario.p1
  /\ lock_end_representable Scenario.p1
  /\ ready Scenario.p1 3601
  /\ exists p',
       Treasury.proposals
         (Treasury.execute_proposal 3601 "p1" "mallory" (Some 3601) Scenario.signed).2
       !! "p1" = Some p'
       /\ (Proposal.status p' = EXECUTED \/ Proposal.status p' = FAILED).
Proof.
  assert (Hp : Treasury.proposals Scenario.signed !! "p1" = Some Scenario.p1)
    by (vm_compute; reflexivity).
  assert (Hready : ready Scenario.p1 3601).
  { repeat split; [vm_compute; discriminate | vm_compute; discriminate |].
    right. reflexivity. }
  assert (Hrep : lock_end_representable Scenario.p1).
  { unfold lock_end_representable. vm_compute. repeat split; discriminate. }
  split; [exact Hp|]. split; [exact Hrep|]. split; [exact Hready|].
  destruct (execute_proposal_any_executor 3601 "p1" (Some 3601) Scenario.signed)
    as (_ & _ & Hgo & _).
  destruct (Hgo "mallory" Scenario.p1 Hp Hrep Hready) as (p' & Hp' & Hst).
  exists p'. split; [exact Hp'|]. destruct Hst as [[_ ->]|[_ ->]]; auto.
Defined.

(** ** Cancellation of terminal proposals *)

(** C3 fails on the code. For a caller allowed to cancel, [cancel_proposal]
    raises the [ValueError] and changes nothing when the proposal is
    [EXECUTED] or [CANCELLED]; when it is [FAILED] the call returns and the
    status becomes [CANCELLED]. *)
Theorem cancel_proposal_on_terminal (now : time) (proposal_id canceller : string)
    (current_time : option time) (self : Treasury.t) (p : Proposal.t) :
  Treasury.proposals self !! proposal_id = Some p ->
  Proposal.creator p = canceller \/ is_Some (Proposal.signatures p !! canceller) ->
  let r := Treasury.cancel_proposal now proposal_id canceller current_time self in
  (Proposal.status p = EXECUTED ->
   r = (Raised (ValueError "Cannot cancel an executed proposal"), self))
  /\ (Proposal.status p = CANCELLED ->
      r = (Raised (ValueError "Proposal already cancelled"), self))
  /\ (Proposal.status p = FAILED ->
      r.1 = Returned tt
      /\ Proposal.status <$> Treasury.proposals r.2 !! proposal_id = Some CANCELLED).
Proof.
  intros Hp Hauth r. subst r. unfold Treasury.cancel_proposal. rewrite Hp.
  assert (Hguard : bool_decide (Proposal.creator p ≠ canceller)
                   && bool_decide (Proposal.signatures p !! canceller = None)
                   = false).
  { apply andb_false_iff. destruct Hauth as [Hc|[sig Hs]].
    - left. by apply bool_decide_eq_false_2; intros H.
    - right. apply bool_decide_eq_false_2. by rewrite Hs. }
  rewrite Hguard. split; [|split]; intros Hst; rewrite Hst; simpl; [done|done|].
  split; [done|]. by rewrite lookup_insert_eq.
Qed.

Lemma cancel_proposal_on_terminal_witness :
  Treasury.proposals Scenario.partial !! "p1" = Some Scenario.failed_p1
  /\ (Proposal.creator Scenario.failed_p1 = "a"
      \/ is_Some (Proposal.signatures Scenario.failed_p1 !! "a"))
  /\ Proposal.status Scenario.failed_p1 = FAILED
  /\ (Treasury.cancel_proposal 2 "p1" "a" (Some 2) Scenario.partial).1 = Returned tt
  /\ Proposal.status
       <$> Treasury.proposals
             (Treasury.cancel_proposal 2 "p1" "a" (Some 2) Scenario.partial).2
           !! "p1"
     = Some CANCELLED.
Proof.
  assert (Hp : Treasury.proposals Scenario.partial !! "p1" = Some Scenario.failed_p1)
    by (vm_compute; reflexivity).
  assert (Hauth : Proposal.creator Scenario.failed_p1 = "a"
                  \/ is_Some (Proposal.signatures Scenario.failed_p1 !! "a"))
    by (left; reflexivity).
  split; [exact Hp|]. split; [exact Hauth|]. split; [reflexivity|].
  pose proof (cancel_proposal_on_terminal 2 "p1" "a" (Some 2) Scenario.partial
                Scenario.failed_p1 Hp Hauth) as (_ & _ & Hfailed).
  exact (Hfailed eq_refl).
Defined.

(** * Further properties of the package *)

(** ** Deposits and balances *)

(** X1. [deposit] of an amount that is not [<= 0] (a positive number, or
    NaN, for which every comparison is false) returns for any depositor,
    replaces the balance of the coin type by the float sum of that balance
    (zero for a missing one) and the amount, and leaves the other balances
    alone; an amount [<= 0] raises the [ValueError] and changes nothing. *)
Theorem deposit_credits (now : time) (coin_type : string) (amount : float)
    (depositor : string) (self : Treasury.t) :
  let r := Treasury.deposit now coin_type amount depositor self in
  (Float.leb amount Float.zero = false ->
   r.1 = Returned tt
   /\ Treasury.get_balance coin_type r.2
      = Float.add (Treasury.get_balance coin_type self) amount
   /\ (forall c, c <> coin_type ->
                 Treasury.balances r.2 !! c = Treasury.balances self !! c)
   /\ Treasury.proposals r.2 = Treasury.proposals self
   /\ Treasury.spending_records r.2 = Treasury.spending_records self)
  /\ (Float.leb amount Float.zero = true ->
      r = (Raised (ValueError "Deposit amount must be positive"), self)).
Proof.
  unfold Treasury.deposit, TreasuryBalance.deposit. split.
  - intros Hpos. rewrite Hpos. simpl.
    unfold Treasury.get_balance. simpl. rewrite lookup_insert_eq. simpl.
    split; [done|]. split.
    { destruct (Treasury.balances self !! coin_type); reflexivity. }
    split; [|done]. intros c Hc. rewrite lookup_insert_ne by done.
    destruct (Treasury.balances self !! coin_type) eqn:E; [done|].
    by rewrite lookup_insert_ne.
  - intros Hle. by rewrite Hle.
Qed.

(** The sum is the rounded one: a deposit of 1 on a balance of 10^16 leaves
    10^16, and a deposit of NaN is accepted and leaves NaN. *)
Example deposit_rounds :
  let rich :=
    (Treasury.deposit 0 "SUI" (Float.of_Z (10 ^ 16)) "a"
       (Treasury.construct "treasury" {["a"]} 1 None None)).2 in
  Treasury.get_balance "SUI" (Treasury.deposit 1 "SUI" (Float.of_Z 1) "a" rich).2
  = Float.of_Z (10 ^ 16)
  /\ (Treasury.deposit 1 "SUI" Float.nan "a" rich).1 = Returned tt
  /\ Treasury.get_balance "SUI" (Treasury.deposit 1 "SUI" Float.nan "a" rich).2
     = Float.nan.
Proof. repeat split; vm_compute; reflexivity. Qed.

Lemma deposit_credits_witness :
  Float.leb (Float.of_Z 100) Float.zero = false
  /\ Treasury.get_balance "SUI"
       (Treasury.deposit 5 "SUI" (Float.of_Z 100) "anyone" Scenario.partial).2
     = Float.add (Treasury.get_balance "SUI" Scenario.partial) (Float.of_Z 100).
Proof.
  assert (Hpos : Float.leb (Float.of_Z 100) Float.zero = false) by reflexivity.
  split; [exact Hpos|].
  destruct (deposit_credits 5 "SUI" (Float.of_Z 100) "anyone" Scenario.partial)
    as (Hok & _).
  destruct (Hok Hpos) as (_ & Hbal & _). exact Hbal.
Defined.

(** ** Signing *)

(** X3. [sign_proposal] returns exactly when the proposal exists, the signer
    is a current signer, the status is [PENDING] or [TIME_LOCKED] and the
    signer has not signed yet.  A call that raises changes nothing.  A call
    that returns adds one signature under the signer's name, stamped with
    the call's time, and leaves every other field of the proposal and every
    other proposal as they were. *)
Theorem sign_proposal_outcome (now : time) (proposal_id signer signature : string)
    (current_time : option time) (self : Treasury.t) :
  let r := Treasury.sign_proposal now proposal_id signer signature current_time self in
  (r.1 = Returned tt <->
   exists p, Treasury.proposals self !! proposal_id = Some p
             /\ signer ∈ TreasuryConfig.signers (Treasury.config self)
             /\ Proposal.signable (Proposal.status p) = true
             /\ Proposal.signatures p !! signer = None)
  /\ (forall e, r.1 = Raised e -> r.2 = self)
  /\ (forall p,
        Treasury.proposals self !! proposal_id = Some p ->
        r.1 = Returned tt ->
        let sig :=
          Signature.mk signer signature (default now current_time)
            (Treasury._compute_proposal_hash p) in
        Treasury.proposals r.2
        = <[proposal_id :=
              Proposal.set_signatures (<[signer := sig]> (Proposal.signatures p)) p]>
            (Treasury.proposals self)
        /\ size (<[signer := sig]> (Proposal.signatures p))
           = S (size (Proposal.signatures p))).
Proof.
  unfold Treasury.sign_proposal.
  destruct (Treasury.proposals self !! proposal_id) as [p|] eqn:Hp; simpl.
  2: { split; [|split]; [|done|done]. split; [done|]. by intros (p & ? & _). }
  destruct (decide (signer ∉ _)) as [Hout|Hin]; simpl.
  { split; [|split]; [|done|done]. split; [done|]. by intros (p' & _ & Hin & _). }
  apply dec_stable in Hin.
  destruct (Proposal.signable (Proposal.status p)) eqn:Hst; simpl.
  2: { split; [|split]; [|done|done]. split; [done|].
       intros (p' & [= <-] & _ & Hs & _). congruence. }
  destruct (decide (is_Some (Proposal.signatures p !! signer))) as [Hdup|Hnew]; simpl.
  { split; [|split]; [|done|done]. split; [done|].
    intros (p' & [= <-] & _ & _ & Hnone). rewrite Hnone in Hdup. by destruct Hdup. }
  assert (Hnone : Proposal.signatures p !! signer = None).
  { destruct (Proposal.signatures p !! signer) eqn:E; [|done]. by destruct Hnew. }
  split; [|split].
  - split; [|done]. intros _. by exists p.
  - discriminate.
  - intros p' [= <-] _. split; [done|]. by apply map_size_insert_None.
Qed.

Lemma sign_proposal_outcome_witness :
  Treasury.proposals Scenario.signed !! "p1" = Some Scenario.p1
  /\ "d" ∈ TreasuryConfig.signers (Treasury.config Scenario.signed)
  /\ Proposal.signable (Proposal.status Scenario.p1) = true
  /\ Proposal.signatures Scenario.p1 !! "d" = None
  /\ (Treasury.sign_proposal 1 "p1" "d" "sig" (Some 1) Scenario.signed).1
     = Returned tt.
Proof.
  assert (Hp : Treasury.proposals Scenario.signed !! "p1" = Some Scenario.p1)
    by (vm_compute; reflexivity).
  assert (Hd : "d" ∈ TreasuryConfig.signers (Treasury.config Scenario.signed)).
  { apply (bool_decide_unpack _). vm_compute. exact I. }
  assert (Hn : Proposal.signatures Scenario.p1 !! "d" = None)
    by (vm_compute; reflexivity).
  split; [exact Hp|]. split; [exact Hd|]. split; [reflexivity|]. split; [exact Hn|].
  destruct (sign_proposal_outcome 1 "p1" "d" "sig" (Some 1) Scenario.signed)
    as (Hiff & _).
  apply Hiff. exists Scenario.p1. done.
Defined.

(** X4. The signature string is opaque to [sign_proposal]: the outcome of
    the call is the same for every string, and an empty string, which
    [Signature.verify_signature] refuses, is stored like any other. *)
Theorem sign_proposal_ignores_signature (now : time) (proposal_id signer : string)
    (current_time : option time) (self : Treasury.t) :
  (forall s s',
     (Treasury.sign_proposal now proposal_id signer s current_time self).1
     = (Treasury.sign_proposal now proposal_id signer s' current_time self).1)
  /\ ((Treasury.sign_proposal now proposal_id signer "" current_time self).1
      = Returned tt ->
      exists p sig,
        Treasury.proposals
          (Treasury.sign_proposal now proposal_id signer "" current_time self).2
        !! proposal_id = Some p
        /\ Proposal.signatures p !! signer = Some sig
        /\ Signature.verify_signature sig = false).
Proof.
  split.
  - intros s s'. unfold Treasury.sign_proposal. repeat case_match; reflexivity.
  - unfold Treasury.sign_proposal. repeat case_match; try discriminate. intros _.
    simpl. eexists. eexists. rewrite lookup_insert_eq. split; [reflexivity|].
    simpl. rewrite lookup_insert_eq. split; [reflexivity|]. reflexivity.
Qed.

Lemma sign_proposal_ignores_signature_witness :
  (Treasury.sign_proposal 1 "p1" "d" "" (Some 1) Scenario.signed).1 = Returned tt
  /\ exists p sig,
       Treasury.proposals
         (Treasury.sign_proposal 1 "p1" "d" "" (Some 1) Scenario.signed).2
       !! "p1" = Some p
       /\ Proposal.signatures p !! "d" = Some sig
       /\ Signature.verify_signature sig = false.
Proof.
  assert (Hret : (Treasury.sign_proposal 1 "p1" "d" "" (Some 1) Scenario.signed).1
                 = Returned tt) by (vm_compute; reflexivity).
  split; [exact Hret|].
  exact (proj2 (sign_proposal_ignores_signature 1 "p1" "d" (Some 1) Scenario.signed)
           Hret).
Defined.

(** ** Terminal proposals *)

Lemma terminal_rejected {BI : Builtins} (now : time) (proposal_id who arg : string)
    (current_time : option time) (self : Treasury.t) (p : Proposal.t) :
  Treasury.proposals self !! proposal_id = Some p ->
  terminal (Proposal.status p) = true ->
  (exists e,
     Treasury.sign_proposal now proposal_id who arg current_time self
     = (Raised e, self))
  /\ (exists e,
        Treasury.execute_proposal now proposal_id who current_time self
        = (Raised e, self))
  /\ (lock_end_representable p ->
      Treasury.execute_proposal now proposal_id who current_time self
      = (Raised cannot_execute, self)).
Proof.
  intros Hp Hterm.
  assert (Hs : Proposal.signable (Proposal.status p) = false)
    by (destruct (Proposal.status p); done).
  assert (Hrej : lock_end_representable p ->
                 Treasury.execute_proposal now proposal_id who current_time self
                 = (Raised cannot_execute, self)).
  { intros Hrep. apply execute_proposal_rejected with (p := p); [exact Hp|].
    unfold Proposal.can_execute. rewrite (time_locked_at_representable p Hrep), Hs.
    by rewrite andb_false_r. }
  split; [|split].
  - unfold Treasury.sign_proposal. rewrite Hp, Hs. simpl.
    destruct (decide _); eexists; reflexivity.
  - destruct (classic_representable p) as [Hrep|Hrep].
    + eexists. by apply Hrej.
    + destruct (execute_proposal_overflow now proposal_id who current_time self p
                  Hp Hrep) as (msg & Hmsg).
      by eexists.
  - exact Hrej.
Qed.

(** X5. On a proposal whose status is terminal, [sign_proposal] and
    [execute_proposal] raise and change nothing, whoever calls and
    whenever: a terminal proposal is never signed or executed again.
    [execute_proposal] raises the [ValueError] "Proposal cannot execute",
    unless the end of the time lock is not a [datetime], in which case it
    raises [OverflowError]. *)
Theorem terminal_proposal_rejects {BI : Builtins}
    (now : time) (proposal_id who arg : string)
    (current_time : option time) (self : Treasury.t) (p : Proposal.t) :
  Treasury.proposals self !! proposal_id = Some p ->
  terminal (Proposal.status p) = true ->
  (exists e,
     Treasury.sign_proposal now proposal_id who arg current_time self
     = (Raised e, self))
  /\ (exists e,
        Treasury.execute_proposal now proposal_id who current_time self
        = (Raised e, self))
  /\ (lock_end_representable p ->
      Treasury.execute_proposal now proposal_id who current_time self
      = (Raised cannot_execute, self))
  /\ (~ lock_end_representable p ->
      exists msg,
        Treasury.execute_proposal now proposal_id who current_time self
        = (Raised (OverflowError msg), self)).
Proof.
  intros Hp Hterm.
  destruct (terminal_rejected now proposal_id who arg current_time self p Hp Hterm)
    as (Hsign & Hexec & Hrej).
  split; [exact Hsign|]. split; [exact Hexec|]. split; [exact Hrej|].
  intros Hrep. by apply execute_proposal_overflow with (p := p).
Qed.

Lemma terminal_proposal_rejects_witness :
  Treasury.proposals Scenario.partial !! "p1" = Some Scenario.failed_p1
  /\ terminal (Proposal.status Scenario.failed_p1) = true
  /\ lock_end_representable Scenario.failed_p1
  /\ Treasury.execute_proposal 9 "p1" "a" (Some 9) Scenario.partial
     = (Raised cannot_execute, Scenario.partial).
Proof.
  assert (Hp : Treasury.proposals Scenario.partial !! "p1" = Some Scenario.failed_p1)
    by (vm_compute; reflexivity).
  assert (Hrep : lock_end_representable Scenario.failed_p1).
  { unfold lock_end_representable. vm_compute. repeat split; discriminate. }
  split; [exact Hp|]. split; [reflexivity|]. split; [exact Hrep|].
  destruct (terminal_proposal_rejects 9 "p1" "a" "" (Some 9) Scenario.partial
              Scenario.failed_p1 Hp eq_refl) as (_ & _ & Hrej & _).
  exact (Hrej Hrep).
Defined.

(** X6. An executed proposal is final: whatever is called next (with fresh
    identifiers for new proposals), the proposal stays stored exactly as it
    is, status, signatures and [executed_at] included. *)
Theorem executed_proposal_final {BI : Builtins}
    (now : time) (c : call) (self : Treasury.t)
    (k : string) (p : Proposal.t) :
  Treasury.proposals self !! k = Some p ->
  Proposal.status p = EXECUTED ->
  fresh_uuid c self ->
  Treasury.proposals (run now c self) !! k = Some p.
Proof.
  intros Hp Hst Hfresh.
  assert (Hterm : terminal (Proposal.status p) = true) by (by rewrite Hst).
  destruct c; simpl in *.
  - unfold Treasury.deposit, TreasuryBalance.deposit.
    repeat case_match; simplify_eq; exact Hp.
  - unfold Treasury.add_signer. repeat case_match; exact Hp.
  - unfold Treasury.remove_signer. repeat case_match; exact Hp.
  - unfold Treasury.create_proposal. repeat case_match; simpl; try exact Hp.
    rewrite lookup_insert_ne; [exact Hp|]. intros ->. congruence.
  - destruct (decide (proposal_id = k)) as [->|Hne].
    + destruct (terminal_rejected now k signer signature current_time
                  self p Hp Hterm) as [[e ->] _]. exact Hp.
    + unfold Treasury.sign_proposal. repeat case_match; simpl; try exact Hp.
      by rewrite lookup_insert_ne.
  - destruct (decide (proposal_id = k)) as [->|Hne].
    + destruct (terminal_rejected now k executor "" current_time
                  self p Hp Hterm) as (_ & [e ->] & _). exact Hp.
    + destruct (Treasury.proposals self !! proposal_id) as [q|] eqn:Hq.
      2: { unfold Treasury.execute_proposal. by rewrite Hq. }
      destruct (execute_proposal_cases now proposal_id executor current_time self q Hq)
        as [[_ Hr]|[[_ Hr]|[msg Hr]]]; rewrite Hr; try exact Hp.
      unfold Treasury.execute_checked.
      pose proof (execute_transactions_frame now proposal_id q
                    (default now current_time) (Proposal.transactions q) self)
        as (Hprops & _).
      destruct (Treasury.execute_transactions _ _ _ _ _ _) as [[[]|e] self1];
        simpl in *; rewrite lookup_insert_ne by done; by rewrite Hprops.
  - unfold Treasury.cancel_proposal.
    destruct (Treasury.proposals self !! proposal_id) as [q|] eqn:Hq; [|exact Hp].
    destruct (_ && _); [exact Hp|].
    destruct (decide (proposal_id = k)) as [->|Hne].
    + rewrite Hp in Hq. injection Hq as <-. rewrite Hst. exact Hp.
    + repeat case_match; simpl; try exact Hp. by rewrite lookup_insert_ne.
  - unfold Treasury.trigger_emergency_freeze, EmergencyModule.create_emergency_action.
    repeat case_match; simplify_eq; exact Hp.
  - unfold Treasury.sign_emergency_action, EmergencyModule.sign_emergency_action.
    repeat case_match; simplify_eq; exact Hp.
  - unfold Treasury.execute_emergency_action. repeat case_match; exact Hp.
  - unfold Treasury.unfreeze_treasury. repeat case_match; exact Hp.
  - exact Hp.
  - unfold module_create_emergency_action. case_match. exact Hp.
  - unfold module_sign_emergency_action. case_match. exact Hp.
  - exact Hp.
  - unfold module_remove_emergency_signer. case_match. exact Hp.
  - unfold balance_deposit. repeat case_match; exact Hp.
  - unfold balance_withdraw. repeat case_match; exact Hp.
Qed.

Lemma executed_proposal_final_witness :
  (exists p, Treasury.proposals Scenario.basic !! "p1" = Some p
             /\ Proposal.status p = EXECUTED)
  /\ fresh_uuid (CancelProposal "p1" "a" (Some 4000)) Scenario.basic
  /\ Treasury.proposals (run 4000 (CancelProposal "p1" "a" (Some 4000)) Scenario.basic)
     !! "p1"
     = Treasury.proposals Scenario.basic !! "p1".
Proof.
  destruct (Treasury.proposals Scenario.basic !! "p1") as [p|] eqn:Hp;
    [|vm_compute in Hp; discriminate Hp].
  assert (Hst : Proposal.status p = EXECUTED).
  { revert Hp. vm_compute. intros [= <-]. reflexivity. }
  split; [by exists p|]. split; [exact I|].
  exact (executed_proposal_final 4000 (CancelProposal "p1" "a" (Some 4000))
           Scenario.basic "p1" p Hp Hst I).
Defined.

(** ** The terms of stored proposals *)

Lemma time_lock_values_grows (tx : Transaction.t) (ps : list (string * Policy))
    (context context' : Context.t) :
  PolicyManager.time_lock_values tx ps context = Returned context' ->
  default 0 (Context.required_time_lock context)
  <= default 0 (Context.required_time_lock context').
Proof.
  revert context. induction ps as [|[k p] ps IH]; intros context; simpl.
  { intros [= <-]. lia. }
  destruct p as [| | |q| |]; try apply IH.
  unfold TimeLockPolicy.validate.
  destruct (negb (TimeLockPolicy.enabled q)); [apply IH|].
  destruct (TimeLockPolicy.calculate_lock_duration _ _ _) as [d|e]; [|done].
  intros H. apply IH in H. simpl in H. lia.
Qed.

Lemma time_lock_loop_grows (txs : list Transaction.t) (ps : list (string * Policy))
    (context context' : Context.t) :
  PolicyManager.time_lock_loop txs ps context = Returned context' ->
  default 0 (Context.required_time_lock context)
  <= default 0 (Context.required_time_lock context').
Proof.
  revert context. induction txs as [|tx txs IH]; intros context; simpl.
  { intros [= <-]. lia. }
  destruct (PolicyManager.time_lock_values tx ps context) as [c1|e] eqn:H1; [|done].
  intros H. apply IH in H. apply time_lock_values_grows in H1. lia.
Qed.

Lemma get_required_time_lock_nonneg (txs : list Transaction.t) (category : Category)
    (pm : PolicyManager.t) (d : Z) :
  PolicyManager.get_required_time_lock txs category pm = Returned d -> 0 <= d.
Proof.
  unfold PolicyManager.get_required_time_lock.
  destruct (PolicyManager.time_lock_loop _ _ _) as [c1|e] eqn:H1; [|done].
  intros [= <-]. apply time_lock_loop_grows in H1. exact H1.
Qed.

Lemma evolves_refl (p : Proposal.t) : evolves p p.
Proof. by repeat split. Qed.

Lemma evolves_trans (p q r : Proposal.t) : evolves p q -> evolves q r -> evolves p r.
Proof.
  intros (? & ? & ? & ? & ? & ? & ? & ?) (? & ? & ? & ? & ? & ? & ? & ?).
  repeat split; try congruence. by etrans.
Qed.

Lemma run_proposals_step {BI : Builtins} (now : time) (c : call) (self : Treasury.t) :
  fresh_uuid c self -> proposals_step self (run now c self).
Proof.
  intros Hfresh. destruct c; simpl in *.
  - unfold Treasury.deposit, TreasuryBalance.deposit.
    repeat case_match; simplify_eq; by apply proposals_same.
  - unfold Treasury.add_signer. repeat case_match; by apply proposals_same.
  - unfold Treasury.remove_signer. repeat case_match; by apply proposals_same.
  - unfold Treasury.create_proposal.
    destruct (decide (creator ∉ _)) as [|Hin]; [by apply proposals_same|].
    apply dec_stable in Hin.
    destruct (Treasury.frozen self); [by apply proposals_same|].
    destruct (bool_decide (transactions = [])) eqn:Hnil; [by apply proposals_same|].
    destruct (50 <? length transactions)%nat eqn:Hlen; [by apply proposals_same|].
    destruct (Treasury.validate_new _ _ _ _ _) as [[[]|e] pm'];
      [|by apply proposals_same].
    destruct (PolicyManager.get_required_time_lock _ _ _) as [d|e] eqn:Hd;
      [|by apply proposals_same].
    eapply proposals_create; [exact Hfresh|reflexivity|].
    apply get_required_time_lock_nonneg in Hd.
    apply bool_decide_eq_false in Hnil. apply Nat.ltb_ge in Hlen.
    repeat split; simpl; try done; try lia.
    destruct transactions; [done|simpl; lia].
  - unfold Treasury.sign_proposal.
    destruct (Treasury.proposals self !! proposal_id) as [p|] eqn:Hp;
      [|by apply proposals_same].
    repeat case_match; try by apply proposals_same.
    eapply proposals_update; [exact Hp|reflexivity|].
    repeat split; simpl; try done. apply insert_subseteq.
    destruct (Proposal.signatures p !! signer) eqn:E; [|done].
    match goal with H : ¬ is_Some _ |- _ => destruct H end. by eexists.
  - destruct (Treasury.proposals self !! proposal_id) as [p|] eqn:Hp.
    2: { unfold Treasury.execute_proposal. rewrite Hp. by apply proposals_same. }
    destruct (execute_proposal_cases now proposal_id executor current_time self p Hp)
      as [[_ Hr]|[[_ Hr]|[msg Hr]]]; rewrite Hr; try by apply proposals_same.
    unfold Treasury.execute_checked.
    pose proof (execute_transactions_frame now proposal_id p
                  (default now current_time) (Proposal.transactions p) self)
      as (Hprops & _).
    destruct (Treasury.execute_transactions _ _ _ _ _ _) as [[[]|e] self1];
      simpl in *; (eapply proposals_update;
                   [exact Hp | by rewrite Hprops | by repeat split]).
  - unfold Treasury.cancel_proposal.
    destruct (Treasury.proposals self !! proposal_id) as [p|] eqn:Hp;
      [|by apply proposals_same].
    repeat case_match; try by apply proposals_same.
    eapply proposals_update; [exact Hp | reflexivity | by repeat split].
  - unfold Treasury.trigger_emergency_freeze, EmergencyModule.create_emergency_action.
    repeat case_match; simplify_eq; by apply proposals_same.
  - unfold Treasury.sign_emergency_action, EmergencyModule.sign_emergency_action.
    repeat case_match; simplify_eq; by apply proposals_same.
  - unfold Treasury.execute_emergency_action.
    repeat case_match; by apply proposals_same.
  - unfold Treasury.unfreeze_treasury. repeat case_match; by apply proposals_same.
  - by apply proposals_same.
  - unfold module_create_emergency_action. case_match. by apply proposals_same.
  - unfold module_sign_emergency_action. case_match. by apply proposals_same.
  - by apply proposals_same.
  - unfold module_remove_emergency_signer. case_match. by apply proposals_same.
  - unfold balance_deposit. repeat case_match; by apply proposals_same.
  - unfold balance_withdraw. repeat case_match; by apply proposals_same.
Qed.

Lemma run_well_formed {BI : Builtins} (now : time) (c : call) (self : Treasury.t) :
  fresh_uuid c self ->
  (forall k p, Treasury.proposals self !! k = Some p -> well_formed self k p) ->
  forall k p, Treasury.proposals (run now c self) !! k = Some p ->
              well_formed (run now c self) k p.
Proof.
  intros Hfresh Hwf k p.
  assert (Hkeep : forall q, well_formed self k q -> well_formed (run now c self) k q).
  { intros q (Hid & Hlen & Hthr & Hlock).
    pose proof (run_threshold now c self) as Hc.
    unfold well_formed. rewrite Hc. done. }
  destruct (run_proposals_step now c self Hfresh)
    as [Heq | k0 p0 p' Hp0 Heq Hev | k0 p' Hnone Heq Hcr]; rewrite Heq.
  - intros Hp. by apply Hkeep, Hwf.
  - destruct (decide (k0 = k)) as [->|Hne].
    + rewrite lookup_insert_eq. intros [= <-]. apply Hkeep.
      destruct (Hwf _ _ Hp0) as (? & ? & ? & ?).
      destruct Hev as (E1 & _ & E2 & _ & E3 & _ & E4 & _).
      unfold well_formed. rewrite E1, E2, E3, E4. done.
    + rewrite lookup_insert_ne by done. intros Hp. by apply Hkeep, Hwf.
  - destruct (decide (k0 = k)) as [->|Hne].
    + rewrite lookup_insert_eq. intros [= <-]. apply Hkeep.
      destruct Hcr as (? & _ & _ & _ & _ & _ & ? & ? & ?). done.
    + rewrite lookup_insert_ne by done. intros Hp. by apply Hkeep, Hwf.
Qed.

(** X7. In every reachable state each stored proposal is filed under its
    own identifier, has between 1 and 50 transactions, requires at least
    the treasury's threshold of signatures and has a non-negative time
    lock. *)
Theorem stored_proposals_well_formed {BI : Builtins} (self : Treasury.t) (k : string)
    (p : Proposal.t) :
  reachable self ->
  Treasury.proposals self !! k = Some p ->
  Proposal.proposal_id p = k
  /\ (1 <= length (Proposal.transactions p) <= 50)%nat
  /\ TreasuryConfig.threshold (Treasury.config self) <= Proposal.threshold_required p
  /\ 0 <= Proposal.time_lock_duration p.
Proof.
  intros Hreach. revert k p.
  induction Hreach as [id signers thr et es self Hinit | now c self Hreach IH Hfresh].
  - unfold Treasury.init in Hinit. case_match; simplify_eq. intros k p Hp.
    simpl in Hp. by rewrite lookup_empty in Hp.
  - intros k p Hp. by apply (run_well_formed now c self Hfresh IH).
Qed.

Lemma reachable_signed : reachable Scenario.signed.
Proof.
  unfold Scenario.signed, Scenario.runs. cbn [fold_left fst snd].
  do 5 (apply reachable_run; [|vm_compute; done]).
  apply (reachable_init "treasury" Scenario.signers5 3 None None).
  vm_compute. reflexivity.
Qed.

Lemma stored_proposals_well_formed_witness :
  reachable Scenario.signed
  /\ Treasury.proposals Scenario.signed !! "p1" = Some Scenario.p1
  /\ TreasuryConfig.threshold (Treasury.config Scenario.signed)
     <= Proposal.threshold_required Scenario.p1.
Proof.
  assert (Hp : Treasury.proposals Scenario.signed !! "p1" = Some Scenario.p1)
    by (vm_compute; reflexivity).
  split; [exact reachable_signed|]. split; [exact Hp|].
  destruct (stored_proposals_well_formed Scenario.signed "p1" Scenario.p1
              reachable_signed Hp) as (_ & _ & Hthr & _).
  exact Hthr.
Defined.

(** ** Spending records and the transactions behind them *)

(** The loop records the transactions it debits, in order: those of a
    prefix of the list, all of them exactly when it returns. *)
Lemma execute_transactions_prefix {BI : Builtins} (now : time) (proposal_id : string)
    (proposal : Proposal.t) (current_time : time) (txs : list Transaction.t)
    (self : Treasury.t) :
  let r :=
    Treasury.execute_transactions now proposal_id proposal current_time txs self in
  exists debited rest,
    txs = debited ++ rest
    /\ Treasury.spending_records r.2
       = Treasury.spending_records self
         ++ map (record_of proposal_id proposal current_time) debited
    /\ Forall (fun tx => Float.leb (Transaction.amount tx) Float.zero = false) debited
    /\ (r.1 = Returned tt -> rest = [])
    /\ (forall e, r.1 = Raised e -> rest <> []).
Proof.
  revert self. induction txs as [|tx txs IH]; intros self; simpl.
  { exists [], []. simpl. rewrite app_nil_r.
    split; [done|]. split; [done|]. split; [constructor|]. split; [done|].
    intros e He. discriminate He. }
  destruct (PolicyManager.validate_transaction _ _ _ _) as [[o pm'] ctx'].
  assert (Hstop : forall (e : exn) (s : Treasury.t),
             Treasury.spending_records s = Treasury.spending_records self ->
             exists debited rest,
               tx :: txs = debited ++ rest
               /\ Treasury.spending_records s
                  = Treasury.spending_records self
                    ++ map (record_of proposal_id proposal current_time) debited
               /\ Forall (fun tx =>
                            Float.leb (Transaction.amount tx) Float.zero = false)
                         debited
               /\ ((Raised e : outcome unit) = Returned tt -> rest = [])
               /\ (forall e', (Raised e : outcome unit) = Raised e' -> rest <> [])).
  { intros e s Hs. exists [], (tx :: txs). simpl. rewrite Hs, app_nil_r.
    split; [done|]. split; [done|]. split; [constructor|]. split; [done|].
    intros e' _. discriminate. }
  destruct o as [[]|e]; simpl; [|by apply Hstop].
  destruct (_ !! _) as [balance|]; simpl; [|by apply Hstop].
  unfold TreasuryBalance.withdraw.
  destruct (Float.leb (Transaction.amount tx) Float.zero) eqn:Hpos; simpl;
    [by apply Hstop|].
  destruct (Float.gtb _ _); simpl; [by apply Hstop|].
  match goal with |- context [Treasury.execute_transactions _ _ _ _ txs ?s] =>
    destruct (IH s) as (debited & rest & Htxs & Hrec & Hall & Hret & Hraise) end.
  exists (tx :: debited), rest. simpl in Hrec. rewrite Hrec, <- app_assoc.
  split; [by rewrite Htxs|]. split; [done|].
  split; [|by split].
  constructor; [exact Hpos|exact Hall].
Qed.

Lemma execute_proposal_prefix {BI : Builtins}
    (now : time) (proposal_id executor : string)
    (current_time : option time) (self : Treasury.t) (p : Proposal.t) :
  Treasury.proposals self !! proposal_id = Some p ->
  Proposal.can_execute p (default now current_time) = Returned true ->
  let r := Treasury.execute_proposal now proposal_id executor current_time self in
  exists debited rest,
    Proposal.transactions p = debited ++ rest
    /\ Treasury.spending_records r.2
       = Treasury.spending_records self
         ++ map (record_of proposal_id p (default now current_time)) debited
    /\ Forall (fun tx => Float.leb (Transaction.amount tx) Float.zero = false) debited
    /\ (r.1 = Returned tt -> rest = [])
    /\ (forall e, r.1 = Raised e -> rest <> []).
Proof.
  intros Hp Hcan.
  unfold Treasury.execute_proposal. rewrite Hp, Hcan. simpl.
  unfold Treasury.execute_checked.
  pose proof (execute_transactions_prefix now proposal_id p
                (default now current_time) (Proposal.transactions p) self) as H.
  destruct (Treasury.execute_transactions _ _ _ _ _ _) as [[[]|e] self1]; exact H.
Qed.

(** X8. When its preconditions hold (the end of the time lock being a
    [datetime]), [execute_proposal] appends the records of the transactions
    it debited, in order and stamped with the time of the call: those of
    all transactions when it returns, those of a proper prefix when it
    raises; each amount recorded passed the guard [amount <= 0] of
    [withdraw], so it is positive or NaN. *)
Theorem execute_proposal_records {BI : Builtins}
    (now : time) (proposal_id executor : string)
    (current_time : option time) (self : Treasury.t) (p : Proposal.t) :
  Treasury.proposals self !! proposal_id = Some p ->
  lock_end_representable p ->
  ready p (default now current_time) ->
  let r := Treasury.execute_proposal now proposal_id executor current_time self in
  exists debited rest,
    Proposal.transactions p = debited ++ rest
    /\ Treasury.spending_records r.2
       = Treasury.spending_records self
         ++ map (record_of proposal_id p (default now current_time)) debited
    /\ Forall (fun tx => Float.leb (Transaction.amount tx) Float.zero = false) debited
    /\ (r.1 = Returned tt -> rest = [])
    /\ (forall e, r.1 = Raised e -> rest <> []).
Proof.
  intros Hp Hrep Hready. apply (can_execute_ready _ _ Hrep) in Hready.
  by apply execute_proposal_prefix.
Qed.

Lemma execute_proposal_records_witness :
  Treasury.proposals Scenario.signed !! "p1" = Some Scenario.p1
  /\ lock_end_representable Scenario.p1
  /\ ready Scenario.p1 3601
  /\ Treasury.spending_records Scenario.basic
     = Treasury.spending_records Scenario.signed
       ++ map (record_of "p1" Scenario.p1 3601) (Proposal.transactions Scenario.p1).
Proof.
  assert (Hp : Treasury.proposals Scenario.signed !! "p1" = Some Scenario.p1)
    by (vm_compute; reflexivity).
  assert (Hrep : lock_end_representable Scenario.p1).
  { unfold lock_end_representable. vm_compute. repeat split; discriminate. }
  assert (Hready : ready Scenario.p1 3601).
  { repeat split; [vm_compute; discriminate | vm_compute; discriminate |].
    right. reflexivity. }
  split; [exact Hp|]. split; [exact Hrep|]. split; [exact Hready|].
  destruct (execute_proposal_records 3601 "p1" "a" (Some 3601) Scenario.signed
              Scenario.p1 Hp Hrep Hready)
    as (debited & rest & Htxs & Hrec & _ & Hret & _).
  rewrite Htxs, (Hret ltac:(vm_compute; reflexivity)), app_nil_r. exact Hrec.
Defined.

Lemma backed_step (self self' : Treasury.t) (r : SpendingRecord.t) :
  proposals_step self self' -> backed self r -> backed self' r.
Proof.
  intros Hstep (p & Hp & Hthr & Hlock & Hpos & tx & Htx & Hr).
  destruct Hstep as [Heq | k p0 p' Hp0 Heq Hev | k p' Hnone Heq Hcr].
  - exists p. rewrite Heq. split; [done|]. split; [done|]. split; [done|].
    split; [done|]. by exists tx.
  - destruct (decide (k = SpendingRecord.proposal_id r)) as [->|Hne].
    + rewrite Hp in Hp0. injection Hp0 as <-.
      destruct Hev as (_ & _ & Etx & Ecat & Ethr & Ecr & Elock & Hsub).
      exists p'. rewrite Heq, lookup_insert_eq. split; [done|].
      apply map_subseteq_size in Hsub.
      split; [rewrite Ethr; lia|]. split; [by rewrite Ecr, Elock|].
      split; [done|]. exists tx. split; [by rewrite Etx|].
      rewrite Hr at 1. unfold record_of. by rewrite Ecat.
    + exists p. rewrite Heq, lookup_insert_ne by done. split; [done|].
      split; [done|]. split; [done|]. split; [done|]. by exists tx.
  - exists p. rewrite Heq, lookup_insert_ne by (intros ->; congruence).
    split; [done|]. split; [done|]. split; [done|]. split; [done|]. by exists tx.
Qed.

Lemma run_records_unchanged {BI : Builtins}
    (now : time) (c : call) (self : Treasury.t) :
  (forall proposal_id executor current_time,
     c <> ExecuteProposal proposal_id executor current_time) ->
  Treasury.spending_records (run now c self) = Treasury.spending_records self.
Proof.
  intros Hc. destruct c; simpl.
  - unfold Treasury.deposit, TreasuryBalance.deposit.
    repeat case_match; simplify_eq; done.
  - unfold Treasury.add_signer. repeat case_match; done.
  - unfold Treasury.remove_signer. repeat case_match; done.
  - unfold Treasury.create_proposal. repeat case_match; done.
  - unfold Treasury.sign_proposal. repeat case_match; done.
  - by destruct (Hc proposal_id executor current_time).
  - unfold Treasury.cancel_proposal. repeat case_match; done.
  - unfold Treasury.trigger_emergency_freeze, EmergencyModule.create_emergency_action.
    repeat case_match; simplify_eq; done.
  - unfold Treasury.sign_emergency_action, EmergencyModule.sign_emergency_action.
    repeat case_match; simplify_eq; done.
  - unfold Treasury.execute_emergency_action. repeat case_match; done.
  - unfold Treasury.unfreeze_treasury. repeat case_match; done.
  - done.
  - unfold module_create_emergency_action. by case_match.
  - unfold module_sign_emergency_action. by case_match.
  - done.
  - unfold module_remove_emergency_signer. by case_match.
  - unfold balance_deposit. repeat case_match; done.
  - unfold balance_withdraw. repeat case_match; done.
Qed.

Lemma execute_proposal_backed {BI : Builtins}
    (now : time) (proposal_id executor : string)
    (current_time : option time) (self : Treasury.t) :
  Forall (backed self) (Treasury.spending_records self) ->
  let self' :=
    (Treasury.execute_proposal now proposal_id executor current_time self).2 in
  Forall (backed self') (Treasury.spending_records self').
Proof.
  intros Hold self'.
  pose proof (run_proposals_step now
                (ExecuteProposal proposal_id executor current_time) self I) as Hstep.
  simpl in Hstep. fold self' in Hstep.
  destruct (Treasury.proposals self !! proposal_id) as [p|] eqn:Hp.
  2: { subst self'. unfold Treasury.execute_proposal in *. rewrite Hp in *. done. }
  destruct (execute_proposal_cases now proposal_id executor current_time self p Hp)
    as [[Hcan _]|[[_ Hr]|[msg Hr]]].
  2, 3: subst self'; rewrite Hr in *; done.
  pose proof Hcan as Hready.
  apply (can_execute_ready _ _ (can_execute_returned _ _ _ Hcan)) in Hready.
  destruct Hready as (Hlock & Hthr & _).
  destruct (execute_proposal_prefix now proposal_id executor current_time self p Hp
              Hcan)
    as (debited & rest & Htxs & Hrec & Hpos & _).
  fold self' in Hrec. rewrite Hrec. apply Forall_app. split.
  { eapply Forall_impl; [exact Hold|]. intros r. by apply backed_step. }
  destruct (execute_proposal_proceeds now proposal_id executor current_time self p
              Hp Hcan) as (p' & Hmap & _).
  fold self' in Hmap.
  assert (Hev : evolves p p').
  { destruct Hstep as [Heq | k p0 q Hp0 Heq Hev | k q Hnone Heq Hcr].
    - rewrite Heq in Hmap.
      assert (Hl : Treasury.proposals self !! proposal_id = Some p') .
      { rewrite Hmap at 1. apply lookup_insert_eq. }
      rewrite Hp in Hl. injection Hl as <-. apply evolves_refl.
    - assert (Hk : <[proposal_id := p']> (Treasury.proposals self) !! k
                   = <[k := q]> (Treasury.proposals self) !! k) by congruence.
      rewrite lookup_insert_eq in Hk.
      destruct (decide (proposal_id = k)) as [->|Hne].
      + rewrite lookup_insert_eq in Hk. injection Hk as ->.
        rewrite Hp in Hp0. by injection Hp0 as ->.
      + assert (Hl : <[proposal_id := p']> (Treasury.proposals self) !! proposal_id
                     = <[k := q]> (Treasury.proposals self) !! proposal_id)
          by congruence.
        rewrite lookup_insert_eq, lookup_insert_ne, Hp in Hl by done.
        injection Hl as ->. apply evolves_refl.
    - assert (Hl : <[proposal_id := p']> (Treasury.proposals self) !! proposal_id
                   = <[k := q]> (Treasury.proposals self) !! proposal_id)
        by congruence.
      rewrite lookup_insert_eq in Hl.
      destruct (decide (k = proposal_id)) as [->|Hne]; [congruence|].
      rewrite lookup_insert_ne, Hp in Hl by done.
      injection Hl as ->. apply evolves_refl. }
  destruct Hev as (_ & _ & Etx & Ecat & Ethr & Ecr & Elock & Hsub).
  apply map_subseteq_size in Hsub.
  apply Forall_forall. intros r Hr. apply list_elem_of_fmap in Hr as (tx & -> & Htx).
  exists p'. simpl. rewrite Hmap, lookup_insert_eq. split; [done|].
  split; [rewrite Ethr; lia|]. split; [by rewrite Ecr, Elock|].
  split; [by rewrite Forall_forall in Hpos; apply Hpos|].
  exists tx. split.
  - rewrite Etx, Htxs. apply elem_of_app. by left.
  - unfold record_of. simpl. by rewrite Ecat.
Qed.

Lemma run_backed {BI : Builtins} (now : time) (c : call) (self : Treasury.t) :
  fresh_uuid c self ->
  Forall (backed self) (Treasury.spending_records self) ->
  Forall (backed (run now c self)) (Treasury.spending_records (run now c self)).
Proof.
  intros Hfresh Hold.
  assert (Hcase : (exists proposal_id executor current_time,
                     c = ExecuteProposal proposal_id executor current_time)
                  \/ (forall proposal_id executor current_time,
                        c <> ExecuteProposal proposal_id executor current_time)).
  { destruct c; try (right; intros; discriminate). left. eauto. }
  destruct Hcase as [(pid & ex & ct & ->)|Hother].
  - by apply execute_proposal_backed.
  - rewrite run_records_unchanged by exact Hother.
    eapply Forall_impl; [exact Hold|]. intros r.
    apply backed_step. by apply run_proposals_step.
Qed.

(** X9. In every reachable state every spending record is backed by its
    proposal: the proposal is stored and holds at least
    [threshold_required] signatures, which is at least the treasury's
    threshold; the record was written no earlier than
    [created_at + time_lock_duration]; its amount passed the guard
    [amount <= 0] of [withdraw] and it is the record of one of the
    proposal's transactions. *)
Theorem spending_records_backed {BI : Builtins}
    (self : Treasury.t) (r : SpendingRecord.t) :
  reachable self ->
  r ∈ Treasury.spending_records self ->
  exists p,
    Treasury.proposals self !! SpendingRecord.proposal_id r = Some p
    /\ TreasuryConfig.threshold (Treasury.config self)
       <= Proposal.threshold_required p
       <= Z.of_nat (size (Proposal.signatures p))
    /\ Proposal.created_at p + Proposal.time_lock_duration p
       <= SpendingRecord.timestamp r
    /\ Float.leb (SpendingRecord.amount r) Float.zero = false
    /\ exists tx,
         tx ∈ Proposal.transactions p
         /\ r = record_of (SpendingRecord.proposal_id r) p
                  (SpendingRecord.timestamp r) tx.
Proof.
  intros Hreach Hin.
  assert (Hall : Forall (backed self) (Treasury.spending_records self)
                 /\ forall k p, Treasury.proposals self !! k = Some p ->
                                well_formed self k p).
  { clear Hin r.
    induction Hreach as [id signers thr et es self Hinit
                        | now c self Hreach [IHb IHw] Hfresh].
    - unfold Treasury.init in Hinit. case_match; simplify_eq. split; [constructor|].
      intros k p Hp. simpl in Hp. by rewrite lookup_empty in Hp.
    - split; [by apply run_backed | by apply run_well_formed]. }
  destruct Hall as [Hb Hw]. rewrite Forall_forall in Hb.
  destruct (Hb r Hin) as (p & Hp & Hthr & Hlock & Hpos & Htx).
  exists p. destruct (Hw _ _ Hp) as (_ & _ & Hcfg & _). done.
Qed.

Lemma spending_records_backed_witness :
  reachable Scenario.partial
  /\ Scenario.partial_record ∈ Treasury.spending_records Scenario.partial
  /\ exists p,
       Treasury.proposals Scenario.partial !! "p1" = Some p
       /\ TreasuryConfig.threshold (Treasury.config Scenario.partial)
          <= Z.of_nat (size (Proposal.signatures p)).
Proof.
  assert (Hin : Scenario.partial_record ∈ Treasury.spending_records Scenario.partial).
  { replace (Treasury.spending_records Scenario.partial)
      with [Scenario.partial_record] by (vm_compute; reflexivity).
    apply list_elem_of_here. }
  split; [exact reachable_partial|]. split; [exact Hin|].
  destruct (spending_records_backed Scenario.partial Scenario.partial_record
              reachable_partial Hin) as (p & Hp & [Hlo Hhi] & _).
  exists p. split; [exact Hp|]. lia.
Defined.

(** ** Signer management *)

(** X10. Adding a new signer and removing it again restores the signer set:
    for an authorized [a1], a signer [x] that is not yet one, and a
    treasury whose threshold does not exceed its signers, both calls
    return, [signers] is what it was, and the only lasting effect on the
    configuration is that [x] is no emergency signer any more. *)
Theorem add_remove_signer_round_trip (now1 now2 : time) (x a1 a2 : string)
    (self : Treasury.t) :
  a1 ∈ TreasuryConfig.signers (Treasury.config self) ->
  a2 ∈ TreasuryConfig.signers (Treasury.config self) \/ a2 = x ->
  x ∉ TreasuryConfig.signers (Treasury.config self) ->
  TreasuryConfig.threshold (Treasury.config self)
  <= Z.of_nat (size (TreasuryConfig.signers (Treasury.config self))) ->
  let r1 := Treasury.add_signer now1 x a1 self in
  let r2 := Treasury.remove_signer now2 x a2 r1.2 in
  r1.1 = Returned tt
  /\ x ∈ TreasuryConfig.signers (Treasury.config r1.2)
  /\ r2.1 = Returned tt
  /\ TreasuryConfig.signers (Treasury.config r2.2)
     = TreasuryConfig.signers (Treasury.config self)
  /\ TreasuryConfig.emergency_signers (Treasury.config r2.2)
     = TreasuryConfig.emergency_signers (Treasury.config self) ∖ {[x]}
  /\ TreasuryConfig.threshold (Treasury.config r2.2)
     = TreasuryConfig.threshold (Treasury.config self).
Proof.
  intros Ha1 Ha2 Hx Hthr r1 r2. subst r2 r1.
  assert (Hless : forall s : gset string, x ∉ s -> s ∖ {[x]} = s).
  { intros s Hs. by apply difference_disjoint_L, disjoint_singleton_r. }
  assert (Hback : forall s : gset string, x ∉ s -> ({[x]} ∪ s) ∖ {[x]} = s).
  { intros s Hs. rewrite difference_union_distr_l_L, difference_diag_L.
    rewrite (left_id_L ∅ (∪)). by apply Hless. }
  assert (Ha2' : a2 ∈ {[x]} ∪ TreasuryConfig.signers (Treasury.config self)).
  { apply elem_of_union. destruct Ha2 as [Hin|Heq]; [by right|].
    left. by apply elem_of_singleton. }
  unfold Treasury.add_signer. rewrite decide_False by (by intros []). simpl.
  unfold Treasury.remove_signer. simpl.
  rewrite decide_False by (by intros []).
  assert (Hsize : size ({[x]} ∪ TreasuryConfig.signers (Treasury.config self))
                  = S (size (TreasuryConfig.signers (Treasury.config self)))).
  { rewrite size_union by (by apply disjoint_singleton_l).
    by rewrite size_singleton. }
  rewrite Hsize.
  destruct (Z.leb_spec (Z.of_nat (S (size (TreasuryConfig.signers
                                             (Treasury.config self)))))
              (TreasuryConfig.threshold (Treasury.config self))); [lia|].
  simpl. split; [done|].
  split; [by apply elem_of_union_l, elem_of_singleton|]. split; [done|].
  split; [by apply Hback|]. split; [|done].
  unfold TreasuryConfig.emergency_signers. simpl.
  destruct (TreasuryConfig.emergency_signers_own (Treasury.config self));
    simpl; [done|].
  by rewrite Hback, Hless.
Qed.

Lemma add_remove_signer_round_trip_witness :
  "a" ∈ TreasuryConfig.signers (Treasury.config Scenario.signed)
  /\ ("f" ∉ TreasuryConfig.signers (Treasury.config Scenario.signed))
  /\ TreasuryConfig.threshold (Treasury.config Scenario.signed)
     <= Z.of_nat (size (TreasuryConfig.signers (Treasury.config Scenario.signed)))
  /\ TreasuryConfig.signers
       (Treasury.config
          (Treasury.remove_signer 2 "f" "f"
             (Treasury.add_signer 1 "f" "a" Scenario.signed).2).2)
     = TreasuryConfig.signers (Treasury.config Scenario.signed).
Proof.
  assert (Ha : "a" ∈ TreasuryConfig.signers (Treasury.config Scenario.signed)).
  { apply (bool_decide_unpack _). vm_compute. exact I. }
  assert (Hf : "f" ∉ TreasuryConfig.signers (Treasury.config Scenario.signed)).
  { apply (bool_decide_unpack _). vm_compute. exact I. }
  assert (Hthr : TreasuryConfig.threshold (Treasury.config Scenario.signed)
                 <= Z.of_nat (size (TreasuryConfig.signers
                                      (Treasury.config Scenario.signed))))
    by (vm_compute; discriminate).
  split; [exact Ha|]. split; [exact Hf|]. split; [exact Hthr|].
  pose proof (add_remove_signer_round_trip 1 2 "f" "a" "f" Scenario.signed
                Ha (or_intror eq_refl) Hf Hthr) as (_ & _ & _ & Hs & _).
  exact Hs.
Defined.

(** X11. Without emergency signers of its own the treasury uses one and the
    same set object for both roles: constructed with no emergency signers,
    with an empty set of them, or with the set object that is also passed
    as [signers], it makes every signer added later an emergency signer as
    well.  Constructed with another set object, not empty, [add_signer]
    leaves that set alone. *)
Theorem added_signer_emergency_role (now : time) (treasury_id x a : string)
    (signers : gset string) (threshold : Z) (emergency_threshold : option Z) :
  a ∈ signers ->
  (forall es,
     es = None \/ es = Some Treasury.SameObject
     \/ es = Some (Treasury.OtherObject ∅) ->
     let self := Treasury.construct treasury_id signers threshold
                   emergency_threshold es in
     TreasuryConfig.emergency_signers (Treasury.config self) = signers
     /\ TreasuryConfig.emergency_signers
          (Treasury.config (Treasury.add_signer now x a self).2)
        = {[x]} ∪ signers)
  /\ (forall E,
        E <> ∅ ->
        let self := Treasury.construct treasury_id signers threshold
                      emergency_threshold (Some (Treasury.OtherObject E)) in
        TreasuryConfig.emergency_signers
          (Treasury.config (Treasury.add_signer now x a self).2)
        = E).
Proof.
  intros Ha. split.
  - intros es Hes self. subst self. unfold Treasury.add_signer.
    destruct Hes as [->|[->| ->]]; simpl;
      rewrite ?decide_True by done;
      rewrite decide_False by (by intros []); done.
  - intros E HE self. subst self. unfold Treasury.add_signer. simpl.
    rewrite decide_False by (by intros []). simpl.
    unfold TreasuryConfig.emergency_signers. simpl.
    by rewrite decide_False by done.
Qed.

Lemma added_signer_emergency_role_witness :
  "a" ∈ Scenario.signers5
  /\ "f" ∈ TreasuryConfig.emergency_signers
             (Treasury.config
                (Treasury.add_signer 1 "f" "a"
                   (Treasury.construct "treasury" Scenario.signers5 3 None None)).2).
Proof.
  assert (Ha : "a" ∈ Scenario.signers5).
  { apply (bool_decide_unpack _). vm_compute. exact I. }
  split; [exact Ha|].
  destruct (added_signer_emergency_role 1 "treasury" "f" "a" Scenario.signers5 3 None
              Ha) as (Hshared & _).
  destruct (Hshared None (or_introl eq_refl)) as (_ & ->).
  by apply elem_of_union_l, elem_of_singleton.
Defined.

(** ** The audit log *)

(** X12. The audit log is append-only: a call leaves the entries that were
    there in place and appends at most one entry, stamped with the clock
    reading [now] (not with the [current_time] argument of the call). *)
Theorem audit_log_append_only {BI : Builtins}
    (now : time) (c : call) (self : Treasury.t) :
  exists new,
    Treasury.audit_logs (run now c self) = Treasury.audit_logs self ++ new
    /\ (length new <= 1)%nat
    /\ Forall (fun entry => TreasuryAuditLog.timestamp entry = now) new.
Proof.
  assert (Hnone : forall s : Treasury.t,
             Treasury.audit_logs s = Treasury.audit_logs self ->
             exists new,
               Treasury.audit_logs s = Treasury.audit_logs self ++ new
               /\ (length new <= 1)%nat
               /\ Forall (fun entry => TreasuryAuditLog.timestamp entry = now) new).
  { intros s Hs. exists []. rewrite Hs, app_nil_r. split; [done|].
    split; [simpl; lia | constructor]. }
  assert (Hone : forall (s : Treasury.t) action actor proposal_id details,
             Treasury.audit_logs s = Treasury.audit_logs self ->
             exists new,
               Treasury.audit_logs
                 (Treasury._audit_log now action actor proposal_id details s)
               = Treasury.audit_logs self ++ new
               /\ (length new <= 1)%nat
               /\ Forall (fun entry => TreasuryAuditLog.timestamp entry = now) new).
  { intros s action actor pid details Hs. eexists. simpl. rewrite Hs.
    split; [reflexivity|]. split; [simpl; lia|]. by repeat constructor. }
  destruct c; simpl.
  - unfold Treasury.deposit, TreasuryBalance.deposit.
    repeat case_match; simplify_eq; simpl;
      first [by apply Hnone | by apply Hone].
  - unfold Treasury.add_signer.
    repeat case_match; simpl; first [by apply Hnone | by apply Hone].
  - unfold Treasury.remove_signer.
    repeat case_match; simpl; first [by apply Hnone | by apply Hone].
  - unfold Treasury.create_proposal.
    repeat case_match; simpl; first [by apply Hnone | by apply Hone].
  - unfold Treasury.sign_proposal.
    repeat case_match; simpl; first [by apply Hnone | by apply Hone].
  - unfold Treasury.execute_proposal.
    destruct (Treasury.proposals self !! proposal_id) as [p|]; [|by apply Hnone].
    destruct (Proposal.can_execute p (default now current_time)) as [[|]|e];
      [| |by apply Hnone].
    2: { destruct (Proposal.time_locked_at p); by apply Hnone. }
    unfold Treasury.execute_checked.
    pose proof (execute_transactions_frame now proposal_id p
                  (default now current_time) (Proposal.transactions p) self)
      as (_ & _ & _ & Hlogs & _).
    destruct (Treasury.execute_transactions _ _ _ _ _ _) as [[[]|e] self1];
      simpl in Hlogs; simpl snd; by apply Hone.
  - unfold Treasury.cancel_proposal.
    repeat case_match; simpl; first [by apply Hnone | by apply Hone].
  - unfold Treasury.trigger_emergency_freeze, EmergencyModule.create_emergency_action.
    repeat case_match; simplify_eq; simpl; first [by apply Hnone | by apply Hone].
  - unfold Treasury.sign_emergency_action, EmergencyModule.sign_emergency_action.
    repeat case_match; simplify_eq; simpl; first [by apply Hnone | by apply Hone].
  - unfold Treasury.execute_emergency_action.
    repeat case_match; simpl; first [by apply Hnone | by apply Hone].
  - unfold Treasury.unfreeze_treasury.
    repeat case_match; simpl; first [by apply Hnone | by apply Hone].
  - by apply Hnone.
  - unfold module_create_emergency_action. case_match. by apply Hnone.
  - unfold module_sign_emergency_action. case_match. by apply Hnone.
  - by apply Hnone.
  - unfold module_remove_emergency_signer. case_match. by apply Hnone.
  - unfold balance_deposit. repeat case_match; by apply Hnone.
  - unfold balance_withdraw. repeat case_match; by apply Hnone.
Qed.

(** ** Cancellation *)

(** X13. [cancel_proposal] returns exactly when the proposal exists, the
    caller is its creator or one of its signatories, and its status is
    neither [EXECUTED] nor [CANCELLED]; the caller need not be a current
    signer.  A call that raises changes nothing; a call that returns sets
    the status to [CANCELLED] and [cancelled_at] to the time of the call,
    and keeps the signatures. *)
Theorem cancel_proposal_outcome (now : time) (proposal_id canceller : string)
    (current_time : option time) (self : Treasury.t) :
  let r := Treasury.cancel_proposal now proposal_id canceller current_time self in
  (r.1 = Returned tt <->
   exists p, Treasury.proposals self !! proposal_id = Some p
             /\ (Proposal.creator p = canceller
                 \/ is_Some (Proposal.signatures p !! canceller))
             /\ Proposal.status p <> EXECUTED
             /\ Proposal.status p <> CANCELLED)
  /\ (forall e, r.1 = Raised e -> r.2 = self)
  /\ (forall p,
        Treasury.proposals self !! proposal_id = Some p ->
        r.1 = Returned tt ->
        Treasury.proposals r.2
        = <[proposal_id :=
              Proposal.set_cancelled_at (Some (default now current_time))
                (Proposal.set_status CANCELLED p)]> (Treasury.proposals self)).
Proof.
  unfold Treasury.cancel_proposal.
  destruct (Treasury.proposals self !! proposal_id) as [p|] eqn:Hp; simpl.
  2: { split; [|split]; [|done|done]. split; [done|]. by intros (p & ? & _). }
  destruct (bool_decide (Proposal.creator p ≠ canceller)) eqn:Hc;
    destruct (bool_decide (Proposal.signatures p !! canceller = None)) eqn:Hs;
    simpl.
  { apply bool_decide_eq_true in Hc. apply bool_decide_eq_true in Hs.
    split; [|split]; [|done|done]. split; [done|].
    intros (p' & [= <-] & [Hcr|[sig Hsig]] & _); [done|congruence]. }
  all: assert (Hauth : Proposal.creator p = canceller
                       \/ is_Some (Proposal.signatures p !! canceller)).
  all: try (apply bool_decide_eq_false in Hs; right;
            destruct (Proposal.signatures p !! canceller); [by eexists|done]).
  all: try (apply bool_decide_eq_false in Hc; left; by apply dec_stable).
  all: destruct (bool_decide (Proposal.status p = EXECUTED)) eqn:He; simpl.
  all: try (apply bool_decide_eq_true in He;
            split; [|split]; [|done|done]; split; [done|];
            by intros (p' & [= <-] & _ & Hne & _)).
  all: destruct (bool_decide (Proposal.status p = CANCELLED)) eqn:Hcl; simpl.
  all: try (apply bool_decide_eq_true in Hcl;
            split; [|split]; [|done|done]; split; [done|];
            by intros (p' & [= <-] & _ & _ & Hne)).
  all: apply bool_decide_eq_false in He; apply bool_decide_eq_false in Hcl.
  all: split; [|split]; [|discriminate|by intros p' [= <-] _].
  all: split; [|done]; intros _; by exists p.
Qed.

Lemma cancel_proposal_outcome_witness :
  (exists p, Treasury.proposals Scenario.signed !! "p1" = Some p
             /\ (Proposal.creator p = "a" \/ is_Some (Proposal.signatures p !! "a"))
             /\ Proposal.status p <> EXECUTED
             /\ Proposal.status p <> CANCELLED)
  /\ (Treasury.cancel_proposal 1 "p1" "a" (Some 1) Scenario.signed).1 = Returned tt.
Proof.
  assert (Hp : Treasury.proposals Scenario.signed !! "p1" = Some Scenario.p1)
    by (vm_compute; reflexivity).
  assert (Hcond : exists p,
             Treasury.proposals Scenario.signed !! "p1" = Some p
             /\ (Proposal.creator p = "a" \/ is_Some (Proposal.signatures p !! "a"))
             /\ Proposal.status p <> EXECUTED
             /\ Proposal.status p <> CANCELLED).
  { exists Scenario.p1. split; [exact Hp|]. split; [by left|]. split; discriminate. }
  split; [exact Hcond|].
  destruct (cancel_proposal_outcome 1 "p1" "a" (Some 1) Scenario.signed)
    as (Hiff & _).
  by apply Hiff.
Defined.

(** ** The emergency protocol *)

(** X14. The emergency cooldown gates only the creation of freeze actions.
    For an emergency signer, [trigger_emergency_freeze] at time [t] raises
    the [RuntimeError] and changes nothing while less than
    [emergency_cooldown] seconds have passed since [last_emergency_at];
    otherwise (no earlier emergency, or the cooldown over) it returns the
    new identifier and files an unsigned, unexecuted "freeze" action by the
    initiator, without touching [frozen]. *)
Theorem emergency_cooldown_gate (now : time) (uuid initiator reason : string)
    (current_time : option time) (self : Treasury.t) :
  initiator ∈ TreasuryConfig.emergency_signers (Treasury.config self) ->
  let t := default now current_time in
  let r := Treasury.trigger_emergency_freeze now uuid initiator reason
             current_time self in
  (forall last,
     TreasuryConfig.last_emergency_at (Treasury.config self) = Some last ->
     t - last < TreasuryConfig.emergency_cooldown (Treasury.config self) ->
     r = (Raised (RuntimeError "Emergency cooldown period still active"), self))
  /\ ((TreasuryConfig.last_emergency_at (Treasury.config self) = None
       \/ exists last,
            TreasuryConfig.last_emergency_at (Treasury.config self) = Some last
            /\ TreasuryConfig.emergency_cooldown (Treasury.config self) <= t - last) ->
      r.1 = Returned uuid
      /\ EmergencyModule.actions (Treasury.emergency_module r.2) !! uuid
         = Some (EmergencyAction.mk uuid "freeze" initiator t reason ∅ false None)
      /\ Treasury.frozen r.2 = Treasury.frozen self
      /\ Treasury.config r.2 = Treasury.config self).
Proof.
  intros Hin t r. subst r. unfold Treasury.trigger_emergency_freeze.
  rewrite decide_False by (by intros []).
  unfold TreasuryConfig.can_trigger_emergency,
    EmergencyModule.create_emergency_action.
  rewrite decide_False by (by intros []). fold t. split.
  - intros last Hlast Hlt. rewrite Hlast.
    destruct (Z.leb_spec (TreasuryConfig.emergency_cooldown (Treasury.config self))
                (t - last)); [lia|done].
  - intros [Hnone|(last & Hlast & Hle)].
    + rewrite Hnone. simpl. by rewrite lookup_insert_eq.
    + rewrite Hlast.
      destruct (Z.leb_spec (TreasuryConfig.emergency_cooldown (Treasury.config self))
                  (t - last)); [|lia].
      simpl. by rewrite lookup_insert_eq.
Qed.

Lemma emergency_cooldown_gate_witness :
  "e2" ∈ TreasuryConfig.emergency_signers (Treasury.config Scenario.frozen)
  /\ TreasuryConfig.last_emergency_at (Treasury.config Scenario.frozen) = Some 10
  /\ 3600 - 10 < TreasuryConfig.emergency_cooldown (Treasury.config Scenario.frozen)
  /\ Treasury.trigger_emergency_freeze 3600 "act2" "e2" "again" (Some 3600)
       Scenario.frozen
     = (Raised (RuntimeError "Emergency cooldown period still active"),
        Scenario.frozen).
Proof.
  assert (He : "e2" ∈ TreasuryConfig.emergency_signers
                        (Treasury.config Scenario.frozen)).
  { apply (bool_decide_unpack _). vm_compute. exact I. }
  assert (Hlast : TreasuryConfig.last_emergency_at (Treasury.config Scenario.frozen)
                  = Some 10) by (vm_compute; reflexivity).
  assert (Hlt : 3600 - 10
                < TreasuryConfig.emergency_cooldown (Treasury.config Scenario.frozen))
    by (vm_compute; reflexivity).
  split; [exact He|]. split; [exact Hlast|]. split; [exact Hlt|].
  destruct (emergency_cooldown_gate 3600 "act2" "e2" "again" (Some 3600)
              Scenario.frozen He) as (Hblock & _).
  exact (Hblock 10 Hlast Hlt).
Defined.

(** X15. [sign_emergency_action] returns exactly when the signer is an
    emergency signer, the action exists, the signer has not signed it and
    it is not executed.  A signer outside the emergency set gets the
    [PermissionError] whether or not the action exists.  A call that raises
    changes nothing; one that returns adds exactly one signature. *)
Theorem sign_emergency_action_outcome (now : time)
    (action_id signer signature : string) (current_time : option time)
    (self : Treasury.t) :
  let r := Treasury.sign_emergency_action now action_id signer signature
             current_time self in
  (r.1 = Returned tt <->
   signer ∈ TreasuryConfig.emergency_signers (Treasury.config self)
   /\ exists action,
        EmergencyModule.actions (Treasury.emergency_module self) !! action_id
        = Some action
        /\ EmergencyAction.signatures action !! signer = None
        /\ EmergencyAction.executed action = false)
  /\ (signer ∉ TreasuryConfig.emergency_signers (Treasury.config self) ->
      r = (Raised (PermissionError "is not an emergency signer"), self))
  /\ (forall e, r.1 = Raised e -> r.2 = self)
  /\ (forall action,
        EmergencyModule.actions (Treasury.emergency_module self) !! action_id
        = Some action ->
        r.1 = Returned tt ->
        exists action',
          EmergencyModule.actions (Treasury.emergency_module r.2) !! action_id
          = Some action'
          /\ size (EmergencyAction.signatures action')
             = S (size (EmergencyAction.signatures action))
          /\ is_Some (EmergencyAction.signatures action' !! signer)).
Proof.
  assert (Hid : Treasury.set_emergency_module (Treasury.emergency_module self) self
                = self) by (by destruct self).
  unfold Treasury.sign_emergency_action, EmergencyModule.sign_emergency_action.
  destruct (decide (signer ∉ _)) as [Hout|Hin]; cbn [fst snd].
  { split; [split; [discriminate | by intros [Hin _]]|].
    split; [done|]. split; [done|]. discriminate. }
  apply dec_stable in Hin.
  destruct (EmergencyModule.actions (Treasury.emergency_module self) !! action_id)
    as [action|] eqn:Hact; cbn [fst snd].
  2: { rewrite Hid.
       split; [split; [discriminate | by intros (_ & a & ? & _)]|].
       split; [done|]. split; [done|]. discriminate. }
  destruct (decide (is_Some (EmergencyAction.signatures action !! signer)))
    as [Hdup|Hnew]; cbn [fst snd].
  { rewrite Hid. split.
    - split; [discriminate|]. intros (_ & a & [= <-] & Hnone & _).
      rewrite Hnone in Hdup. by destruct Hdup.
    - split; [done|]. split; [done|]. discriminate. }
  assert (Hnone : EmergencyAction.signatures action !! signer = None).
  { destruct (EmergencyAction.signatures action !! signer) eqn:E; [|done].
    by destruct Hnew. }
  destruct (EmergencyAction.executed action) eqn:Hex; cbn [fst snd].
  { rewrite Hid. split.
    - split; [discriminate|]. intros (_ & a & [= <-] & _ & Hf). congruence.
    - split; [done|]. split; [done|]. discriminate. }
  split; [|split; [|split]].
  - split; [|done]. intros _. split; [done|]. by exists action.
  - done.
  - discriminate.
  - intros a [= <-] _. eexists. simpl. rewrite lookup_insert_eq.
    split; [reflexivity|]. simpl. split; [by apply map_size_insert_None|].
    rewrite lookup_insert_eq. by eexists.
Qed.

Lemma sign_emergency_action_outcome_witness :
  ("mallory" ∉ TreasuryConfig.emergency_signers
                 (Treasury.config Scenario.emergency_signed))
  /\ Treasury.sign_emergency_action 1 "act" "mallory" "sig" (Some 1)
       Scenario.emergency_signed
     = (Raised (PermissionError "is not an emergency signer"),
        Scenario.emergency_signed).
Proof.
  assert (Hout : "mallory" ∉ TreasuryConfig.emergency_signers
                               (Treasury.config Scenario.emergency_signed)).
  { apply (bool_decide_unpack _). vm_compute. exact I. }
  split; [exact Hout|].
  destruct (sign_emergency_action_outcome 1 "act" "mallory" "sig" (Some 1)
              Scenario.emergency_signed) as (_ & Hdenied & _).
  exact (Hdenied Hout).
Defined.

(** X16. A single emergency signer unfreezes the treasury, whatever the
    emergency threshold: [unfreeze_treasury] returns exactly when the
    caller is an emergency signer and the treasury is frozen.  It clears
    [frozen] and nothing else: [last_emergency_at] (so the cooldown), the
    emergency actions, the proposals and the balances stay as they are. *)
Theorem unfreeze_by_one_signer (now : time) (signer reason : string)
    (current_time : option time) (self : Treasury.t) :
  let r := Treasury.unfreeze_treasury now signer reason current_time self in
  (r.1 = Returned tt <->
   signer ∈ TreasuryConfig.emergency_signers (Treasury.config self)
   /\ Treasury.frozen self = true)
  /\ (forall e, r.1 = Raised e -> r.2 = self)
  /\ (r.1 = Returned tt ->
      Treasury.frozen r.2 = false
      /\ Treasury.config r.2 = Treasury.config self
      /\ Treasury.emergency_module r.2 = Treasury.emergency_module self
      /\ Treasury.proposals r.2 = Treasury.proposals self
      /\ Treasury.balances r.2 = Treasury.balances self
      /\ Treasury.spending_records r.2 = Treasury.spending_records self).
Proof.
  unfold Treasury.unfreeze_treasury.
  destruct (decide (signer ∉ _)) as [Hout|Hin]; simpl.
  { split; [|split]; try done. split; [done|]. by intros [Hin _]. }
  apply dec_stable in Hin.
  destruct (Treasury.frozen self) eqn:Hf; simpl.
  2: { split; [|split]; try done. split; [done|]. by intros [_ ?]. }
  split; [|split]; try done.
Qed.

Lemma unfreeze_by_one_signer_witness :
  "e3" ∈ TreasuryConfig.emergency_signers (Treasury.config Scenario.frozen)
  /\ Treasury.frozen Scenario.frozen = true
  /\ 2 <= TreasuryConfig.emergency_threshold (Treasury.config Scenario.frozen)
  /\ Treasury.frozen
       (Treasury.unfreeze_treasury 20 "e3" "resolved" (Some 20) Scenario.frozen).2
     = false.
Proof.
  assert (He : "e3" ∈ TreasuryConfig.emergency_signers
                        (Treasury.config Scenario.frozen)).
  { apply (bool_decide_unpack _). vm_compute. exact I. }
  assert (Hf : Treasury.frozen Scenario.frozen = true) by (vm_compute; reflexivity).
  split; [exact He|]. split; [exact Hf|]. split; [vm_compute; discriminate|].
  destruct (unfreeze_by_one_signer 20 "e3" "resolved" (Some 20) Scenario.frozen)
    as (Hiff & _ & Heff).
  exact (proj1 (Heff (proj2 Hiff (conj He Hf)))).
Defined.

(** ** Creating proposals *)

(** X17. [create_proposal] checks, in this order, that the creator is a
    signer ([PermissionError]), that the treasury is not frozen, that the
    list of transactions is not empty and that it has at most 50 entries
    (both [ValueError]); each of these failures changes nothing.  A call
    that returns gives back the generated identifier and files under it a
    [TIME_LOCKED] proposal without signatures, carrying the creator, the
    transactions, the category and the time of the call; balances and
    spending records are untouched.  With no policies installed every call
    that passes the four checks returns, with no time lock. *)
Theorem create_proposal_outcome {BI : Builtins} (now : time) (uuid creator : string)
    (txs : list Transaction.t) (category : Category) (description : string)
    (current_time : option time) (self : Treasury.t) :
  let signers := TreasuryConfig.signers (Treasury.config self) in
  let r := Treasury.create_proposal now uuid creator txs category description
             current_time self in
  (creator ∉ signers ->
   r = (Raised (PermissionError "is not an authorized signer"), self))
  /\ (creator ∈ signers -> Treasury.frozen self = false -> txs = [] ->
      r = (Raised (ValueError "Proposal must contain at least one transaction"),
           self))
  /\ (creator ∈ signers -> Treasury.frozen self = false ->
      (50 < length txs)%nat ->
      r = (Raised (ValueError "Maximum 50 transactions per proposal"), self))
  /\ (forall id, r.1 = Returned id ->
      id = uuid
      /\ creator ∈ signers
      /\ Treasury.frozen self = false
      /\ (1 <= length txs <= 50)%nat
      /\ Treasury.balances r.2 = Treasury.balances self
      /\ Treasury.spending_records r.2 = Treasury.spending_records self
      /\ exists p,
           Treasury.proposals r.2 = <[uuid := p]> (Treasury.proposals self)
           /\ Proposal.status p = TIME_LOCKED
           /\ Proposal.signatures p = ∅
           /\ Proposal.creator p = creator
           /\ Proposal.transactions p = txs
           /\ Proposal.category p = category
           /\ Proposal.created_at p = default now current_time)
  /\ (PolicyManager.policies (Treasury.policy_manager self) = [] ->
      creator ∈ signers -> Treasury.frozen self = false ->
      (1 <= length txs <= 50)%nat ->
      r.1 = Returned uuid
      /\ Treasury.proposals r.2 !! uuid
         = Some (Proposal.mk uuid creator txs category description
                   (Z.max (TreasuryConfig.threshold (Treasury.config self)) 0)
                   (default now current_time) 0 TIME_LOCKED ∅ None None)).
Proof.
  intros signers r. subst signers r. unfold Treasury.create_proposal.
  split; [|split; [|split; [|split]]].
  - intros Hout. by rewrite decide_True.
  - intros Hin Hf ->. rewrite decide_False by (by intros []). by rewrite Hf.
  - intros Hin Hf Hlen. rewrite decide_False by (by intros []). rewrite Hf.
    destruct txs as [|tx txs]; [simpl in Hlen; lia|].
    rewrite bool_decide_eq_false_2 by done.
    by apply Nat.ltb_lt in Hlen as ->.
  - intros id.
    destruct (decide (creator ∉ _)) as [|Hin]; [discriminate|].
    apply dec_stable in Hin.
    destruct (Treasury.frozen self); [discriminate|].
    destruct (bool_decide (txs = [])) eqn:Hnil; [discriminate|].
    destruct (50 <? length txs)%nat eqn:Hlen; [discriminate|].
    destruct (Treasury.validate_new _ _ _ _ _) as [[[]|e] pm']; [|discriminate].
    destruct (PolicyManager.get_required_time_lock _ _ _) as [d|e]; [|discriminate].
    simpl. intros [= <-]. apply bool_decide_eq_false in Hnil.
    apply Nat.ltb_ge in Hlen.
    split; [done|]. split; [done|]. split; [done|].
    split; [destruct txs; [done|simpl in *; lia]|].
    split; [done|]. split; [done|]. eexists. split; [reflexivity|]. done.
  - intros Hnone Hin Hf Hlen. rewrite decide_False by (by intros []). rewrite Hf.
    destruct txs as [|tx txs]; [simpl in Hlen; lia|].
    rewrite bool_decide_eq_false_2 by done.
    destruct (50 <? length (tx :: txs))%nat eqn:Hl;
      [apply Nat.ltb_lt in Hl; lia|].
    assert (Hval : forall l pm,
               PolicyManager.policies pm = [] ->
               Treasury.validate_new now l category (default now current_time) pm
               = (Returned tt, pm)).
    { induction l as [|x l IH]; intros pm Hpm; simpl; [done|].
      unfold PolicyManager.validate_transaction. rewrite Hpm. simpl.
      rewrite IH by done. by destruct pm; simpl in *; subst. }
    rewrite Hval by done.
    assert (Hlock : PolicyManager.get_required_time_lock (tx :: txs) category
                      (Treasury.policy_manager self) = Returned 0).
    { unfold PolicyManager.get_required_time_lock.
      rewrite time_lock_loop_none; [done|]. rewrite Hnone. constructor. }
    rewrite Hlock.
    assert (Hthr : PolicyManager.get_required_threshold (tx :: txs)
                     (Treasury.policy_manager self) = 0).
    { unfold PolicyManager.get_required_threshold. rewrite Hnone.
      assert (Hfold : forall (b : bool) l c0,
                 fold_left
                   (fun (context : Context.t) (transaction : Transaction.t) =>
                      if b
                      then PolicyManager.threshold_values transaction [] context
                      else context) l c0 = c0).
      { intros b l. induction l as [|x l IH]; intros c0; simpl; [done|].
        destruct b; apply IH. }
      by rewrite Hfold. }
    rewrite Hthr. simpl. split; [done|]. by rewrite lookup_insert_eq.
Qed.

Lemma create_proposal_outcome_witness :
  ("mallory" ∉ TreasuryConfig.signers (Treasury.config Scenario.frozen))
  /\ Treasury.create_proposal 1 "p9" "mallory"
       [Scenario.transfer "tx1" "r" (Float.of_Z 1)]
       OPERATIONS "pay" (Some 1) Scenario.frozen
     = (Raised (PermissionError "is not an authorized signer"), Scenario.frozen).
Proof.
  assert (Hout : "mallory" ∉ TreasuryConfig.signers (Treasury.config Scenario.frozen)).
  { apply (bool_decide_unpack _). vm_compute. exact I. }
  split; [exact Hout|].
  destruct (create_proposal_outcome 1 "p9" "mallory"
              [Scenario.transfer "tx1" "r" (Float.of_Z 1)] OPERATIONS "pay" (Some 1)
              Scenario.frozen) as (Hdenied & _).
  exact (Hdenied Hout).
Defined.

(** ** The policy manager *)

Lemma get_policy_dict_set (k : string) (v : Policy) (d : list (string * Policy))
    (k' : string) :
  snd <$> List.find (fun kv => bool_decide (kv.1 = k'))
            (PolicyManager.dict_set k v d)
  = if decide (k = k') then Some v
    else snd <$> List.find (fun kv => bool_decide (kv.1 = k')) d.
Proof.
  induction d as [|[k0 v0] d IH]; simpl.
  - destruct (decide (k = k')) as [->|Hne].
    + by rewrite bool_decide_eq_true_2.
    + by rewrite bool_decide_eq_false_2.
  - destruct (decide (k0 = k)) as [->|Hne0]; simpl.
    + destruct (decide (k = k')) as [->|Hne].
      * by rewrite bool_decide_eq_true_2.
      * by rewrite !bool_decide_eq_false_2.
    + destruct (decide (k0 = k')) as [->|Hne1].
      * rewrite bool_decide_eq_true_2 by done. simpl.
        by rewrite decide_False by congruence.
      * rewrite bool_decide_eq_false_2 by done. exact IH.
Qed.

Lemma dict_set_keys (k : string) (v : Policy) (d : list (string * Policy)) :
  map fst (PolicyManager.dict_set k v d)
  = if decide (k ∈ map fst d) then map fst d else map fst d ++ [k].
Proof.
  induction d as [|[k0 v0] d IH]; simpl.
  - done.
  - destruct (decide (k0 = k)) as [->|Hne]; simpl.
    + rewrite decide_True; [done|]. apply list_elem_of_here.
    + rewrite IH. destruct (decide (k ∈ map fst d)) as [Hin|Hout].
      * rewrite decide_True; [done|]. by apply list_elem_of_further.
      * rewrite decide_False; [done|].
        intros Hin. apply elem_of_cons in Hin as [->|Hin]; done.
Qed.

Lemma find_key_None (d : list (string * Policy)) (k : string) :
  snd <$> List.find (fun kv => bool_decide (kv.1 = k)) d = None <-> k ∉ map fst d.
Proof.
  induction d as [|[k0 v0] d IH]; simpl.
  - split; [intros _; apply not_elem_of_nil|done].
  - destruct (decide (k0 = k)) as [->|Hne].
    + rewrite bool_decide_eq_true_2 by done. simpl. split; [done|].
      intros H. destruct H. apply list_elem_of_here.
    + rewrite bool_decide_eq_false_2 by done. rewrite IH.
      rewrite not_elem_of_cons. split; [intros H; split; [congruence|done]|].
      by intros [_ H].
Qed.

(** X18. The policy manager is a dictionary keyed by [policy_id], in
    insertion order.  [add_policy] makes the policy the one found under
    its id and touches no other id; it replaces an entry of the same id in
    place and appends a new id at the end, so ids stay unique.
    [remove_policy] makes the id unknown and touches no other id. *)
Theorem policy_manager_dictionary (pm : PolicyManager.t) :
  (forall p,
     PolicyManager.get_policy (BasePolicy.policy_id p)
       (PolicyManager.add_policy p pm) = Some p)
  /\ (forall p id,
        id <> BasePolicy.policy_id p ->
        PolicyManager.get_policy id (PolicyManager.add_policy p pm)
        = PolicyManager.get_policy id pm)
  /\ (forall p,
        PolicyManager.list_policies (PolicyManager.add_policy p pm)
        = if decide (is_Some (PolicyManager.get_policy (BasePolicy.policy_id p) pm))
          then PolicyManager.list_policies pm
          else PolicyManager.list_policies pm ++ [BasePolicy.policy_id p])
  /\ (forall p,
        NoDup (PolicyManager.list_policies pm) ->
        NoDup (PolicyManager.list_policies (PolicyManager.add_policy p pm)))
  /\ (forall id,
        PolicyManager.get_policy id (PolicyManager.remove_policy id pm) = None)
  /\ (forall id id',
        id' <> id ->
        PolicyManager.get_policy id' (PolicyManager.remove_policy id pm)
        = PolicyManager.get_policy id' pm).
Proof.
  destruct pm as [d].
  unfold PolicyManager.get_policy, PolicyManager.add_policy,
    PolicyManager.remove_policy, PolicyManager.list_policies. simpl.
  split; [|split; [|split; [|split; [|split]]]].
  - intros p. rewrite get_policy_dict_set. by rewrite decide_True.
  - intros p id Hne. rewrite get_policy_dict_set. by rewrite decide_False.
  - intros p. rewrite dict_set_keys.
    destruct (decide (BasePolicy.policy_id p ∈ map fst d)) as [Hin|Hout].
    + rewrite decide_True; [done|].
      destruct (snd <$> List.find _ d) eqn:E; [by eexists|].
      by apply find_key_None in E.
    + rewrite decide_False; [done|]. intros [v Hv].
      apply find_key_None in Hout. congruence.
  - intros p Hnd. rewrite dict_set_keys.
    destruct (decide (BasePolicy.policy_id p ∈ map fst d)) as [Hin|Hout]; [done|].
    apply NoDup_app. split; [done|]. split; [|apply NoDup_singleton].
    intros x Hx Hx'. apply list_elem_of_singleton in Hx' as ->. done.
  - intros id. apply find_key_None.
    induction d as [|[k0 v0] d IH]; simpl; [apply not_elem_of_nil|].
    rewrite filter_cons. simpl. destruct (decide (k0 ≠ id)) as [Hne|Heq]; simpl.
    + rewrite not_elem_of_cons. split; [congruence|exact IH].
    + exact IH.
  - intros id id' Hne.
    induction d as [|[k0 v0] d IH]; simpl; [done|].
    rewrite filter_cons. simpl. destruct (decide (k0 ≠ id)) as [Hk|Hk]; simpl.
    + destruct (bool_decide (k0 = id')); [done|exact IH].
    + apply dec_stable in Hk. subst k0.
      rewrite bool_decide_eq_false_2 by congruence. exact IH.
Qed.

Lemma policy_manager_dictionary_witness :
  "timelock1" <> BasePolicy.policy_id (Whitelist Scenario.whitelist)
  /\ PolicyManager.get_policy "timelock1"
       (PolicyManager.add_policy (Whitelist Scenario.whitelist)
          (PolicyManager.add_policy (TimeLock Scenario.time_lock) PolicyManager.init))
     = Some (TimeLock Scenario.time_lock).
Proof.
  assert (Hne : "timelock1" <> BasePolicy.policy_id (Whitelist Scenario.whitelist))
    by discriminate.
  split; [exact Hne|].
  destruct (policy_manager_dictionary
              (PolicyManager.add_policy (TimeLock Scenario.time_lock)
                 PolicyManager.init)) as (_ & Hother & _).
  rewrite (Hother (Whitelist Scenario.whitelist) "timelock1" Hne).
  destruct (policy_manager_dictionary PolicyManager.init) as (Hget & _).
  exact (Hget (TimeLock Scenario.time_lock)).
Defined.

Lemma validate_disabled {BI : Builtins}
    (now : time) (tx : Transaction.t) (context : Context.t)
    (p : Policy) :
  policy_enabled p = false ->
  BasePolicy.validate now tx context p = (Returned tt, p, context).
Proof.
  destruct p as [q|q|q|q|q|q]; simpl; intros Hd.
  - unfold SpendingLimitPolicy.validate. by rewrite Hd.
  - unfold WhitelistPolicy.validate. by rewrite Hd.
  - unfold CategoryPolicy.validate. by rewrite Hd.
  - unfold TimeLockPolicy.validate. by rewrite Hd.
  - unfold AmountThresholdPolicy.validate. by rewrite Hd.
  - unfold ApprovalPolicy.validate. by rewrite Hd.
Qed.

(** X19. Disabled policies are skipped: a manager whose policies are all
    disabled validates every transaction, leaving the policies and the
    context as they are, and asks for no time lock and no threshold. *)
Theorem disabled_policies_skipped {BI : Builtins} (now : time) (tx : Transaction.t)
    (context : Context.t) (txs : list Transaction.t) (category : Category)
    (pm : PolicyManager.t) :
  Forall (fun kv => policy_enabled kv.2 = false) (PolicyManager.policies pm) ->
  PolicyManager.validate_transaction now tx context pm = (Returned tt, pm, context)
  /\ PolicyManager.get_required_time_lock txs category pm = Returned 0
  /\ PolicyManager.get_required_threshold txs pm = 0.
Proof.
  destruct pm as [ps]. simpl. intros Hall. split; [|split].
  - unfold PolicyManager.validate_transaction. simpl.
    assert (Hv : PolicyManager.validate_values now tx ps context
                 = (Returned tt, ps, context)).
    { induction Hall as [|[k p] ps Hp _ IH]; simpl; [done|].
      simpl in Hp. rewrite validate_disabled by done. by rewrite IH. }
    by rewrite Hv.
  - unfold PolicyManager.get_required_time_lock. simpl.
    assert (Hv : forall t c, PolicyManager.time_lock_values t ps c = Returned c).
    { intros t. induction Hall as [|[k p] ps Hp _ IH]; intros c; simpl; [done|].
      destruct p as [| | |q| |]; try apply IH. simpl in Hp.
      unfold TimeLockPolicy.validate. rewrite Hp. simpl. apply IH. }
    assert (Hl : forall l c, PolicyManager.time_lock_loop l ps c = Returned c).
    { induction l as [|t l IH]; intros c; simpl; [done|]. by rewrite Hv. }
    by rewrite Hl.
  - unfold PolicyManager.get_required_threshold. simpl.
    assert (Hfold : forall (b : bool) l c0,
               fold_left
                 (fun (context : Context.t) (transaction : Transaction.t) =>
                    if b
                    then PolicyManager.threshold_values transaction ps context
                    else context) l c0 = c0).
    { intros b l. induction l as [|x l IH]; intros c0; simpl; [done|].
      rewrite threshold_values_idle; [destruct b; apply IH|].
      eapply Forall_impl; [exact Hall|]. intros [k p] Hp. simpl in *.
      by destruct p. }
    by rewrite Hfold.
Qed.

Lemma disabled_policies_skipped_witness :
  Forall (fun kv : string * Policy => policy_enabled kv.2 = false)
    [("limit1", SpendingLimit
                  (SpendingLimitPolicy.mk "limit1" false DAILY ∅ None
                     (Some (Float.of_Z 1000)) []))]
  /\ (PolicyManager.validate_transaction 0 (Scenario.transfer "tx1" "r" (Float.of_Z 1500))
        (Context.mk (Some OPERATIONS) (Some 0) None None None)
        (PolicyManager.mk
           [("limit1", SpendingLimit
                         (SpendingLimitPolicy.mk "limit1" false DAILY ∅ None
                            (Some (Float.of_Z 1000)) []))])).1.1
     = Returned tt.
Proof.
  assert (Hall : Forall (fun kv : string * Policy => policy_enabled kv.2 = false)
                   [("limit1", SpendingLimit
                                 (SpendingLimitPolicy.mk "limit1" false DAILY ∅ None
                                    (Some (Float.of_Z 1000)) []))])
    by (repeat constructor).
  split; [exact Hall|].
  destruct (disabled_policies_skipped 0 (Scenario.transfer "tx1" "r" (Float.of_Z 1500))
              (Context.mk (Some OPERATIONS) (Some 0) None None None) [] OPERATIONS
              (PolicyManager.mk
                 [("limit1", SpendingLimit
                               (SpendingLimitPolicy.mk "limit1" false DAILY ∅ None
                                  (Some (Float.of_Z 1000)) []))]) Hall) as (Hv & _).
  by rewrite Hv.
Defined.

(** ** What the treasury does to its policies *)

Lemma policy_kept_refl (p : Policy) : policy_kept p p.
Proof. destruct p; simpl; done. Qed.

Lemma policy_kept_trans (p q r : Policy) :
  policy_kept p q -> policy_kept q r -> policy_kept p r.
Proof.
  destruct p, q, r; simpl; try congruence; try done.
  intros (? & ? & ? & ? & ?) (? & ? & ? & ? & ?).
  repeat split; try congruence. by etrans.
Qed.

Lemma policies_kept_refl (ps : list (string * Policy)) : policies_kept ps ps.
Proof.
  induction ps as [|kv ps IH]; constructor; [|exact IH].
  split; [done|apply policy_kept_refl].
Qed.

Lemma policies_kept_trans (ps qs rs : list (string * Policy)) :
  policies_kept ps qs -> policies_kept qs rs -> policies_kept ps rs.
Proof.
  intros H. revert rs. induction H as [|kv kv' ps qs [Hk Hp] _ IH]; intros rs Hr.
  - inversion Hr. constructor.
  - inversion Hr as [|kv'' ? rs' ? [Hk' Hp'] Hrest]; subst.
    constructor; [|by apply IH].
    split; [congruence|]. by eapply policy_kept_trans.
Qed.

Lemma validate_policy_kept {BI : Builtins}
    (now : time) (tx : Transaction.t) (context : Context.t)
    (p : Policy) :
  policy_kept p (BasePolicy.validate now tx context p).1.2.
Proof.
  destruct p as [q|q|q|q|q|q]; simpl; try done.
  - unfold WhitelistPolicy.validate.
    destruct (negb (WhitelistPolicy.enabled q));
      [apply (policy_kept_refl (Whitelist q))|].
    unfold WhitelistPolicy.is_recipient_approved.
    destruct (decide _); [apply (policy_kept_refl (Whitelist q))|].
    destruct (decide _); [apply (policy_kept_refl (Whitelist q))|].
    destruct (WhitelistPolicy.temporary_entries q !! _) as [e|];
      [|apply (policy_kept_refl (Whitelist q))].
    destruct (_ <? _); simpl; [apply (policy_kept_refl (Whitelist q))|].
    repeat split; try done. apply delete_subseteq.
  - by destruct (TimeLockPolicy.validate tx context q).
Qed.

Lemma validate_values_kept {BI : Builtins} (now : time) (tx : Transaction.t)
    (ps : list (string * Policy)) (context : Context.t) :
  policies_kept ps (PolicyManager.validate_values now tx ps context).1.2.
Proof.
  revert context. induction ps as [|[k p] ps IH]; intros context; simpl.
  { constructor. }
  pose proof (validate_policy_kept now tx context p) as Hp.
  destruct (BasePolicy.validate now tx context p) as [[[[]|e] p'] context'];
    simpl in Hp.
  - specialize (IH context').
    destruct (PolicyManager.validate_values now tx ps context') as [[o rest'] c''].
    simpl in *. by constructor.
  - simpl. constructor; [done|apply policies_kept_refl].
Qed.

Lemma validate_transaction_kept {BI : Builtins} (now : time) (tx : Transaction.t)
    (context : Context.t) (pm : PolicyManager.t) :
  policies_kept (PolicyManager.policies pm)
    (PolicyManager.policies
       (PolicyManager.validate_transaction now tx context pm).1.2).
Proof.
  unfold PolicyManager.validate_transaction.
  pose proof (validate_values_kept now tx (PolicyManager.policies pm) context) as H.
  by destruct (PolicyManager.validate_values _ _ _ _) as [[o ps'] c'].
Qed.

Lemma validate_new_kept {BI : Builtins} (now : time) (txs : list Transaction.t)
    (category : Category) (current_time : time) (pm : PolicyManager.t) :
  policies_kept (PolicyManager.policies pm)
    (PolicyManager.policies
       (Treasury.validate_new now txs category current_time pm).2).
Proof.
  revert pm. induction txs as [|tx txs IH]; intros pm; simpl.
  { apply policies_kept_refl. }
  match goal with |- context [PolicyManager.validate_transaction ?n ?t ?c ?m] =>
    pose proof (validate_transaction_kept n t c m) as H;
    destruct (PolicyManager.validate_transaction n t c m) as [[o pm'] c'] end.
  simpl in H. destruct o as [[]|e].
  - eapply policies_kept_trans; [exact H|apply IH].
  - by destruct e.
Qed.

Lemma execute_transactions_kept {BI : Builtins} (now : time) (proposal_id : string)
    (proposal : Proposal.t) (current_time : time) (txs : list Transaction.t)
    (self : Treasury.t) :
  policies_kept (PolicyManager.policies (Treasury.policy_manager self))
    (PolicyManager.policies
       (Treasury.policy_manager
          (Treasury.execute_transactions now proposal_id proposal current_time
             txs self).2)).
Proof.
  revert self. induction txs as [|tx txs IH]; intros self; simpl.
  { apply policies_kept_refl. }
  match goal with |- context [PolicyManager.validate_transaction ?n ?t ?c ?m] =>
    pose proof (validate_transaction_kept n t c m) as H;
    destruct (PolicyManager.validate_transaction n t c m) as [[o pm'] c'] end.
  simpl in H. destruct o as [[]|e]; simpl; [|exact H].
  destruct (_ !! _) as [balance|]; simpl; [|exact H].
  destruct (TreasuryBalance.withdraw _ _ _) as [[[|]|e] balance']; simpl;
    try exact H.
  eapply policies_kept_trans; [exact H|].
  match goal with |- context [Treasury.execute_transactions _ _ _ _ txs ?s] =>
    exact (IH s) end.
Qed.

(** X20. No operation of the treasury itself changes a policy, except that
    validation drops expired temporary entries from a whitelist: after any
    call other than a reconfiguration of the policies, the manager holds the
    same policies under the same ids in the same order, whitelists apart.
    In particular the treasury never adds to the [spending_history] of a
    [SpendingLimitPolicy]. *)
Theorem treasury_keeps_policies {BI : Builtins}
    (now : time) (c : call) (self : Treasury.t) :
  (forall pm, c <> ConfigurePolicies pm) ->
  policies_kept (PolicyManager.policies (Treasury.policy_manager self))
    (PolicyManager.policies (Treasury.policy_manager (run now c self)))
  /\ forall i k q,
       PolicyManager.policies (Treasury.policy_manager self) !! i
       = Some (k, SpendingLimit q) ->
       PolicyManager.policies (Treasury.policy_manager (run now c self)) !! i
       = Some (k, SpendingLimit q).
Proof.
  intros Hc.
  assert (Hkept : policies_kept
                    (PolicyManager.policies (Treasury.policy_manager self))
                    (PolicyManager.policies
                       (Treasury.policy_manager (run now c self)))).
  { destruct c; simpl.
    - unfold Treasury.deposit, TreasuryBalance.deposit.
      repeat case_match; simplify_eq; apply policies_kept_refl.
    - unfold Treasury.add_signer. repeat case_match; apply policies_kept_refl.
    - unfold Treasury.remove_signer. repeat case_match; apply policies_kept_refl.
    - unfold Treasury.create_proposal.
      destruct (decide _); [apply policies_kept_refl|].
      destruct (Treasury.frozen self); [apply policies_kept_refl|].
      destruct (bool_decide _); [apply policies_kept_refl|].
      destruct (_ <? _)%nat; [apply policies_kept_refl|].
      pose proof (validate_new_kept now transactions category
                    (default now current_time) (Treasury.policy_manager self)) as H.
      destruct (Treasury.validate_new _ _ _ _ _) as [[[]|e] pm']; simpl in *;
        [|exact H].
      destruct (PolicyManager.get_required_time_lock _ _ _); exact H.
    - unfold Treasury.sign_proposal. repeat case_match; apply policies_kept_refl.
    - unfold Treasury.execute_proposal.
      destruct (Treasury.proposals self !! proposal_id) as [p|];
        [|apply policies_kept_refl].
      destruct (Proposal.can_execute p (default now current_time)) as [[|]|e];
        [| |apply policies_kept_refl].
      2: { destruct (Proposal.time_locked_at p); apply policies_kept_refl. }
      unfold Treasury.execute_checked.
      pose proof (execute_transactions_kept now proposal_id p
                    (default now current_time) (Proposal.transactions p) self) as H.
      destruct (Treasury.execute_transactions _ _ _ _ _ _) as [[[]|e] self1];
        exact H.
    - unfold Treasury.cancel_proposal. repeat case_match; apply policies_kept_refl.
    - unfold Treasury.trigger_emergency_freeze,
        EmergencyModule.create_emergency_action.
      repeat case_match; simplify_eq; apply policies_kept_refl.
    - unfold Treasury.sign_emergency_action, EmergencyModule.sign_emergency_action.
      repeat case_match; simplify_eq; apply policies_kept_refl.
    - unfold Treasury.execute_emergency_action.
      repeat case_match; apply policies_kept_refl.
    - unfold Treasury.unfreeze_treasury. repeat case_match; apply policies_kept_refl.
    - by destruct (Hc pm).
    - unfold module_create_emergency_action. case_match. apply policies_kept_refl.
    - unfold module_sign_emergency_action. case_match. apply policies_kept_refl.
    - apply policies_kept_refl.
    - unfold module_remove_emergency_signer. case_match. apply policies_kept_refl.
    - unfold balance_deposit. repeat case_match; apply policies_kept_refl.
    - unfold balance_withdraw. repeat case_match; apply policies_kept_refl. }
  split; [exact Hkept|].
  intros i k q Hi.
  destruct (Forall2_lookup_l _ _ _ _ _ Hkept Hi) as ([k' p'] & Hi' & Hk & Hp).
  simpl in *. subst k'. destruct p'; simpl in Hp; try discriminate.
  by injection Hp as ->.
Qed.

Lemma treasury_keeps_policies_witness :
  (forall pm, ExecuteProposal "p1" "a" (Some 3601) <> ConfigurePolicies pm)
  /\ policies_kept
       (PolicyManager.policies (Treasury.policy_manager Scenario.escalated))
       (PolicyManager.policies
          (Treasury.policy_manager
             (run 3601 (ExecuteProposal "p1" "a" (Some 3601)) Scenario.escalated))).
Proof.
  assert (Hc : forall pm,
             ExecuteProposal "p1" "a" (Some 3601) <> ConfigurePolicies pm)
    by discriminate.
  split; [exact Hc|].
  exact (proj1 (treasury_keeps_policies 3601 (ExecuteProposal "p1" "a" (Some 3601))
                  Scenario.escalated Hc)).
Defined.

(** ** Approval policies *)

Lemma validate_context_inputs {BI : Builtins} (now : time) (tx : Transaction.t)
    (context : Context.t) (p : Policy) :
  let context' := (BasePolicy.validate now tx context p).2 in
  Context.category context' = Context.category context
  /\ Context.signatures context' = Context.signatures context
  /\ Context.current_time context' = Context.current_time context.
Proof.
  destruct p as [q|q|q|q|q|q]; simpl; try done.
  - by destruct (WhitelistPolicy.validate now tx context q).
  - unfold TimeLockPolicy.validate. repeat case_match; simplify_eq; done.
  - unfold AmountThresholdPolicy.validate. by case_match.
Qed.

Lemma approval_validate_inputs (tx tx' : Transaction.t) (context context' : Context.t)
    (q : ApprovalPolicy.t) :
  Context.category context' = Context.category context ->
  Context.signatures context' = Context.signatures context ->
  ApprovalPolicy.validate tx' context' q = ApprovalPolicy.validate tx context q.
Proof. intros Hc Hs. unfold ApprovalPolicy.validate. by rewrite Hc, Hs. Qed.

(** When the loop over the policies returns, every approval policy it holds
    has accepted the category and signatures of the context. *)
Lemma validate_values_approval {BI : Builtins} (now : time) (tx : Transaction.t)
    (ps : list (string * Policy)) (context : Context.t) (k : string)
    (q : ApprovalPolicy.t) :
  (k, Approval q) ∈ ps ->
  (PolicyManager.validate_values now tx ps context).1.1 = Returned tt ->
  ApprovalPolicy.validate tx context q = Returned tt.
Proof.
  revert context. induction ps as [|[k0 p0] ps IH]; intros context Hin.
  { by apply elem_of_nil in Hin. }
  simpl.
  pose proof (validate_context_inputs now tx context p0) as (Hc & Hs & _).
  destruct (BasePolicy.validate now tx context p0) as [[o p0'] context'] eqn:Hv.
  simpl in Hc, Hs. destruct o as [[]|e]; [|discriminate].
  apply elem_of_cons in Hin as [[= <- <-]|Hin].
  - intros _. simpl in Hv. by injection Hv as -> _ _.
  - specialize (IH context' Hin).
    destruct (PolicyManager.validate_values now tx ps context') as [[o rest'] c''].
    simpl in *. intros Ho. rewrite <- (IH Ho).
    symmetry. by apply approval_validate_inputs.
Qed.

Lemma approval_rejects_unsigned (tx : Transaction.t) (context : Context.t)
    (q : ApprovalPolicy.t) (category : Category) (required : gset string) :
  ApprovalPolicy.enabled q = true ->
  Context.category context = Some category ->
  Context.signatures context = Some ∅ ->
  ApprovalPolicy.required_signers_by_category q !! category = Some required ->
  required <> ∅ ->
  ApprovalPolicy.validate tx context q <> Returned tt.
Proof.
  intros Hen Hc Hs Hreq Hne. unfold ApprovalPolicy.validate.
  rewrite Hen, Hc, Hs. simpl. rewrite Hreq.
  rewrite bool_decide_eq_false_2; [done|].
  rewrite dom_empty_L. intros Hsub. apply Hne.
  apply set_eq. intros x. split; [apply Hsub|]. intros Hx.
  by apply not_elem_of_empty in Hx.
Qed.

(** X21. A category with required signers cannot get a proposal: while the
    manager holds an enabled [ApprovalPolicy] with a non-empty set of
    required signers for the category, [create_proposal] for that category
    raises for every creator and list of transactions, and no proposal is
    stored. (Creation validates against an empty set of signatures.) *)
Theorem required_signers_block_creation {BI : Builtins}
    (now : time) (uuid creator : string)
    (txs : list Transaction.t) (category : Category) (description : string)
    (current_time : option time) (self : Treasury.t) (k : string)
    (q : ApprovalPolicy.t) (required : gset string) :
  (k, Approval q) ∈ PolicyManager.policies (Treasury.policy_manager self) ->
  ApprovalPolicy.enabled q = true ->
  ApprovalPolicy.required_signers_by_category q !! category = Some required ->
  required <> ∅ ->
  let r := Treasury.create_proposal now uuid creator txs category description
             current_time self in
  (exists e, r.1 = Raised e)
  /\ Treasury.proposals r.2 = Treasury.proposals self.
Proof.
  intros Hin Hen Hreq Hne r. subst r. unfold Treasury.create_proposal.
  destruct (decide _); [by split; [eexists|]|].
  destruct (Treasury.frozen self); [by split; [eexists|]|].
  destruct (bool_decide (txs = [])) eqn:Hnil; [by split; [eexists|]|].
  destruct (_ <? _)%nat; [by split; [eexists|]|].
  apply bool_decide_eq_false in Hnil.
  destruct txs as [|tx txs]; [done|]. simpl.
  unfold PolicyManager.validate_transaction.
  pose proof (validate_values_approval now tx
                (PolicyManager.policies (Treasury.policy_manager self))
                (Context.mk (Some category) (Some (default now current_time))
                   (Some ∅) None None) k q Hin) as Happ.
  destruct (PolicyManager.validate_values _ _ _ _) as [[o ps'] c'].
  destruct o as [[]|e].
  - exfalso. simpl in Happ.
    by eapply (approval_rejects_unsigned tx _ q category required); eauto.
  - destruct e; simpl; by split; [eexists|].
Qed.

(** X22. A proposal that an enabled [ApprovalPolicy] of the manager rejects,
    because a veto signer has signed it or a required signer of its
    category has not, is never executed: [execute_proposal] raises, debits
    nothing and records nothing. *)
Theorem approval_blocks_execution {BI : Builtins}
    (now : time) (proposal_id executor : string)
    (current_time : option time) (self : Treasury.t) (p : Proposal.t)
    (k : string) (q : ApprovalPolicy.t) :
  Treasury.proposals self !! proposal_id = Some p ->
  Proposal.transactions p <> [] ->
  (k, Approval q) ∈ PolicyManager.policies (Treasury.policy_manager self) ->
  ApprovalPolicy.enabled q = true ->
  (exists v, v ∈ ApprovalPolicy.veto_signers q
             /\ is_Some (Proposal.signatures p !! v))
  \/ (exists required,
        ApprovalPolicy.required_signers_by_category q !! Proposal.category p
        = Some required
        /\ ~ required ⊆ dom (Proposal.signatures p)) ->
  let r := Treasury.execute_proposal now proposal_id executor current_time self in
  (exists e, r.1 = Raised e)
  /\ Treasury.balances r.2 = Treasury.balances self
  /\ Treasury.spending_records r.2 = Treasury.spending_records self.
Proof.
  intros Hp Htxs Hin Hen Hrej r. subst r.
  destruct (execute_proposal_cases now proposal_id executor current_time self p Hp)
    as [[_ Hr]|[[_ Hr]|[msg Hr]]]; rewrite Hr; try (by split; [eexists|]).
  unfold Treasury.execute_checked.
  destruct (Proposal.transactions p) as [|tx txs]; [done|]. simpl.
  unfold PolicyManager.validate_transaction.
  pose proof (validate_values_approval now tx
                (PolicyManager.policies (Treasury.policy_manager self))
                (Context.mk (Some (Proposal.category p))
                   (Some (default now current_time))
                   (Some (Proposal.signatures p)) None None) k q Hin) as Happ.
  destruct (PolicyManager.validate_values _ _ _ _) as [[o ps'] c'].
  destruct o as [[]|e]; [|by split; [eexists|]].
  exfalso. specialize (Happ eq_refl). revert Happ.
  unfold ApprovalPolicy.validate. rewrite Hen. simpl.
  destruct Hrej as [(v & Hv & Hsig)|(required & Hreq & Hsub)].
  - case_match; [discriminate|].
    assert (Hex : existsb
                    (fun veto_signer =>
                       bool_decide (is_Some (Proposal.signatures p !! veto_signer)))
                    (elements (ApprovalPolicy.veto_signers q)) = true).
    { apply existsb_exists. exists v. split.
      - by apply list_elem_of_In, elem_of_elements.
      - by apply bool_decide_eq_true_2. }
    by rewrite Hex.
  - rewrite Hreq. by rewrite bool_decide_eq_false_2.
Qed.

Lemma required_signers_block_creation_witness :
  ("approval1", Approval cfo_approval)
    ∈ PolicyManager.policies (Treasury.policy_manager (with_approval cfo_approval))
  /\ ApprovalPolicy.enabled cfo_approval = true
  /\ ApprovalPolicy.required_signers_by_category cfo_approval !! OPERATIONS
     = Some {["cfo"]}
  /\ ({["cfo"]} : gset string) <> ∅
  /\ exists e,
       (Treasury.create_proposal 1 "p2" "a" [Scenario.transfer "tx1" "r" (Float.of_Z 1)]
          OPERATIONS "pay" (Some 1) (with_approval cfo_approval)).1 = Raised e.
Proof.
  assert (Hin : ("approval1", Approval cfo_approval)
                  ∈ PolicyManager.policies
                      (Treasury.policy_manager (with_approval cfo_approval)))
    by apply list_elem_of_here.
  assert (Hreq : ApprovalPolicy.required_signers_by_category cfo_approval
                   !! OPERATIONS = Some {["cfo"]}) by (vm_compute; reflexivity).
  assert (Hne : ({["cfo"]} : gset string) <> ∅) by apply non_empty_singleton_L.
  split; [exact Hin|]. split; [reflexivity|]. split; [exact Hreq|].
  split; [exact Hne|].
  exact (proj1 (required_signers_block_creation 1 "p2" "a"
                  [Scenario.transfer "tx1" "r" (Float.of_Z 1)] OPERATIONS "pay" (Some 1)
                  (with_approval cfo_approval) "approval1" cfo_approval {["cfo"]}
                  Hin eq_refl Hreq Hne)).
Defined.

Lemma approval_blocks_execution_witness :
  Treasury.proposals (with_approval b_veto) !! "p1" = Some Scenario.p1
  /\ Proposal.transactions Scenario.p1 <> []
  /\ ("approval2", Approval b_veto)
       ∈ PolicyManager.policies (Treasury.policy_manager (with_approval b_veto))
  /\ ApprovalPolicy.enabled b_veto = true
  /\ ("b" ∈ ApprovalPolicy.veto_signers b_veto
      /\ is_Some (Proposal.signatures Scenario.p1 !! "b"))
  /\ Treasury.spending_records
       (Treasury.execute_proposal 3601 "p1" "a" (Some 3601) (with_approval b_veto)).2
     = Treasury.spending_records (with_approval b_veto).
Proof.
  assert (Hp : Treasury.proposals (with_approval b_veto) !! "p1" = Some Scenario.p1)
    by (vm_compute; reflexivity).
  assert (Htxs : Proposal.transactions Scenario.p1 <> []) by discriminate.
  assert (Hin : ("approval2", Approval b_veto)
                  ∈ PolicyManager.policies
                      (Treasury.policy_manager (with_approval b_veto)))
    by apply list_elem_of_here.
  assert (Hveto : "b" ∈ ApprovalPolicy.veto_signers b_veto
                  /\ is_Some (Proposal.signatures Scenario.p1 !! "b")).
  { split; apply (bool_decide_unpack _); vm_compute; exact I. }
  split; [exact Hp|]. split; [exact Htxs|]. split; [exact Hin|].
  split; [reflexivity|]. split; [exact Hveto|].
  destruct (approval_blocks_execution 3601 "p1" "a" (Some 3601)
              (with_approval b_veto) Scenario.p1 "approval2" b_veto
              Hp Htxs Hin eq_refl (or_introl (ex_intro _ "b" Hveto)))
    as (_ & _ & Hrec).
  exact Hrec.
Defined.

(** ** The whitelist *)

(** X23. Blacklisting is final and wins over every listing.  After
    [blacklist_recipient] the recipient is neither approved nor temporary;
    an enabled policy rejects every transaction to it at any time, leaving
    the policy as it is; [add_recipient] and [add_temporary_recipient] for
    it raise the [ValueError] and change nothing; and [remove_recipient]
    does not take it off the blacklist.  A recipient added with
    [add_recipient] to a policy that does not blacklist it is accepted at
    any time. *)
Theorem blacklist_is_final (self : WhitelistPolicy.t) (recipient : string) :
  let listed := WhitelistPolicy.blacklist_recipient recipient self in
  (recipient ∉ WhitelistPolicy.approved_recipients listed)
  /\ WhitelistPolicy.temporary_entries listed !! recipient = None
  /\ (forall now tx context,
        WhitelistPolicy.enabled self = true ->
        Transaction.recipient tx = recipient ->
        WhitelistPolicy.validate now tx context listed
        = (Raised (PolicyViolation (WhitelistPolicy.policy_id self)
                     "Recipient is not whitelisted"), listed))
  /\ WhitelistPolicy.add_recipient recipient listed
     = (Raised (ValueError "Recipient is blacklisted"), listed)
  /\ (forall expires_at,
        WhitelistPolicy.add_temporary_recipient recipient expires_at listed
        = (Raised (ValueError "Recipient is blacklisted"), listed))
  /\ (forall other,
        recipient ∈ WhitelistPolicy.blacklisted_recipients
                      (WhitelistPolicy.remove_recipient other listed))
  /\ (forall now tx context,
        WhitelistPolicy.enabled self = true ->
        Transaction.recipient tx = recipient ->
        recipient ∉ WhitelistPolicy.blacklisted_recipients self ->
        let r := WhitelistPolicy.add_recipient recipient self in
        r.1 = Returned tt
        /\ WhitelistPolicy.validate now tx context r.2 = (Returned tt, r.2)).
Proof.
  intros listed.
  assert (Hbl : recipient ∈ WhitelistPolicy.blacklisted_recipients listed).
  { subst listed. simpl. by apply elem_of_union_l, elem_of_singleton. }
  split; [|split; [|split; [|split; [|split; [|split]]]]].
  - subst listed. simpl. rewrite elem_of_difference, elem_of_singleton.
    by intros [_ Hne].
  - subst listed. simpl. apply lookup_delete_eq.
  - intros now tx context Hen Hr.
    unfold WhitelistPolicy.validate, WhitelistPolicy.is_recipient_approved.
    replace (WhitelistPolicy.enabled listed) with true by (by subst listed).
    rewrite Hr. by rewrite decide_True.
  - unfold WhitelistPolicy.add_recipient. by rewrite decide_True.
  - intros e. unfold WhitelistPolicy.add_temporary_recipient.
    by rewrite decide_True.
  - intros other. exact Hbl.
  - intros now tx context Hen Hr Hnot r. subst r.
    unfold WhitelistPolicy.add_recipient. rewrite decide_False by done.
    split; [done|]. simpl.
    unfold WhitelistPolicy.validate, WhitelistPolicy.is_recipient_approved.
    simpl. rewrite Hen, Hr. simpl.
    rewrite decide_False by done.
    rewrite decide_True; [done|]. by apply elem_of_union_l, elem_of_singleton.
Qed.

Lemma blacklist_is_final_witness :
  WhitelistPolicy.enabled Scenario.whitelist = true
  /\ (WhitelistPolicy.validate 0 (Scenario.transfer "tx1" "R" (Float.of_Z 100))
        (Context.mk None (Some 1800) None None None)
        (WhitelistPolicy.blacklist_recipient "R" Scenario.whitelist)).1
     = Raised (PolicyViolation "whitelist1" "Recipient is not whitelisted").
Proof.
  split; [reflexivity|].
  destruct (blacklist_is_final Scenario.whitelist "R") as (_ & _ & Hrej & _).
  by rewrite (Hrej 0 (Scenario.transfer "tx1" "R" (Float.of_Z 100))
                (Context.mk None (Some 1800) None None None) eq_refl eq_refl).
Defined.

(** ** Debits and records *)

Lemma get_balance_insert (c coin_type : string) (b : TreasuryBalance.t)
    (self : Treasury.t) :
  Treasury.get_balance c
    (Treasury.set_balances (<[coin_type := b]> (Treasury.balances self)) self)
  = if decide (coin_type = c) then TreasuryBalance.amount b
    else Treasury.get_balance c self.
Proof.
  unfold Treasury.get_balance. simpl.
  destruct (decide (coin_type = c)) as [->|Hne].
  - by rewrite lookup_insert_eq.
  - by rewrite lookup_insert_ne.
Qed.

(** What the loop takes from the balances is what it records. *)
Lemma execute_transactions_accounts {BI : Builtins} (now : time) (proposal_id : string)
    (proposal : Proposal.t) (current_time : time) (txs : list Transaction.t)
    (self : Treasury.t) :
  let r :=
    Treasury.execute_transactions now proposal_id proposal current_time txs self in
  exists debited rest,
    txs = debited ++ rest
    /\ Treasury.spending_records r.2
       = Treasury.spending_records self
         ++ map (record_of proposal_id proposal current_time) debited
    /\ (r.1 = Returned tt -> rest = [])
    /\ forall c,
         Treasury.get_balance c r.2
         = debited_balance c debited (Treasury.get_balance c self).
Proof.
  revert self. induction txs as [|tx txs IH]; intros self; simpl.
  { exists [], []. simpl. rewrite app_nil_r. repeat split; done. }
  destruct (PolicyManager.validate_transaction _ _ _ _) as [[o pm'] ctx'].
  assert (Hstop : forall (e : exn) (s : Treasury.t),
             Treasury.spending_records s = Treasury.spending_records self ->
             Treasury.balances s = Treasury.balances self ->
             exists debited rest,
               tx :: txs = debited ++ rest
               /\ Treasury.spending_records s
                  = Treasury.spending_records self
                    ++ map (record_of proposal_id proposal current_time) debited
               /\ ((Raised e : outcome unit) = Returned tt -> rest = [])
               /\ forall c,
                    Treasury.get_balance c s
                    = debited_balance c debited (Treasury.get_balance c self)).
  { intros e s Hs Hb. exists [], (tx :: txs). simpl. rewrite Hs, app_nil_r.
    split; [done|]. split; [done|]. split; [done|].
    intros c. unfold Treasury.get_balance. by rewrite Hb. }
  destruct o as [[]|e]; simpl;
    [|by apply (Hstop _ (Treasury.set_policy_manager pm' self))].
  destruct (Treasury.balances self !! Transaction.coin_type tx) as [balance|] eqn:Hb;
    simpl; [|by apply (Hstop _ (Treasury.set_policy_manager pm' self))].
  unfold TreasuryBalance.withdraw.
  destruct (Float.leb (Transaction.amount tx) Float.zero); simpl;
    [by apply (Hstop _ (Treasury.set_policy_manager pm' self))|].
  destruct (Float.gtb _ _); simpl;
    [by apply (Hstop _ (Treasury.set_policy_manager pm' self))|].
  match goal with |- context [Treasury.execute_transactions _ _ _ _ txs ?s] =>
    destruct (IH s) as (debited & rest & Htxs & Hrec & Hret & Hbal) end.
  exists (tx :: debited), rest. simpl in Hrec. rewrite Hrec, <- app_assoc.
  split; [by rewrite Htxs|]. split; [done|]. split; [done|].
  intros c. rewrite (Hbal c). unfold debited_balance. cbn [fold_left].
  f_equal. unfold Treasury.get_balance. simpl.
  destruct (decide (Transaction.coin_type tx = c)) as [<-|Hne].
  - by rewrite lookup_insert_eq, Hb.
  - by rewrite lookup_insert_ne.
Qed.

(** X24. [execute_proposal] keeps balances and records in step: when its
    preconditions hold (the end of the time lock being a [datetime]), the
    transactions it records are a prefix of the proposal's transactions
    (all of them when it returns), and for every coin type the balance
    after the call is the balance before, less the recorded amounts in that
    coin, subtracted one by one in order with the rounding of floats; this
    holds also when the call fails partway. *)
Theorem execute_proposal_accounts {BI : Builtins}
    (now : time) (proposal_id executor : string)
    (current_time : option time) (self : Treasury.t) (p : Proposal.t) :
  Treasury.proposals self !! proposal_id = Some p ->
  lock_end_representable p ->
  ready p (default now current_time) ->
  let r := Treasury.execute_proposal now proposal_id executor current_time self in
  exists debited rest,
    Proposal.transactions p = debited ++ rest
    /\ Treasury.spending_records r.2
       = Treasury.spending_records self
         ++ map (record_of proposal_id p (default now current_time)) debited
    /\ (r.1 = Returned tt -> rest = [])
    /\ forall c,
         Treasury.get_balance c r.2
         = debited_balance c debited (Treasury.get_balance c self).
Proof.
  intros Hp Hrep Hready. apply (can_execute_ready _ _ Hrep) in Hready.
  unfold Treasury.execute_proposal. rewrite Hp, Hready. simpl.
  unfold Treasury.execute_checked.
  pose proof (execute_transactions_accounts now proposal_id p
                (default now current_time) (Proposal.transactions p) self) as H.
  destruct (Treasury.execute_transactions _ _ _ _ _ _) as [[[]|e] self1]; exact H.
Qed.

Lemma execute_proposal_accounts_witness :
  Treasury.proposals Scenario.signed !! "p1" = Some Scenario.p1
  /\ lock_end_representable Scenario.p1
  /\ ready Scenario.p1 3601
  /\ Treasury.get_balance "SUI" Scenario.basic
     = debited_balance "SUI" (Proposal.transactions Scenario.p1)
         (Treasury.get_balance "SUI" Scenario.signed).
Proof.
  assert (Hp : Treasury.proposals Scenario.signed !! "p1" = Some Scenario.p1)
    by (vm_compute; reflexivity).
  assert (Hrep : lock_end_representable Scenario.p1).
  { unfold lock_end_representable. vm_compute. repeat split; discriminate. }
  assert (Hready : ready Scenario.p1 3601).
  { repeat split; [vm_compute; discriminate | vm_compute; discriminate |].
    right. reflexivity. }
  split; [exact Hp|]. split; [exact Hrep|]. split; [exact Hready|].
  destruct (execute_proposal_accounts 3601 "p1" "a" (Some 3601) Scenario.signed
              Scenario.p1 Hp Hrep Hready)
    as (debited & rest & Htxs & _ & Hret & Hbal).
  rewrite Htxs, (Hret ltac:(vm_compute; reflexivity)), app_nil_r.
  exact (Hbal "SUI").
Defined.

(** ** The required threshold *)





(** ** Spending limits *)




(** ** Amount ranges *)

(** X27. The ranges of an [AmountThresholdPolicy] are half-open.  With
    three adjoining ranges [[a,b) -> t1], [[b,c) -> t2], [[c,inf) -> t3],
    an amount on a boundary belongs to the upper range; an amount below
    every range, and NaN, fall back to the threshold of the last range. *)
Theorem threshold_ranges_half_open (policy_id : string) (a b c : float)
    (t1 t2 t3 : Z) (x : float) :
  Float.ltb a b = true -> Float.ltb b c = true ->
  let q := AmountThresholdPolicy.mk policy_id true
             [(a, b, t1); (b, c, t2); (c, Float.inf, t3)] in
  (Float.leb a x = true -> Float.ltb x b = true ->
   AmountThresholdPolicy.get_required_threshold q x = t1)
  /\ (Float.leb b x = true -> Float.ltb x c = true ->
      AmountThresholdPolicy.get_required_threshold q x = t2)
  /\ (Float.leb c x = true -> AmountThresholdPolicy.get_required_threshold q x = t3)
  /\ (Float.ltb x a = true -> AmountThresholdPolicy.get_required_threshold q x = t3)
  /\ (Float.is_nan x = true ->
      AmountThresholdPolicy.get_required_threshold q x = t3).
Proof.
  intros Hab Hbc q. subst q.
  unfold AmountThresholdPolicy.get_required_threshold,
    AmountThresholdPolicy.in_range. cbn [AmountThresholdPolicy.thresholds List.find].
  split; [|split; [|split; [|split]]].
  - intros Hax Hxb. by rewrite Hax, Hxb.
  - intros Hbx Hxc. rewrite (leb_not_gtb b x Hbx), andb_false_r. by rewrite Hbx, Hxc.
  - intros Hcx.
    assert (Hbx : Float.leb b x = true).
    { apply leb_true. apply ltb_true in Hab as (_ & Hb & _).
      pose proof (ltb_leb_trans b c x Hbc Hcx) as (_ & Hx & Hlt)%ltb_true. auto. }
    rewrite (leb_not_gtb b x Hbx), andb_false_r.
    rewrite (leb_not_gtb c x Hcx), andb_false_r.
    by destruct (_ && _).
  - intros Hxa.
    pose proof (ltb_trans x a b Hxa Hab) as Hxb.
    pose proof (ltb_trans x b c Hxb Hbc) as Hxc.
    by rewrite (ltb_not_geb x a Hxa), (ltb_not_geb x b Hxb), (ltb_not_geb x c Hxc).
  - intros Hnan. destruct x; try discriminate Hnan.
    assert (Hno : forall y, Float.leb y S754_nan = false) by (by intros []).
    by rewrite !Hno.
Qed.

Lemma threshold_ranges_half_open_witness :
  Float.ltb (Float.of_Z 0) (Float.of_Z 1000) = true
  /\ Float.ltb (Float.of_Z 1000) (Float.of_Z 10000) = true
  /\ Float.leb (Float.of_Z 1000) (Float.of_Z 1000) = true
  /\ AmountThresholdPolicy.get_required_threshold Scenario.amount_ranges
       (Float.of_Z 1000)
     = 3.
Proof.
  assert (H1 : Float.ltb (Float.of_Z 0) (Float.of_Z 1000) = true) by reflexivity.
  assert (H2 : Float.ltb (Float.of_Z 1000) (Float.of_Z 10000) = true) by reflexivity.
  assert (H3 : Float.leb (Float.of_Z 1000) (Float.of_Z 1000) = true) by reflexivity.
  split; [exact H1|]. split; [exact H2|]. split; [exact H3|].
  destruct (threshold_ranges_half_open "threshold1" (Float.of_Z 0) (Float.of_Z 1000)
              (Float.of_Z 10000) 2 3 4 (Float.of_Z 1000) H1 H2) as (_ & Hmid & _).
  exact (Hmid H3 H2).
Defined.
